(** * pcs-inspect: a shallow embedding of the collector, the aggregator and
    the per-policy report rows of [pcs-inspect.py], with the properties the
    specification states about them.

    Python dictionaries used as tables are [gmap string _]; JSON objects the
    script reads as structs are records, a field the script tests with
    [in] being an [option]; exceptions and [sys.exit] are results of an
    exception monad over an explicit state (the mutations made before an
    exception is raised stay in the state, as they do in Python). *)

From Stdlib Require Import ZArith Lia String Ascii List Sorted OrderedTypeEx.
From stdpp Require Import base option list gmap strings.

Local Open Scope Z_scope.
Local Open Scope string_scope.

(** ** Exceptions and the state monad *)

Inductive exn : Type :=
| KeyError (key : string)
| NameError (name : string)
| TypeError (what : string)
| SystemExit (code : Z).

Inductive res (A : Type) : Type :=
| Return (a : A)
| Raise (e : exn).
Arguments Return {A} a.
Arguments Raise {A} e.

Definition M (S A : Type) : Type := S -> S * res A.

Definition ret {S A} (a : A) : M S A := fun s => (s, Return a).

Definition raise {S A} (e : exn) : M S A := fun s => (s, Raise e).

Definition bind {S A B} (m : M S A) (f : A -> M S B) : M S B :=
  fun s => match m s with
           | (s', Return a) => f a s'
           | (s', Raise e) => (s', Raise e)
           end.

Declare Scope py_scope.
Delimit Scope py_scope with py.
Notation "x <- m ;; k" := (bind m (fun x => k))
  (at level 100, m at next level, right associativity) : py_scope.
Notation "m ;; k" := (bind m (fun _ => k))
  (at level 100, right associativity) : py_scope.
Local Open Scope py_scope.

Definition get_state {S} : M S S := fun s => (s, Return s).

Definition modify {S} (f : S -> S) : M S unit := fun s => (f s, Return tt).

Definition lift {S A} (r : res A) : M S A := fun s => (s, r).

(** [for x in l: body x] *)
Fixpoint for_each {S A} (l : list A) (body : A -> M S unit) : M S unit :=
  match l with
  | [] => ret tt
  | x :: l' => body x ;; for_each l' body
  end.

(** A statement that reads one table of the state, computes a new table or
    raises, and writes the table back. *)
Definition update {S T} (proj : S -> T) (put : T -> S -> S) (f : T -> res T)
  : M S unit :=
  fun s => match f (proj s) with
           | Return t => (put t s, Return tt)
           | Raise e => (s, Raise e)
           end.

(** ** Dictionary operations *)

(** [d[k]] *)
Definition getitem {V} (d : gmap string V) (k : string) : res V :=
  match d !! k with
  | Some v => Return v
  | None => Raise (KeyError k)
  end.

(** [d[k] += n] *)
Definition iadd (k : string) (n : Z) (d : gmap string Z) : res (gmap string Z) :=
  match d !! k with
  | Some v => Return (<[k := v + n]> d)
  | None => Raise (KeyError k)
  end.

(** [d.setdefault(k, v)] *)
Definition setdefault {V} (k : string) (v : V) (d : gmap string V) : gmap string V :=
  match d !! k with
  | Some _ => d
  | None => <[k := v]> d
  end.

(** [d[k][k2] += n] on a table of tables *)
Definition iadd2 (k k2 : string) (n : Z) (d : gmap string (gmap string Z))
  : res (gmap string (gmap string Z)) :=
  match d !! k with
  | Some row =>
      match iadd k2 n row with
      | Return row' => Return (<[k := row']> d)
      | Raise e => Raise e
      end
  | None => Raise (KeyError k)
  end.

(** Reading a counter for a statement: an absent key reads as [0]. *)
Definition count_of (d : gmap string Z) (k : string) : Z := default 0 (d !! k).

(** [list(set(l)); .sort()]: the distinct strings of [l] in increasing order. *)
Fixpoint insert_sorted (x : string) (l : list string) : list string :=
  match l with
  | [] => [x]
  | y :: l' =>
      match String.compare x y with
      | Lt => x :: l
      | Eq => l
      | Gt => y :: insert_sorted x l'
      end
  end.

Definition sorted_set (l : list string) : list string := foldr insert_sorted [] l.

(** [sorted(d)]: the keys of a table in increasing order. *)
Definition sorted_keys {V} (d : gmap string V) : list string :=
  sorted_set (map fst (map_to_list d)).

(** ** Data read from the collected files *)

(** An element of the policies file. *)
Record Policy : Type := mkPolicy {
  policyId : string;
  name : string;
  enabled : bool;
  severity : string;
  policyType : string;
  policySubTypes : list string;
  remediable : bool;
  systemDefault : bool;
  policyUpi : option string;
  openAlertsCount : Z;
  complianceMetadata : option (list string)   (* the standardName of each entry *)
}.

(** An element of the alerts file of the full API: the fields of
    [alert['policy']], the status and the optional reason. *)
Record Alert : Type := mkAlert {
  alert_policyId : string;
  alert_systemDefault : bool;
  alert_policyType : string;
  alert_remediable : bool;
  status : string;
  reason : option string
}.

(** An item of an aggregate response: the grouping value and its count. *)
Record AggItem : Type := mkAggItem { agg_key : string; agg_alerts : Z }.

(** The alerts file written with the support API: four aggregate responses. *)
Record AggregatedFile : Type := mkAggregatedFile {
  by_policy : list AggItem;
  by_policy_type : list AggItem;
  by_policy_severity : list AggItem;
  by_alert_status : list AggItem
}.

(** [DATA['ALERTS']] is a list (full API) or a dictionary (support API). *)
Inductive AlertsData : Type :=
| AlertsList (alerts : list Alert)
| AlertsDict (aggregated : AggregatedFile).

(** ** RESULTS *)

(** [RESULTS['policies'][policy_id]]; its keys 'policyType' and 'policyUpi'
    are [policyTypeOf] and [policyUpiOf] here, [Policy] having fields of
    these names. *)
Record PolicyInfo : Type := mkPolicyInfo {
  policyName : string;
  policyEnabled : bool;
  policySeverity : string;
  policyTypeOf : string;
  policyShiftable : bool;
  policyRemediable : bool;
  policySystemDefault : bool;
  policyUpiOf : string;
  alertCount : Z;
  complianceStandards : list string
}.

(** [RESULTS['aggregated_alerts_by']] *)
Record AlertsBy : Type := mkAlertsBy {
  by_policy_name : gmap string Z;
  by_type : gmap string Z;
  by_severity : gmap string Z;
  by_status : gmap string Z
}.

(** A value of [RESULTS['policy_counts_from_alerts']]: the table is seeded
    with integers and later given one dictionary per policy name. *)
Inductive PolicyCount : Type :=
| SeedCount (n : Z)
| NameCount (policy_id : string) (alert_count : Z).

(** The tables of [RESULTS].  [policies_disabled] and
    [aggregated_alerts_by] are [None] while the key is absent from
    [RESULTS]; every other table is created by [process_collected_data]
    before the first statement that reads it. *)
Record Results : Type := mkResults {
  aggregated_alerts_by : option AlertsBy;
  policies_by_name : gmap string string;
  policies : gmap string PolicyInfo;
  compliance_standards_counts_from_policies : gmap string (gmap string Z);
  alert_counts_from_policies : gmap string Z;
  compliance_standards_counts_from_alerts : gmap string (gmap string Z);
  policy_counts_from_alerts : gmap string PolicyCount;
  policy_totals_by_alert : gmap string Z;
  alert_totals_by_alert : gmap string Z;
  policies_deleted : gmap string Z;
  policies_disabled : option (gmap string Z);
  summary : gmap string Z
}.

Definition empty_results : Results :=
  mkResults None ∅ ∅ ∅ ∅ ∅ ∅ ∅ ∅ ∅ None ∅.

(** Assignment to one table of [RESULTS]. *)
Definition put_aggregated_alerts_by (v : option AlertsBy) (r : Results) : Results :=
  mkResults v (policies_by_name r) (policies r)
    (compliance_standards_counts_from_policies r)
    (alert_counts_from_policies r) (compliance_standards_counts_from_alerts r)
    (policy_counts_from_alerts r) (policy_totals_by_alert r)
    (alert_totals_by_alert r) (policies_deleted r) (policies_disabled r)
    (summary r).

Definition put_policies_by_name (v : gmap string string) (r : Results) : Results :=
  mkResults (aggregated_alerts_by r) v (policies r)
    (compliance_standards_counts_from_policies r)
    (alert_counts_from_policies r) (compliance_standards_counts_from_alerts r)
    (policy_counts_from_alerts r) (policy_totals_by_alert r)
    (alert_totals_by_alert r) (policies_deleted r) (policies_disabled r)
    (summary r).

Definition put_policies (v : gmap string PolicyInfo) (r : Results) : Results :=
  mkResults (aggregated_alerts_by r) (policies_by_name r) v
    (compliance_standards_counts_from_policies r)
    (alert_counts_from_policies r) (compliance_standards_counts_from_alerts r)
    (policy_counts_from_alerts r) (policy_totals_by_alert r)
    (alert_totals_by_alert r) (policies_deleted r) (policies_disabled r)
    (summary r).

Definition put_compliance_standards_counts_from_policies
    (v : gmap string (gmap string Z)) (r : Results) : Results :=
  mkResults (aggregated_alerts_by r) (policies_by_name r) (policies r) v
    (alert_counts_from_policies r) (compliance_standards_counts_from_alerts r)
    (policy_counts_from_alerts r) (policy_totals_by_alert r)
    (alert_totals_by_alert r) (policies_deleted r) (policies_disabled r)
    (summary r).

Definition put_alert_counts_from_policies (v : gmap string Z) (r : Results) : Results :=
  mkResults (aggregated_alerts_by r) (policies_by_name r) (policies r)
    (compliance_standards_counts_from_policies r) v
    (compliance_standards_counts_from_alerts r) (policy_counts_from_alerts r)
    (policy_totals_by_alert r) (alert_totals_by_alert r) (policies_deleted r)
    (policies_disabled r) (summary r).

Definition put_compliance_standards_counts_from_alerts
    (v : gmap string (gmap string Z)) (r : Results) : Results :=
  mkResults (aggregated_alerts_by r) (policies_by_name r) (policies r)
    (compliance_standards_counts_from_policies r)
    (alert_counts_from_policies r) v (policy_counts_from_alerts r)
    (policy_totals_by_alert r) (alert_totals_by_alert r) (policies_deleted r)
    (policies_disabled r) (summary r).

Definition put_policy_counts_from_alerts (v : gmap string PolicyCount) (r : Results) : Results :=
  mkResults (aggregated_alerts_by r) (policies_by_name r) (policies r)
    (compliance_standards_counts_from_policies r)
    (alert_counts_from_policies r) (compliance_standards_counts_from_alerts r)
    v (policy_totals_by_alert r) (alert_totals_by_alert r)
    (policies_deleted r) (policies_disabled r) (summary r).

Definition put_policy_totals_by_alert (v : gmap string Z) (r : Results) : Results :=
  mkResults (aggregated_alerts_by r) (policies_by_name r) (policies r)
    (compliance_standards_counts_from_policies r)
    (alert_counts_from_policies r) (compliance_standards_counts_from_alerts r)
    (policy_counts_from_alerts r) v (alert_totals_by_alert r)
    (policies_deleted r) (policies_disabled r) (summary r).

Definition put_alert_totals_by_alert (v : gmap string Z) (r : Results) : Results :=
  mkResults (aggregated_alerts_by r) (policies_by_name r) (policies r)
    (compliance_standards_counts_from_policies r)
    (alert_counts_from_policies r) (compliance_standards_counts_from_alerts r)
    (policy_counts_from_alerts r) (policy_totals_by_alert r) v
    (policies_deleted r) (policies_disabled r) (summary r).

Definition put_policies_deleted (v : gmap string Z) (r : Results) : Results :=
  mkResults (aggregated_alerts_by r) (policies_by_name r) (policies r)
    (compliance_standards_counts_from_policies r)
    (alert_counts_from_policies r) (compliance_standards_counts_from_alerts r)
    (policy_counts_from_alerts r) (policy_totals_by_alert r)
    (alert_totals_by_alert r) v (policies_disabled r) (summary r).

Definition put_policies_disabled (v : option (gmap string Z)) (r : Results) : Results :=
  mkResults (aggregated_alerts_by r) (policies_by_name r) (policies r)
    (compliance_standards_counts_from_policies r)
    (alert_counts_from_policies r) (compliance_standards_counts_from_alerts r)
    (policy_counts_from_alerts r) (policy_totals_by_alert r)
    (alert_totals_by_alert r) (policies_deleted r) v (summary r).

Definition put_summary (v : gmap string Z) (r : Results) : Results :=
  mkResults (aggregated_alerts_by r) (policies_by_name r) (policies r)
    (compliance_standards_counts_from_policies r)
    (alert_counts_from_policies r) (compliance_standards_counts_from_alerts r)
    (policy_counts_from_alerts r) (policy_totals_by_alert r)
    (alert_totals_by_alert r) (policies_deleted r) (policies_disabled r) v.

(** An element of the accounts file. *)
Record Account : Type := mkAccount {
  accountId : string;
  cloudType : string;
  accountType : string;
  numberOfChildAccounts : Z;
  account_enabled : option bool
}.

(** [DATA]: the parsed result files.  Of the users, groups, alert rules and
    integrations the script reads the length and each ['enabled']. *)
Record Data : Type := mkData {
  ASSETS : Z;                       (* DATA['ASSETS']['summary']['totalResources'] *)
  POLICIES : list Policy;
  ALERTS : AlertsData;
  USERS : list (option bool);
  ACCOUNTS : list Account;
  GROUPS : list (option bool);
  RULES : list (option bool);
  INTEGRATIONS : list (option bool)
}.

(** ** The aggregator *)

Definition seed (keys : list string) : gmap string Z :=
  list_to_map (map (fun k => (k, 0)) keys).

Definition severities : list string := ["high"; "medium"; "low"].

Definition policy_types : list string :=
  ["anomaly"; "audit_event"; "config"; "data"; "iam"; "network"].

Definition alert_statuses : list string :=
  ["open"; "resolved"; "dismissed"; "snoozed"].

(** The row [{'high': 0, 'medium': 0, 'low': 0}] of a compliance rollup. *)
Definition zero_row : gmap string Z := seed severities.

(** [for item in items: d[item[key]] = item['alerts']] *)
Definition fill (items : list AggItem) (d : gmap string Z) : gmap string Z :=
  foldl (fun d item => <[agg_key item := agg_alerts item]> d) d items.

(** [process_aggregated_alerts(alerts)]; subscripting a list with a string
    raises. *)
Definition process_aggregated_alerts (alerts : AlertsData) : res AlertsBy :=
  match alerts with
  | AlertsList _ => Raise (TypeError "list indices must be integers or slices, not str")
  | AlertsDict a =>
      Return (mkAlertsBy
                (fill (by_policy a) ∅)
                (fill (by_policy_type a)
                      (seed ["anomaly"; "audit_event"; "config"; "data"; "iam"]))
                (fill (by_policy_severity a) (seed ["high"; "medium"; "low"]))
                (fill (by_alert_status a) (seed ["open"; "resolved"])))
  end.

(** [RESULTS['aggregated_alerts_by']] *)
Definition read_aggregated_alerts_by : M Results AlertsBy :=
  fun r => match aggregated_alerts_by r with
           | Some a => (r, Return a)
           | None => (r, Raise (KeyError "aggregated_alerts_by"))
           end.

(** [RESULTS['alert_counts_from_policies'][k] += n] *)
Definition add_alert_counts_from_policies (k : string) (n : Z) : M Results unit :=
  update alert_counts_from_policies put_alert_counts_from_policies (iadd k n).

(** [RESULTS['alert_totals_by_alert'][k] += n] *)
Definition add_alert_totals_by_alert (k : string) (n : Z) : M Results unit :=
  update alert_totals_by_alert put_alert_totals_by_alert (iadd k n).

(** [RESULTS['policy_totals_by_alert'][k] += n] *)
Definition add_policy_totals_by_alert (k : string) (n : Z) : M Results unit :=
  update policy_totals_by_alert put_policy_totals_by_alert (iadd k n).

(** The open-alert count of a policy: the aggregate of the policy's name
    with the support API (0 when there is none), else [openAlertsCount]. *)
Definition policy_alert_count (support : bool) (p : Policy) : M Results Z :=
  if support then
    agg <- read_aggregated_alerts_by ;;
    ret (default 0 (by_policy_name agg !! name p))
  else ret (openAlertsCount p).

(** The entry of [RESULTS['policies']] built by lines 577-595 and 608. *)
Definition policy_info (p : Policy) (count : Z) (standards : list string) : PolicyInfo :=
  mkPolicyInfo (name p) (enabled p) (severity p) (policyType p)
    (bool_decide ("build" ∈ policySubTypes p)) (remediable p) (systemDefault p)
    (default "CUSTOM" (policyUpi p)) count standards.

(** One standard of one policy: lines 617-618. *)
Definition attribute_standard_from_policy (sev : string) (count : Z) (std : string)
  : M Results unit :=
  modify (fun r => put_compliance_standards_counts_from_policies
                     (setdefault std zero_row (compliance_standards_counts_from_policies r)) r) ;;
  update compliance_standards_counts_from_policies
         put_compliance_standards_counts_from_policies (iadd2 std sev count).

(** The body of the loop of [process_policies].  The entry of
    [RESULTS['policies']] is written once its fields up to [alertCount] are
    known, with the empty list of standards of line 608, and again at
    line 615. *)
Definition process_policy (support : bool) (p : Policy) : M Results unit :=
  let this_policy_id := policyId p in
  modify (fun r => put_policies_by_name (<[name p := this_policy_id]> (policies_by_name r)) r) ;;
  count <- policy_alert_count support p ;;
  modify (fun r => put_policies (<[this_policy_id := policy_info p count []]> (policies r)) r) ;;
  add_alert_counts_from_policies "open" count ;;
  add_alert_counts_from_policies ("open_" ++ severity p) count ;;
  add_alert_counts_from_policies (policyType p) count ;;
  (if remediable p then add_alert_counts_from_policies "remediable" count else ret tt) ;;
  (if bool_decide ("build" ∈ policySubTypes p)
   then add_alert_counts_from_policies "shiftable" count else ret tt) ;;
  (if systemDefault p then add_alert_counts_from_policies "default" count
   else add_alert_counts_from_policies "custom" count) ;;
  match complianceMetadata p with
  | None => ret tt
  | Some names =>
      let compliance_standards_list := sorted_set names in
      modify (fun r =>
                put_policies
                  (<[this_policy_id := policy_info p count compliance_standards_list]>
                     (policies r)) r) ;;
      for_each compliance_standards_list (attribute_standard_from_policy (severity p) count)
  end.

Definition process_policies (support : bool) (policies : list Policy) : M Results unit :=
  for_each policies (process_policy support).

(** *** Alerts *)

(** Lines 643-656: what is counted from the alert alone. *)
Definition alert_level_counts (a : Alert) : M Results unit :=
  (if alert_systemDefault a then add_alert_totals_by_alert "default" 1
   else add_alert_totals_by_alert "custom" 1) ;;
  add_alert_totals_by_alert (alert_policyType a) 1 ;;
  (if alert_remediable a then
     add_alert_totals_by_alert "remediable" 1 ;;
     add_alert_totals_by_alert ("remediable_" ++ status a) 1
   else ret tt) ;;
  add_alert_totals_by_alert (status a) 1 ;;
  match reason a with
  | Some rsn =>
      (if String.eqb rsn "RESOURCE_DELETED"
       then add_alert_totals_by_alert "resolved_deleted" 1 else ret tt) ;;
      (if String.eqb rsn "RESOURCE_UPDATED"
       then add_alert_totals_by_alert "resolved_updated" 1 else ret tt)
  | None => ret tt
  end.

(** Line 658, [this_policy_id in policies]: [policies] is neither a
    parameter nor a local of [process_alerts], so the name is looked up in
    the module's globals.  [binding] is the membership test of the object
    bound to that name there, [None] when the name is unbound. *)
Definition in_policies (binding : option (string -> bool)) (this_policy_id : string)
  : M Results bool :=
  match binding with
  | Some mem => ret (mem this_policy_id)
  | None => raise (NameError "policies")
  end.

(** No statement of the module binds the name [policies]. *)
Definition module_policies : option (string -> bool) := None.

(** Lines 659-665: the alert's policy is not in [policies]. *)
Definition policy_deleted_branch (a : Alert) : M Results unit :=
  match reason a with
  | None => raise (KeyError "reason")
  | Some rsn =>
      if String.eqb rsn "POLICY_DELETED" then
        modify (fun r => put_policies_deleted
                           (setdefault (alert_policyId a) 0 (policies_deleted r)) r) ;;
        update policies_deleted put_policies_deleted (iadd (alert_policyId a) 1) ;;
        add_alert_totals_by_alert "policy_deleted" 1
      else ret tt
  end.

(** [RESULTS['policies'][this_policy_id]] *)
Definition read_policy (this_policy_id : string) : M Results PolicyInfo :=
  fun r => (r, getitem (policies r) this_policy_id).

(** [RESULTS['policy_counts_from_alerts'][policy_name]['alertCount'] += 1] *)
Definition bump_policy_count (policy_name : string) (d : gmap string PolicyCount)
  : res (gmap string PolicyCount) :=
  match d !! policy_name with
  | None => Raise (KeyError policy_name)
  | Some (SeedCount _) => Raise (TypeError "'int' object is not subscriptable")
  | Some (NameCount pid n) => Return (<[policy_name := NameCount pid (n + 1)]> d)
  end.

(** Lines 673-676: the policy is disabled. *)
Definition policy_disabled_branch (policy_name : string) : M Results unit :=
  update policies_disabled put_policies_disabled
         (fun t => match t with
                   | None => Raise (KeyError "policies_disabled")
                   | Some d => Return (Some (setdefault policy_name 0 d))
                   end) ;;
  update policies_disabled put_policies_disabled
         (fun t => match t with
                   | None => Raise (KeyError "policies_disabled")
                   | Some d => match iadd policy_name 1 d with
                               | Return d' => Return (Some d')
                               | Raise e => Raise e
                               end
                   end) ;;
  add_alert_totals_by_alert "policies_disabled" 1.

(** One standard of the policy of one alert: lines 679-680. *)
Definition attribute_standard_from_alert (sev : string) (std : string) : M Results unit :=
  modify (fun r => put_compliance_standards_counts_from_alerts
                     (setdefault std zero_row (compliance_standards_counts_from_alerts r)) r) ;;
  update compliance_standards_counts_from_alerts
         put_compliance_standards_counts_from_alerts (iadd2 std sev 1).

(** Lines 667-684: what is counted through the related policy. *)
Definition policy_level_counts (a : Alert) : M Results unit :=
  let this_policy_id := alert_policyId a in
  info <- read_policy this_policy_id ;;
  let policy_name := policyName info in
  modify (fun r => put_policy_counts_from_alerts
                     (setdefault policy_name (NameCount this_policy_id 0)
                                 (policy_counts_from_alerts r)) r) ;;
  update policy_counts_from_alerts put_policy_counts_from_alerts
         (bump_policy_count policy_name) ;;
  add_policy_totals_by_alert (policySeverity info) 1 ;;
  add_policy_totals_by_alert (policyTypeOf info) 1 ;;
  (if policyEnabled info then ret tt else policy_disabled_branch policy_name) ;;
  for_each (complianceStandards info) (attribute_standard_from_alert (policySeverity info)) ;;
  (if policyShiftable info then add_alert_totals_by_alert "shiftable" 1 else ret tt) ;;
  add_alert_totals_by_alert (status a ++ "_" ++ policySeverity info) 1.

(** The body of the loop of [process_alerts] (full API). *)
Definition process_alert (binding : option (string -> bool)) (a : Alert) : M Results unit :=
  alert_level_counts a ;;
  found <- in_policies binding (alert_policyId a) ;;
  if negb found then policy_deleted_branch a
  else policy_level_counts a.

(** [RESULTS['policy_totals_by_alert'][k] = table[k2]] and the like *)
Definition copy_to_policy_totals (k : string) (table : gmap string Z) (k2 : string)
  : M Results unit :=
  v <- lift (getitem table k2) ;;
  modify (fun r => put_policy_totals_by_alert (<[k := v]> (policy_totals_by_alert r)) r).

Definition copy_to_alert_totals (k : string) (table : gmap string Z) (k2 : string)
  : M Results unit :=
  v <- lift (getitem table k2) ;;
  modify (fun r => put_alert_totals_by_alert (<[k := v]> (alert_totals_by_alert r)) r).

(** Lines 629-639: the totals of the support API. *)
Definition process_alerts_support : M Results unit :=
  agg <- read_aggregated_alerts_by ;;
  copy_to_policy_totals "high" (by_severity agg) "high" ;;
  copy_to_policy_totals "medium" (by_severity agg) "medium" ;;
  copy_to_policy_totals "low" (by_severity agg) "low" ;;
  copy_to_policy_totals "anomaly" (by_type agg) "anomaly" ;;
  copy_to_policy_totals "audit_event" (by_type agg) "audit_event" ;;
  copy_to_policy_totals "config" (by_type agg) "config" ;;
  copy_to_policy_totals "data" (by_type agg) "data" ;;
  copy_to_policy_totals "iam" (by_type agg) "iam" ;;
  copy_to_policy_totals "network" (by_type agg) "network" ;;
  copy_to_alert_totals "open" (by_status agg) "open" ;;
  copy_to_alert_totals "resolved" (by_status agg) "resolved".

(** [process_alerts(alerts)], with the binding of its free name [policies].
    Iterating over the dictionary of the support API yields its keys, and
    subscripting a key with ['policy'] raises. *)
Definition process_alerts_with (binding : option (string -> bool)) (support : bool)
    (alerts : AlertsData) : M Results unit :=
  if support then process_alerts_support
  else match alerts with
       | AlertsList l => for_each l (process_alert binding)
       | AlertsDict _ => raise (TypeError "string indices must be integers")
       end.

(** [process_alerts] as it runs in the module. *)
Definition process_alerts : bool -> AlertsData -> M Results unit :=
  process_alerts_with module_policies.

(** *** process_collected_data *)

Definition alert_counts_from_policies_seed : gmap string Z :=
  seed ["open"; "open_high"; "open_medium"; "open_low";
        "anomaly"; "audit_event"; "config"; "data"; "iam"; "network";
        "remediable"; "shiftable"; "custom"; "default"].

Definition policy_counts_from_alerts_seed : gmap string PolicyCount :=
  list_to_map (map (fun k => (k, SeedCount 0))
    ["high"; "medium"; "low";
     "anomaly"; "audit_event"; "config"; "data"; "iam"; "network";
     "custom"; "default"]).

Definition alert_totals_by_alert_seed : gmap string Z :=
  seed ["dismissed"; "dismissed_high"; "dismissed_medium"; "dismissed_low";
        "open"; "open_high"; "open_medium"; "open_low";
        "policy_deleted"; "policy_disabled";
        "resolved"; "resolved_high"; "resolved_medium"; "resolved_low";
        "resolved_deleted"; "resolved_updated";
        "remediable"; "remediable_open"; "remediable_resolved";
        "snoozed"; "snoozed_high"; "snoozed_medium"; "snoozed_low";
        "shiftable";
        "anomaly"; "audit_event"; "config"; "data"; "iam"; "network";
        "custom"; "default"].

(** [sum(test(v) for k, v in d.items())] *)
Definition count_values {V} (test : V -> bool) (d : gmap string V) : Z :=
  Z.of_nat (length (filter (fun kv => test (snd kv) = true) (map_to_list d))).

(** [len(DATA['ALERTS'])]: the dictionary of the support API has four keys. *)
Definition len_alerts (alerts : AlertsData) : Z :=
  match alerts with
  | AlertsList l => Z.of_nat (length l)
  | AlertsDict _ => 4
  end.

Definition set_summary (k : string) (v : Z) : M Results unit :=
  modify (fun r => put_summary (<[k := v]> (summary r)) r).

Definition process_summary (support : bool) (DATA : Data) : M Results unit :=
  set_summary "asset_count" (ASSETS DATA) ;;
  r <- get_state ;;
  set_summary "count_of_compliance_standards_with_alerts_from_policies"
    (count_values (fun v => bool_decide (v <> zero_row))
                  (compliance_standards_counts_from_policies r)) ;;
  if support then
    agg <- read_aggregated_alerts_by ;;
    n <- lift (getitem (by_status agg) "open") ;;
    set_summary "alert_count" n ;;
    set_summary "count_of_policies_with_alerts_from_policies"
      (Z.of_nat (size (by_policy_name agg)))
  else
    set_summary "alert_count" (len_alerts (ALERTS DATA)) ;;
    set_summary "count_of_policies_with_alerts_from_policies"
      (count_values (fun v => bool_decide (alertCount v <> 0)) (policies r)) ;;
    set_summary "count_of_compliance_standards_with_alerts_from_alerts"
      (Z.of_nat (size (compliance_standards_counts_from_alerts r))) ;;
    set_summary "count_of_policies_with_alerts_from_alerts"
      (Z.of_nat (size (policy_counts_from_alerts r))).

(** The tables created before [process_policies] (lines 469-487). *)
Definition init_policy_tables : M Results unit :=
  modify (put_policies_by_name ∅) ;;
  modify (put_policies ∅) ;;
  modify (put_compliance_standards_counts_from_policies ∅) ;;
  modify (put_alert_counts_from_policies alert_counts_from_policies_seed).

(** The tables created before [process_alerts] (lines 490-539). *)
Definition init_alert_tables : M Results unit :=
  modify (put_compliance_standards_counts_from_alerts ∅) ;;
  modify (put_policy_counts_from_alerts policy_counts_from_alerts_seed) ;;
  modify (put_policy_totals_by_alert ∅) ;;
  modify (put_alert_totals_by_alert alert_totals_by_alert_seed) ;;
  modify (put_policies_deleted ∅).

(** [process_collected_data()], for a value of [CONFIG['SUPPORT_API_MODE']]
    and a binding of the free name of [process_alerts]. *)
Definition process_collected_data_with (binding : option (string -> bool))
    (support : bool) (DATA : Data) : M Results unit :=
  (if support then
     agg <- lift (process_aggregated_alerts (ALERTS DATA)) ;;
     modify (put_aggregated_alerts_by (Some agg))
   else ret tt) ;;
  init_policy_tables ;;
  process_policies support (POLICIES DATA) ;;
  init_alert_tables ;;
  process_alerts_with binding support (ALERTS DATA) ;;
  modify (put_summary ∅) ;;
  process_summary support DATA.

Definition process_collected_data : bool -> Data -> M Results unit :=
  process_collected_data_with module_policies.

(** Lines 737-738: a dictionary in the alerts file turns the support mode
    on; nothing turns it off. *)
Definition is_dict (alerts : AlertsData) : bool :=
  match alerts with
  | AlertsDict _ => true
  | AlertsList _ => false
  end.

Definition support_mode_for_processing (flag : bool) (alerts : AlertsData) : bool :=
  if is_dict alerts then true else flag.

(** Lines 733-740 after [read_collected_data]: [flag] is
    [CONFIG['SUPPORT_API_MODE']] as [configure] set it from the command
    line.  The result is the final [RESULTS] and how processing ended. *)
Definition process_mode (flag : bool) (DATA : Data) : Results * res unit :=
  process_collected_data (support_mode_for_processing flag (ALERTS DATA)) DATA
                         empty_results.

(** ** The per-policy sheets *)

(** A cell of a sheet. *)
Inductive Cell : Type :=
| CStr (s : string)
| CBool (b : bool)
| CInt (n : Z).

(** The heading of both per-policy sheets (lines 813 and 829). *)
Definition policy_sheet_header : list Cell :=
  [CStr "Policy"; CStr "Enabled"; CStr "UPI"; CStr "Severity"; CStr "Type";
   CStr "With IAC"; CStr "With Remediation"; CStr "Alert Count";
   CStr "Compliance Standards"].

(** [','.join(l)] *)
Fixpoint join_comma (l : list string) : string :=
  match l with
  | [] => EmptyString
  | [s] => s
  | s :: l' => s ++ "," ++ join_comma l'
  end.

(** The tuple appended at lines 824 and 840. *)
Definition policy_row (policy_name : string) (info : PolicyInfo) (policy_alert_count : Z)
  : list Cell :=
  let policy_enabled := policyEnabled info in
  let policy_upi := policyUpiOf info in
  let policy_severity := policySeverity info in
  let policy_type := policyTypeOf info in
  let policy_is_shiftable := policyShiftable info in
  let policy_is_remediable := policyRemediable info in
  let policy_standards_list := join_comma (complianceStandards info) in
  [CStr policy_name; CBool policy_enabled; CStr policy_upi; CStr policy_severity;
   CStr policy_type; CBool policy_is_remediable; CBool policy_is_remediable;
   CInt policy_alert_count; CStr policy_standards_list].

(** Rows are appended to the state of the loop. *)
Definition append_row (row : list Cell) : M (list (list Cell)) unit :=
  modify (fun rows => (rows ++ [row])%list).

(** Lines 812-824: the rows of 'Open Alerts by Policy'. *)
Definition open_alerts_by_policy_rows (RESULTS : Results) : M (list (list Cell)) unit :=
  append_row policy_sheet_header ;;
  for_each (sorted_keys (policies_by_name RESULTS)) (fun policy_name =>
    this_policy_id <- lift (getitem (policies_by_name RESULTS) policy_name) ;;
    info <- lift (getitem (policies RESULTS) this_policy_id) ;;
    append_row (policy_row policy_name info (alertCount info))).

(** Lines 828-843: the rows of 'Open Closed Alerts by Policy'; a seeded
    integer of [policy_counts_from_alerts] cannot be subscripted.  The two
    rows [('')] are empty strings, records without a cell. *)
Definition open_closed_alerts_by_policy_rows (time_range_label : string) (RESULTS : Results)
  : M (list (list Cell)) unit :=
  append_row policy_sheet_header ;;
  for_each (sorted_keys (policy_counts_from_alerts RESULTS)) (fun policy_name =>
    entry <- lift (getitem (policy_counts_from_alerts RESULTS) policy_name) ;;
    match entry with
    | SeedCount _ => raise (TypeError "'int' object is not subscriptable")
    | NameCount this_policy_id policy_alert_count =>
        info <- lift (getitem (policies RESULTS) this_policy_id) ;;
        append_row (policy_row policy_name info policy_alert_count)
    end) ;;
  append_row [] ;;
  append_row [] ;;
  append_row [CStr ("Time Range: " ++ time_range_label); CStr EmptyString].

(** ** The collector *)

Inductive RunMode : Type := Auto | Collect | Process.

(** The parsed command line. *)
Record Args : Type := mkArgs {
  customer_name : string;
  url : option string;
  access_key : option string;
  secret_key : option string;
  cloud_account : option string;
  time_range_amount : Z;
  time_range_unit : string;
  mode : RunMode;
  support_api : bool;
  debug : bool
}.

(** [CONFIG], without the file names and labels derived from the customer
    name. *)
Record Config : Type := mkConfig {
  DEBUG_MODE : bool;
  RUN_MODE : RunMode;
  SUPPORT_API_MODE : bool;
  PRISMA_API_ENDPOINT : option string;
  PRISMA_ACCESS_KEY : option string;
  PRISMA_SECRET_KEY : option string;
  CUSTOMER_NAME : string;
  CLOUD_ACCOUNT_ID : option string;
  TIME_RANGE_AMOUNT : Z;
  TIME_RANGE_UNIT : string
}.

(** [not v] for an optional string argument: [None] and the empty string
    are falsy. *)
Definition missing (v : option string) : bool :=
  match v with
  | None => true
  | Some s => String.eqb s EmptyString
  end.

(** What the script prints, without the values it interpolates and without
    the output of [DEBUG_MODE]. *)
Inductive Message : Type :=
| UrlRequired
| AccessKeyRequired
| SecretKeyRequired
| ErrorWithApiStatus (status_code : Z) (details : string)
| ErrorWithApi (error : string)
| ErrorWithApiLogin
| JobIdMissing
| JobStatusMissing
| JobStatusUnexpected
| Checking (job_status : string)
| ResultFileMissing
| Line (text : string).

Inductive Method : Type := GET | POST.

(** The paths the script requests below [PRISMA_API_ENDPOINT]. *)
Inductive Path : Type :=
| login_path                                   (* /login *)
| inventory_path                               (* /v2/inventory?... *)
| support_timeline_resource_path               (* /_support/timeline/resource *)
| policy_path                                  (* /policy *)
| support_policy_path                          (* /_support/policy *)
| alert_jobs_path                              (* /alert/jobs *)
| alert_job_status_path (job_id : string)      (* /alert/jobs/<id>/status *)
| alert_job_download_path (job_id : string)    (* /alert/jobs/<id>/download *)
| support_alert_aggregate_path                 (* /_support/alert/aggregate *)
| user_path                                    (* /v2/user *)
| support_user_path                            (* /v2/_support/user *)
| cloud_path                                   (* /cloud *)
| support_cloud_path                           (* /_support/cloud *)
| cloud_project_path (cloud_type account_id : string)
| support_cloud_project_path (cloud_type account_id : string)
| cloud_group_path
| support_cloud_group_path
| alert_rule_path                              (* /v2/alert/rule *)
| support_alert_rule_path
| integration_path
| support_integration_path.

Record Request : Type := mkRequest { method : Method; path : Path }.

(** How a request ends in [make_api_call]: a response with [resp.ok], a
    response without, or a [RequestException]. *)
Inductive Response (A : Type) : Type :=
| Ok (content : A)
| NotOk (status_code : Z) (text : string)
| Failed (error : string).
Arguments Ok {A} content.
Arguments NotOk {A} status_code text.
Arguments Failed {A} error.

(** The tenant the script talks to: the decoded response of each path.
    The status path of an alert job is requested repeatedly; its responses
    are listed in order, and a request beyond the list gets no response
    within [API_TIMEOUTS], which is a [RequestException]. *)
Record Server : Type := mkServer {
  login_response : Response (option string);                  (* the 'token' *)
  inventory_response : Response Z;                            (* totalResources *)
  timeline_response : Response (list (option Z));             (* 'resources' of each item *)
  policy_response : Response (list Policy);
  support_policy_response : Response (list Policy);
  alert_jobs_response : Response (option string);             (* the 'id' *)
  alert_job_status_responses : list (Response (option string));  (* the 'status' *)
  alert_job_download_response : Response (list Alert);
  alert_aggregate_response : string -> Response (list AggItem);
  user_response : Response (list (option bool));              (* 'enabled' of each *)
  cloud_response : Response (list Account);
  cloud_project_response : string -> string -> Response (list Account);
  cloud_group_response : Response (list (option bool));
  alert_rule_response : Response (list (option bool));
  integration_response : Response (list (option bool))
}.

(** The result files, each absent or with its parsed content. *)
Record Files : Type := mkFiles {
  assets_file : option Z;
  policies_file : option (list Policy);
  alerts_file : option AlertsData;
  users_file : option (list (option bool));
  accounts_file : option (list Account);
  groups_file : option (list (option bool));
  rules_file : option (list (option bool));
  integrations_file : option (list (option bool))
}.

Definition put_assets_file v (f : Files) : Files :=
  mkFiles v (policies_file f) (alerts_file f) (users_file f) (accounts_file f)
          (groups_file f) (rules_file f) (integrations_file f).
Definition put_policies_file v (f : Files) : Files :=
  mkFiles (assets_file f) v (alerts_file f) (users_file f) (accounts_file f)
          (groups_file f) (rules_file f) (integrations_file f).
Definition put_alerts_file v (f : Files) : Files :=
  mkFiles (assets_file f) (policies_file f) v (users_file f) (accounts_file f)
          (groups_file f) (rules_file f) (integrations_file f).
Definition put_users_file v (f : Files) : Files :=
  mkFiles (assets_file f) (policies_file f) (alerts_file f) v (accounts_file f)
          (groups_file f) (rules_file f) (integrations_file f).
Definition put_accounts_file v (f : Files) : Files :=
  mkFiles (assets_file f) (policies_file f) (alerts_file f) (users_file f) v
          (groups_file f) (rules_file f) (integrations_file f).
Definition put_groups_file v (f : Files) : Files :=
  mkFiles (assets_file f) (policies_file f) (alerts_file f) (users_file f)
          (accounts_file f) v (rules_file f) (integrations_file f).
Definition put_rules_file v (f : Files) : Files :=
  mkFiles (assets_file f) (policies_file f) (alerts_file f) (users_file f)
          (accounts_file f) (groups_file f) v (integrations_file f).
Definition put_integrations_file v (f : Files) : Files :=
  mkFiles (assets_file f) (policies_file f) (alerts_file f) (users_file f)
          (accounts_file f) (groups_file f) (rules_file f) v.

(** What a run has done so far: the requests sent with how each ended
    ([true] for [resp.ok]), the status responses not yet consumed, the
    files and the output. *)
Record World : Type := mkWorld {
  requests : list (Request * bool);
  status_responses : list (Response (option string));
  files : Files;
  printed : list Message
}.

Definition output (m : Message) : M World unit :=
  modify (fun w => mkWorld (requests w) (status_responses w) (files w)
                           (printed w ++ [m])%list).

Definition write_file (put : Files -> Files) : M World unit :=
  modify (fun w => mkWorld (requests w) (status_responses w) (put (files w))
                           (printed w)).

Definition sent (rq : Request) (ok : bool) : M World unit :=
  modify (fun w => mkWorld (requests w ++ [(rq, ok)])%list (status_responses w)
                           (files w) (printed w)).

(** [make_api_call(method, url, requ_data)] for a request that ends with
    [response]. *)
Definition make_api_call {A} (rq : Request) (response : Response A) : M World A :=
  match response with
  | Ok content => sent rq true ;; ret content
  | NotOk status_code text =>
      sent rq false ;;
      output (ErrorWithApiStatus status_code text) ;;
      raise (SystemExit 1)
  | Failed error =>
      sent rq false ;;
      output (ErrorWithApi error) ;;
      raise (SystemExit 1)
  end.

(** The next response of the status path of an alert job. *)
Definition next_status_response : M World (Response (option string)) :=
  fun w => match status_responses w with
           | [] => (w, Return (Failed "Read timed out."))
           | r :: rest =>
               (mkWorld (requests w) rest (files w) (printed w), Return r)
           end.

(** [configure(args)]: the configuration, or the message printed and
    [sys.exit(1)]. *)
Definition configure (args : Args) : M World Config :=
  let config :=
    mkConfig (debug args) (mode args) (support_api args) (url args)
             (access_key args) (secret_key args) (customer_name args)
             (cloud_account args) (time_range_amount args) (time_range_unit args) in
  match RUN_MODE config with
  | Auto | Collect =>
      if missing (PRISMA_API_ENDPOINT config) then
        output UrlRequired ;; raise (SystemExit 1)
      else if missing (PRISMA_ACCESS_KEY config) then
        output AccessKeyRequired ;; raise (SystemExit 1)
      else if missing (PRISMA_SECRET_KEY config) then
        output SecretKeyRequired ;; raise (SystemExit 1)
      else ret config
  | Process => ret config
  end.

Section Collector.

Variable CONFIG : Config.
Variable server : Server.

Definition get_prisma_login : M World string :=
  token <- make_api_call (mkRequest POST login_path) (login_response server) ;;
  match token with
  | Some t => if String.eqb t EmptyString then output ErrorWithApiLogin ;; raise (SystemExit 1)
              else ret t
  | None => output ErrorWithApiLogin ;; raise (SystemExit 1)
  end.

Definition get_assets : M World unit :=
  write_file (put_assets_file None) ;;
  total <-
    (if SUPPORT_API_MODE CONFIG then
       items <- make_api_call (mkRequest POST support_timeline_resource_path)
                              (timeline_response server) ;;
       match items with
       | Some resources :: _ => ret resources
       | _ => ret 0
       end
     else make_api_call (mkRequest GET inventory_path) (inventory_response server)) ;;
  write_file (put_assets_file (Some total)).

Definition get_policies : M World unit :=
  write_file (put_policies_file None) ;;
  api_response <-
    (if SUPPORT_API_MODE CONFIG
     then make_api_call (mkRequest POST support_policy_path) (support_policy_response server)
     else make_api_call (mkRequest GET policy_path) (policy_response server)) ;;
  write_file (put_policies_file (Some api_response)).

Definition get_alerts_aggregate (group_by_field : string) : M World (list AggItem) :=
  make_api_call (mkRequest POST support_alert_aggregate_path)
                (alert_aggregate_response server group_by_field).

(** One request of the status path: lines 266-271 and 277-282.  [None] is
    the early [return] on a response without 'status'. *)
Definition get_job_status (alert_job_id : string) : M World (option string) :=
  response <- next_status_response ;;
  status_field <- make_api_call (mkRequest GET (alert_job_status_path alert_job_id)) response ;;
  match status_field with
  | None => output JobStatusMissing ;; ret None
  | Some alert_job_status => ret (Some alert_job_status)
  end.

(** The loop of lines 272-282 and the branch that follows it, entered with
    the status last read.  Each turn of the loop consumes one response of
    the status path, and past the last one the request raises, so [turns],
    one more than the responses left, bounds the number of turns. *)
Fixpoint poll_alert_job (turns : nat) (alert_job_id alert_job_status : string)
  : M World unit :=
  if String.eqb alert_job_status "IN_PROGRESS" then
    match turns with
    | O => raise (SystemExit 1)
    | S turns' =>
        output (Checking alert_job_status) ;;
        next <- get_job_status alert_job_id ;;
        match next with
        | None => ret tt
        | Some alert_job_status' => poll_alert_job turns' alert_job_id alert_job_status'
        end
    end
  else if String.eqb alert_job_status "READY_TO_DOWNLOAD" then
    api_response <- make_api_call (mkRequest GET (alert_job_download_path alert_job_id))
                                  (alert_job_download_response server) ;;
    write_file (put_alerts_file (Some (AlertsList api_response)))
  else output JobStatusUnexpected.

Definition get_alerts : M World unit :=
  write_file (put_alerts_file None) ;;
  if SUPPORT_API_MODE CONFIG then
    policy <- get_alerts_aggregate "policy.name" ;;
    policy_type <- get_alerts_aggregate "policy.type" ;;
    policy_severity <- get_alerts_aggregate "policy.severity" ;;
    alert_status <- get_alerts_aggregate "alert.status" ;;
    write_file (put_alerts_file
                  (Some (AlertsDict (mkAggregatedFile policy policy_type
                                                      policy_severity alert_status))))
  else
    job <- make_api_call (mkRequest POST alert_jobs_path) (alert_jobs_response server) ;;
    match job with
    | None => output JobIdMissing
    | Some alert_job_id =>
        first <- get_job_status alert_job_id ;;
        match first with
        | None => ret tt
        | Some alert_job_status =>
            w <- get_state ;;
            poll_alert_job (S (length (status_responses w))) alert_job_id alert_job_status
        end
    end.

Definition get_users : M World unit :=
  write_file (put_users_file None) ;;
  api_response <-
    make_api_call (if SUPPORT_API_MODE CONFIG then mkRequest POST support_user_path
                   else mkRequest GET user_path)
                  (user_response server) ;;
  write_file (put_users_file (Some api_response)).

(** [parse_account_children(account, api_response_children)] *)
Definition parse_account_children (account : Account) (children_json : list Account)
  : list Account :=
  map (fun child_account =>
         if String.eqb (accountId account) (accountId child_account)
         then mkAccount (accountId child_account) (cloudType child_account)
                        (accountType child_account) (numberOfChildAccounts account)
                        (account_enabled child_account)
         else child_account)
      children_json.

(** The test that sends the follow-up request: line 331 or line 340. *)
Definition has_children (account : Account) : bool :=
  if SUPPORT_API_MODE CONFIG then bool_decide (0 < numberOfChildAccounts account)
  else String.eqb (accountType account) "organization".

Definition children_request (account : Account) : Request :=
  if SUPPORT_API_MODE CONFIG
  then mkRequest POST (support_cloud_project_path (cloudType account) (accountId account))
  else mkRequest GET (cloud_project_path (cloudType account) (accountId account)).

(** The loops of lines 330-335 and 339-344, from the [account_list] built
    so far. *)
Fixpoint flatten_accounts (accounts : list Account) (account_list : list Account)
  : M World (list Account) :=
  match accounts with
  | [] => ret account_list
  | account :: rest =>
      if has_children account then
        api_response_children <-
          make_api_call (children_request account)
                        (cloud_project_response server (cloudType account)
                                                (accountId account)) ;;
        flatten_accounts rest
          (account_list ++ parse_account_children account api_response_children)%list
      else flatten_accounts rest (account_list ++ [account])%list
  end.

Definition get_accounts : M World unit :=
  write_file (put_accounts_file None) ;;
  api_response_json <-
    make_api_call (if SUPPORT_API_MODE CONFIG then mkRequest POST support_cloud_path
                   else mkRequest GET cloud_path)
                  (cloud_response server) ;;
  account_list <- flatten_accounts api_response_json [] ;;
  write_file (put_accounts_file (Some account_list)).

Definition get_account_groups : M World unit :=
  write_file (put_groups_file None) ;;
  api_response <-
    make_api_call (if SUPPORT_API_MODE CONFIG then mkRequest POST support_cloud_group_path
                   else mkRequest GET cloud_group_path)
                  (cloud_group_response server) ;;
  write_file (put_groups_file (Some api_response)).

Definition get_alert_rules : M World unit :=
  write_file (put_rules_file None) ;;
  api_response <-
    make_api_call (if SUPPORT_API_MODE CONFIG then mkRequest POST support_alert_rule_path
                   else mkRequest GET alert_rule_path)
                  (alert_rule_response server) ;;
  write_file (put_rules_file (Some api_response)).

Definition get_integrations : M World unit :=
  write_file (put_integrations_file None) ;;
  api_response <-
    make_api_call (if SUPPORT_API_MODE CONFIG then mkRequest POST support_integration_path
                   else mkRequest GET integration_path)
                  (integration_response server) ;;
  write_file (put_integrations_file (Some api_response)).

Definition collect_data : M World unit :=
  output (Line "Generating Prisma Cloud API Token") ;;
  _ <- get_prisma_login ;;
  output (Line "Querying Assets") ;;
  get_assets ;;
  output (Line "Results saved as: ASSETS") ;;
  output (Line "Querying Policies") ;;
  get_policies ;;
  output (Line "Results saved as: POLICIES") ;;
  output (Line "Querying Alerts") ;;
  get_alerts ;;
  output (Line "Results saved as: ALERTS") ;;
  output (Line "Querying Users") ;;
  get_users ;;
  output (Line "Results saved as: USERS") ;;
  output (Line "Querying Accounts") ;;
  get_accounts ;;
  output (Line "Results saved as: ACCOUNTS") ;;
  output (Line "Querying Account Groups") ;;
  get_account_groups ;;
  output (Line "Results saved as: GROUPS") ;;
  output (Line "Querying Alert Rules") ;;
  get_alert_rules ;;
  output (Line "Results saved as: RULES") ;;
  output (Line "Querying Integrations") ;;
  get_integrations ;;
  output (Line "Results saved as: INTEGRATIONS").

End Collector.

(** [read_collected_data()]: a result file that does not exist ends the run. *)
Definition read_file {A} (file : Files -> option A) : M World A :=
  w <- get_state ;;
  match file (files w) with
  | Some content => ret content
  | None => output ResultFileMissing ;; raise (SystemExit 1)
  end.

Definition read_collected_data : M World Data :=
  assets <- read_file assets_file ;;
  policies <- read_file policies_file ;;
  alerts <- read_file alerts_file ;;
  users <- read_file users_file ;;
  accounts <- read_file accounts_file ;;
  groups <- read_file groups_file ;;
  rules <- read_file rules_file ;;
  integrations <- read_file integrations_file ;;
  ret (mkData assets policies alerts users accounts groups rules integrations).

(** Lines 717-740: the script up to the report.  It returns [RESULTS] when
    control reaches the report writer. *)
Definition main (args : Args) (server : Server) : M World Results :=
  CONFIG <- configure args ;;
  match RUN_MODE CONFIG with
  | Collect | Auto =>
      output (Line "Collecting Data") ;;
      collect_data CONFIG server ;;
      match RUN_MODE CONFIG with
      | Collect => output (Line "Run with --mode process") ;; raise (SystemExit 0)
      | _ => ret tt
      end
  | Process => ret tt
  end ;;
  match RUN_MODE CONFIG with
  | Process | Auto =>
      output (Line "Processing Data") ;;
      DATA <- read_collected_data ;;
      match process_mode (SUPPORT_API_MODE CONFIG) DATA with
      | (RESULTS, Return _) => ret RESULTS
      | (_, Raise e) => raise e
      end
  | Collect => ret empty_results
  end.

(** The world a run starts in: nothing sent or printed yet. *)
Definition start (server : Server) (files : Files) : World :=
  mkWorld [] (alert_job_status_responses server) files [].

(** The exit status of the process when a run ends with [r]: the argument of
    [sys.exit], 1 for an exception nothing catches; [None] when control
    goes on to the report writer. *)
Definition exit_status {A} (r : res A) : option Z :=
  match r with
  | Raise (SystemExit code) => Some code
  | Raise _ => Some 1
  | Return _ => None
  end.

(** ** Vocabulary of the statements *)

(** [m] leaves the component [proj] of the state as it found it, however it
    ends. *)
Definition frame {S T A} (proj : S -> T) (m : M S A) : Prop :=
  forall s, proj (fst (m s)) = proj s.

(** [m] keeps [I], however it ends. *)
Definition preserves {S A} (I : S -> Prop) (m : M S A) : Prop :=
  forall s, I s -> I (fst (m s)).

(** From a state of [P], [m] returns, in a state of [Q]. *)
Definition returns {S A} (P : S -> Prop) (m : M S A) (Q : A -> S -> Prop) : Prop :=
  forall s, P s -> exists a s', m s = (s', Return a) /\ Q a s'.

(** The names of the open-alert buckets of [alert_counts_from_policies]. *)
Definition open_buckets : list string :=
  ["open"; "open_high"; "open_medium"; "open_low"].

(** The total open-alert bucket is the sum of the per-severity ones. *)
Definition open_buckets_agree (d : gmap string Z) : Prop :=
  exists o h m l,
    d !! "open" = Some o /\ d !! "open_high" = Some h /\
    d !! "open_medium" = Some m /\ d !! "open_low" = Some l /\
    o = h + m + l.

(** The values of the four open-alert buckets. *)
Definition open_buckets_are (o h m l : Z) (r : Results) : Prop :=
  alert_counts_from_policies r !! "open" = Some o /\
  alert_counts_from_policies r !! "open_high" = Some h /\
  alert_counts_from_policies r !! "open_medium" = Some m /\
  alert_counts_from_policies r !! "open_low" = Some l.

(** Every key of the seed of [alert_counts_from_policies] is in the table. *)
Definition policy_buckets_seeded (r : Results) : Prop :=
  forall k, is_Some (alert_counts_from_policies_seed !! k) ->
            is_Some (alert_counts_from_policies r !! k).

(** Every row of a compliance rollup has the three severities. *)
Definition rows_complete (rollup : gmap string (gmap string Z)) : Prop :=
  forall std row, rollup !! std = Some row ->
                  forall sev, sev ∈ severities -> is_Some (row !! sev).

(** The state in which a policy of documented severity and type is
    processed without an exception. *)
Definition policy_tables_ready (o h m l : Z) (r : Results) : Prop :=
  policy_buckets_seeded r /\
  rows_complete (compliance_standards_counts_from_policies r) /\
  open_buckets_are o h m l r.

(** What a policy of severity [sev] and count [n] adds to the open bucket of
    severity [s]. *)
Definition severity_share (s sev : string) (n : Z) : Z :=
  if String.eqb s sev then n else 0.











(** C8 as the specification words it: in process mode the support path is
    chosen from the shape of the alerts file alone. *)
Definition mode_recovered_from_file_only (flag : bool) (alerts : AlertsData) : Prop :=
  support_mode_for_processing flag alerts = is_dict alerts.

(** Whether some item of an aggregate response has the grouping value [k]. *)
Definition has_item (k : string) (items : list AggItem) : bool :=
  existsb (fun item => String.eqb (agg_key item) k) items.

(** [info] with another value of [policyShiftable]. *)
Definition with_shiftable (b : bool) (info : PolicyInfo) : PolicyInfo :=
  mkPolicyInfo (policyName info) (policyEnabled info) (policySeverity info)
    (policyTypeOf info) b (policyRemediable info) (policySystemDefault info)
    (policyUpiOf info) (alertCount info) (complianceStandards info).

(** The accounts file [get_accounts] leaves. *)
Definition flattened_accounts (CONFIG : Config) (server : Server) (w : World)
  : option (list Account) :=
  accounts_file (files (fst (get_accounts CONFIG server w))).

(** C5 as the specification words it, for a parent and the rows of the
    follow-up request: the accounts file holds one row per returned row,
    each with the child count of the parent. *)
Definition children_carry_parent_count (CONFIG : Config) (server : Server) (w : World)
    (parent : Account) (children : list Account) : Prop :=
  exists rows,
    flattened_accounts CONFIG server w = Some rows /\
    map accountId rows = map accountId children /\
    Forall (fun row => numberOfChildAccounts row = numberOfChildAccounts parent) rows.

(** A row of the accounts file against the row of the follow-up response it
    comes from: only the child count can differ, and it is the parent's
    exactly on the row that has the parent's identifier. *)
Definition flattened_from (parent child row : Account) : Prop :=
  accountId row = accountId child /\ cloudType row = cloudType child /\
  accountType row = accountType child /\ account_enabled row = account_enabled child /\
  numberOfChildAccounts row
  = if String.eqb (accountId parent) (accountId child)
    then numberOfChildAccounts parent else numberOfChildAccounts child.

(** How a request ended, for the log of requests. *)
Definition is_ok {A} (response : Response A) : bool :=
  match response with
  | Ok _ => true
  | _ => false
  end.

Definition status_request (job_id : string) : Request :=
  mkRequest GET (alert_job_status_path job_id).

Definition download_request (job_id : string) : Request :=
  mkRequest GET (alert_job_download_path job_id).

(** A collection error: a request that did not end with [resp.ok], or a
    login response without a token. *)
Definition is_login_error (m : Message) : bool :=
  match m with
  | ErrorWithApiLogin => true
  | _ => false
  end.

Definition collection_failed (w : World) : bool :=
  existsb (fun sent => negb (snd sent)) (requests w) ||
  existsb is_login_error (printed w).

(** A response of the alert-job paths without 'id' or 'status'. *)
Definition is_malformed_job_response (m : Message) : bool :=
  match m with
  | JobIdMissing | JobStatusMissing => true
  | _ => false
  end.

Definition malformed_job_response (w : World) : bool :=
  existsb is_malformed_job_response (printed w).

(** An argument that [configure] requires is missing. *)
Definition missing_required (args : Args) : bool :=
  missing (url args) || missing (access_key args) || missing (secret_key args).

(** The configuration [configure] returns for [args]. *)
Definition config_of (args : Args) : Config :=
  mkConfig (debug args) (mode args) (support_api args) (url args)
           (access_key args) (secret_key args) (customer_name args)
           (cloud_account args) (time_range_amount args) (time_range_unit args).

(** C7 as the specification words it, for one collect-only run: any
    collection error, a malformed alert-job response included, or any
    missing argument gives the exit status 1, and the run exits with 0
    otherwise. *)
Definition exits_1_on_any_error (args : Args) (server : Server) (files : Files) : Prop :=
  let run := main args server (start server files) in
  exit_status (snd run)
  = Some (if missing_required args || collection_failed (fst run) ||
             malformed_job_response (fst run)
          then 1 else 0).

(** A step of the collection: from a world without a collection error it
    returns in such a world, or raises [SystemExit(1)] in a world with a
    collection error. *)
Definition collects {A} (m : M World A) : Prop :=
  forall w, collection_failed w = false ->
    match m w with
    | (w', Return _) => collection_failed w' = false
    | (w', Raise e) => e = SystemExit 1 /\ collection_failed w' = true
    end.

(** Whether policy [p] declares the compliance standard [std]. *)
Definition declares (p : Policy) (std : string) : bool :=
  match complianceMetadata p with
  | Some names => bool_decide (std ∈ names)
  | None => false
  end.

(** The open alerts attributed to [std]: those of the policies that declare
    it, each policy once. *)
Definition attributed_from_policies (policies : list Policy) (std : string) : Z :=
  foldr (fun p total => (if declares p std then openAlertsCount p else 0) + total)
        0 policies.

(** The sum of the three severity counts of a row of a rollup. *)
Definition row_total (row : gmap string Z) : Z :=
  count_of row "high" + count_of row "medium" + count_of row "low".

(** The rollup has exactly the standards some policy declares, each with the
    open alerts attributed to it. *)
Definition rollup_matches (policies : list Policy)
    (rollup : gmap string (gmap string Z)) : Prop :=
  forall std,
    match rollup !! std with
    | Some row =>
        existsb (fun p => declares p std) policies = true /\
        row_total row = attributed_from_policies policies std
    | None => existsb (fun p => declares p std) policies = false
    end.

(** What lines 617-618 make of a rollup. *)
Definition rollup_add (sev : string) (n : Z) (rollup : gmap string (gmap string Z))
    (std : string) : gmap string (gmap string Z) :=
  match iadd2 std sev n (setdefault std zero_row rollup) with
  | Return rollup' => rollup'
  | Raise _ => rollup
  end.

(** The total of a standard in a rollup, 0 when the rollup does not have it. *)
Definition total_of (rollup : gmap string (gmap string Z)) (std : string) : Z :=
  match rollup !! std with
  | Some row => row_total row
  | None => 0
  end.

(** Increasing order of strings, as [sort()] leaves a list of distinct
    strings. *)
Definition increasing (l : list string) : Prop :=
  StronglySorted (fun x y => String.compare x y = Lt) l.

(** What the loop of lines 616-618 makes of a rollup for one policy of the
    full API. *)
Definition rollup_of_policy (rollup : gmap string (gmap string Z)) (p : Policy)
  : gmap string (gmap string Z) :=
  match complianceMetadata p with
  | Some names => foldl (rollup_add (severity p) (openAlertsCount p)) rollup (sorted_set names)
  | None => rollup
  end.

(** ** Sample data *)

Definition sample_policy_high : Policy :=
  mkPolicy "policy-1" "S3 bucket is public" true "high" "config" ["run"; "build"]
           false true (Some "PC-AWS-S3-1") 5 (Some ["PCI"; "CIS"; "PCI"]).

Definition sample_policy_medium : Policy :=
  mkPolicy "policy-2" "Flow logs are off" false "medium" "network" ["run"]
           true false None 3 None.

(** An alert of a policy that is in no policies file below. *)
Definition sample_alert_of_deleted_policy : Alert :=
  mkAlert "policy-0" false "config" false "resolved" (Some "POLICY_DELETED").

(** An alert of [sample_policy_high]. *)
Definition sample_alert_of_policy_high : Alert :=
  mkAlert "policy-1" true "config" false "open" None.

(** A dismissed alert of a remediable policy. *)
Definition sample_alert_dismissed : Alert :=
  mkAlert "policy-2" false "network" true "dismissed" None.

Definition sample_data (policies : list Policy) (alerts : AlertsData) : Data :=
  mkData 12 policies alerts [] [] [] [] [].

(** [RESULTS] when [process_alerts] is entered for the two sample policies
    with the full API. *)
Definition sample_results_before_alerts : Results :=
  fst ((init_policy_tables ;;
        process_policies false [sample_policy_high; sample_policy_medium] ;;
        init_alert_tables) empty_results).

Definition sample_organization : Account :=
  mkAccount "org-1" "gcp" "organization" 2 (Some true).

Definition sample_child_1 : Account :=
  mkAccount "project-1" "gcp" "account" 0 (Some true).

Definition sample_child_2 : Account :=
  mkAccount "project-2" "gcp" "account" 0 (Some false).

(** The organization as its own children list reports it. *)
Definition sample_organization_as_child : Account :=
  mkAccount "org-1" "gcp" "organization" 0 (Some true).

Definition sample_config (support : bool) : Config :=
  mkConfig false Collect support (Some "https://api.example.test") (Some "access")
           (Some "secret") "Example Customer" None 1 "week".

(** A tenant whose every response is ok: one organization with the given
    children, and an alert job that answers the given statuses. *)
Definition sample_server (children : list Account)
    (statuses : list (Response (option string))) : Server :=
  mkServer (Ok (Some "token")) (Ok 12) (Ok [Some 12])
           (Ok [sample_policy_high; sample_policy_medium])
           (Ok [sample_policy_high; sample_policy_medium])
           (Ok (Some "job-1")) statuses (Ok [sample_alert_of_policy_high])
           (fun _ => Ok [])
           (Ok [Some true]) (Ok [sample_organization]) (fun _ _ => Ok children)
           (Ok []) (Ok [Some true; Some false]) (Ok []).

Definition no_files : Files := mkFiles None None None None None None None None.

Definition sample_args (m : RunMode) : Args :=
  mkArgs "Example Customer" (Some "https://api.example.test") (Some "access")
         (Some "secret") None 1 "week" m false false.

(** The tenant of [sample_server] with an alert-jobs response without 'id'. *)
Definition server_without_job_id : Server :=
  mkServer (Ok (Some "token")) (Ok 12) (Ok [Some 12])
           (Ok [sample_policy_high]) (Ok [sample_policy_high])
           (Ok None) [] (Ok [])
           (fun _ => Ok [])
           (Ok []) (Ok []) (fun _ _ => Ok [])
           (Ok []) (Ok []) (Ok []).

(** The tenant of [sample_server] with a policies response that is not ok. *)
Definition server_with_failing_policies : Server :=
  mkServer (Ok (Some "token")) (Ok 12) (Ok [Some 12])
           (NotOk 500 "Internal Server Error") (NotOk 500 "Internal Server Error")
           (Ok (Some "job-1")) [] (Ok [])
           (fun _ => Ok [])
           (Ok []) (Ok []) (fun _ _ => Ok [])
           (Ok []) (Ok []) (Ok []).

(** ** The other sheets and the report *)

(** The row [('', '')]. *)
Definition blank_row : list Cell := [CStr EmptyString; CStr EmptyString].

(** [sum(x.get('enabled') == b for x in records)], on the ['enabled'] of each
    record: a record without the key counts for neither value. *)
Definition count_flag (b : bool) (flags : list (option bool)) : Z :=
  Z.of_nat (length (filter (fun flag => flag = Some b) flags)).

(** [len(records)] *)
Definition len {A} (l : list A) : Z := Z.of_nat (length l).

(** Lines 751-783: the rows of 'Utilization'. *)
Definition utilization_rows (RESULTS : Results) (DATA : Data) : res (list (list Cell)) :=
  match getitem (summary RESULTS) "asset_count" with
  | Raise e => Raise e
  | Return asset_count =>
      let accounts := map account_enabled (ACCOUNTS DATA) in
      let policies_enabled := map (fun p => Some (enabled p)) (POLICIES DATA) in
      let policies_default := map (fun p => Some (systemDefault p)) (POLICIES DATA) in
      Return
        [[CStr "Number of Assets"; CInt asset_count];
         blank_row;
         [CStr "Number of Cloud Accounts"; CInt (len (ACCOUNTS DATA))];
         blank_row;
         [CStr "Cloud Accounts Disabled"; CInt (count_flag false accounts)];
         [CStr "Cloud Accounts Enabled"; CInt (count_flag true accounts)];
         blank_row;
         [CStr "Number of Cloud Account Groups"; CInt (len (GROUPS DATA))];
         blank_row;
         [CStr "Number of Alert Rules"; CInt (len (RULES DATA))];
         blank_row;
         [CStr "Alert Rules Disabled"; CInt (count_flag false (RULES DATA))];
         [CStr "Alert Rules Enabled"; CInt (count_flag true (RULES DATA))];
         blank_row;
         [CStr "Number of Integrations"; CInt (len (INTEGRATIONS DATA))];
         blank_row;
         [CStr "Integrations Disabled"; CInt (count_flag false (INTEGRATIONS DATA))];
         [CStr "Integrations Enabled"; CInt (count_flag true (INTEGRATIONS DATA))];
         blank_row;
         [CStr "Number of Policies"; CInt (len (POLICIES DATA))];
         blank_row;
         [CStr "Policies Disabled"; CInt (count_flag false policies_enabled)];
         [CStr "Policies Enabled"; CInt (count_flag true policies_enabled)];
         blank_row;
         [CStr "Policies Custom"; CInt (count_flag false policies_default)];
         [CStr "Policies Default"; CInt (count_flag true policies_default)];
         blank_row;
         [CStr "Number of Users"; CInt (len (USERS DATA))];
         blank_row;
         [CStr "Users Disabled"; CInt (count_flag false (USERS DATA))];
         [CStr "Users Enabled"; CInt (count_flag true (USERS DATA))]]
  end.

(** The heading of both per-standard sheets (lines 789 and 799). *)
Definition standard_sheet_header : list Cell :=
  [CStr "Compliance Standard"; CStr "Alerts High"; CStr "Alerts Medium";
   CStr "Alerts Low"].

(** The row of one standard: lines 791-794 and 801-804. *)
Definition standard_row (rollup : gmap string (gmap string Z))
    (compliance_standard_name : string) : res (list Cell) :=
  match getitem rollup compliance_standard_name with
  | Raise e => Raise e
  | Return counts =>
      match getitem counts "high" with
      | Raise e => Raise e
      | Return alert_count_high =>
          match getitem counts "medium" with
          | Raise e => Raise e
          | Return alert_count_medium =>
              match getitem counts "low" with
              | Raise e => Raise e
              | Return alert_count_low =>
                  Return [CStr compliance_standard_name; CInt alert_count_high;
                          CInt alert_count_medium; CInt alert_count_low]
              end
          end
      end
  end.

(** The loop of lines 790-794 and 800-804 over a rollup. *)
Definition standard_rows (rollup : gmap string (gmap string Z))
  : M (list (list Cell)) unit :=
  append_row standard_sheet_header ;;
  for_each (sorted_keys rollup) (fun compliance_standard_name =>
    row <- lift (standard_row rollup compliance_standard_name) ;;
    append_row row).

(** Lines 788-794: the rows of 'Open Alerts by Standard'. *)
Definition open_alerts_by_standard_rows (RESULTS : Results) : M (list (list Cell)) unit :=
  standard_rows (compliance_standards_counts_from_policies RESULTS).

(** Lines 798-807: the rows of 'Open Closed Alerts by Standard'. *)
Definition open_closed_alerts_by_standard_rows (time_range_label : string)
    (RESULTS : Results) : M (list (list Cell)) unit :=
  standard_rows (compliance_standards_counts_from_alerts RESULTS) ;;
  append_row [] ;;
  append_row [] ;;
  append_row [CStr ("Time Range: " ++ time_range_label); CStr EmptyString].

(** A line of a summary sheet: blank, or a label and the counter it shows. *)
Definition SummaryLine : Type := option (string * gmap string Z * string).

(** The rows of a list literal of summary lines; the counters are read in
    the order of the lines. *)
Fixpoint labelled_rows (lines : list SummaryLine) : res (list (list Cell)) :=
  match lines with
  | [] => Return []
  | None :: rest =>
      match labelled_rows rest with
      | Return rows => Return (blank_row :: rows)
      | Raise e => Raise e
      end
  | Some (label, table, key) :: rest =>
      match getitem table key with
      | Raise e => Raise e
      | Return v =>
          match labelled_rows rest with
          | Return rows => Return ([CStr label; CInt v] :: rows)
          | Raise e => Raise e
          end
      end
  end.

(** Lines 848-870: the lines of 'Open Alerts Summary'. *)
Definition open_alerts_summary_lines (RESULTS : Results) : list SummaryLine :=
  let s := summary RESULTS in
  let c := alert_counts_from_policies RESULTS in
  [Some ("Number of Compliance Standards with Open Alerts", s,
         "count_of_compliance_standards_with_alerts_from_policies");
   Some ("Number of Policies with Open Alerts", s,
         "count_of_policies_with_alerts_from_policies");
   None;
   Some ("Open Alerts", c, "open");
   None;
   Some ("Open Alerts High-Severity", c, "open_high");
   Some ("Open Alerts Medium-Severity", c, "open_medium");
   Some ("Open Alerts Low-Severity", c, "open_low");
   None;
   Some ("Open Anomaly Alerts", c, "anomaly");
   Some ("Open Audit Alerts", c, "audit_event");
   Some ("Open Config Alerts", c, "config");
   Some ("Open Data Alerts", c, "data");
   Some ("Open IAM Alerts", c, "iam");
   Some ("Open Network Alerts", c, "network");
   None;
   Some ("Open Alerts with IaC", c, "shiftable");
   Some ("Open Alerts with Remediation", c, "remediable");
   None;
   Some ("Open Alerts Generated by Custom Policies", c, "custom");
   Some ("Open Alerts Generated by Default Policies", c, "default")].

Definition open_alerts_summary_rows (RESULTS : Results) : res (list (list Cell)) :=
  labelled_rows (open_alerts_summary_lines RESULTS).

(** Lines 874-920: the lines of 'Open Closed Alerts Summary' above its last
    row. *)
Definition open_closed_alerts_summary_lines (RESULTS : Results) : list SummaryLine :=
  let s := summary RESULTS in
  let t := alert_totals_by_alert RESULTS in
  [Some ("Number of Compliance Standards with Alerts", s,
         "count_of_compliance_standards_with_alerts_from_alerts");
   None;
   Some ("Number of Policies with Alerts", s,
         "count_of_policies_with_alerts_from_alerts");
   None;
   Some ("Number of Alerts", s, "alert_count");
   None;
   Some ("Anomaly Alerts", t, "anomaly");
   Some ("Audit Alerts", t, "audit_event");
   Some ("Config Alerts", t, "config");
   Some ("Data Alerts", t, "data");
   Some ("IAM Alerts", t, "iam");
   Some ("Network Alerts", t, "network");
   None;
   Some ("Open Alerts", t, "open");
   Some ("Dismissed Alerts", t, "dismissed");
   Some ("Resolved Alerts", t, "resolved");
   Some ("Snoozed Alerts", t, "snoozed");
   None;
   Some ("Open Alerts High-Severity", t, "open_high");
   Some ("Open Alerts Medium-Severity", t, "open_medium");
   Some ("Open Alerts Low-Severity", t, "open_low");
   None;
   Some ("Dismissed Alerts High-Severity", t, "dismissed_high");
   Some ("Dismissed Alerts Medium-Severity", t, "dismissed_medium");
   Some ("Dismissed Alerts Low-Severity", t, "dismissed_low");
   None;
   Some ("Resolved Alerts High-Severity", t, "resolved_high");
   Some ("Resolved Alerts Medium-Severity", t, "resolved_medium");
   Some ("Resolved Alerts Low-Severity", t, "resolved_low");
   None;
   Some ("Snoozed Alerts High-Severity", t, "snoozed_high");
   Some ("Snoozed Alerts Medium-Severity", t, "snoozed_medium");
   Some ("Snoozed Alerts Low-Severity", t, "snoozed_low");
   None;
   Some ("Resolved By Delete Policy", t, "policy_deleted");
   Some ("Resolved By Delete Resourse", t, "resolved_deleted");
   Some ("Resolved By Update Resourse", t, "resolved_updated");
   None;
   Some ("Alerts Generated by Policies w IaC", t, "shiftable");
   Some ("Alerts Generated by Policies w Remediation", t, "remediable");
   None;
   Some ("Alerts Generated by Custom Policies", t, "custom");
   Some ("Alerts Generated by Default Policies", t, "default");
   Some ("Alerts Generated by Disabled Policies", t, "policies_disabled");
   None;
   None].

(** Lines 874-922: the rows of 'Open Closed Alerts Summary'. *)
Definition open_closed_alerts_summary_rows (time_range_label : string)
    (RESULTS : Results) : res (list (list Cell)) :=
  match labelled_rows (open_closed_alerts_summary_lines RESULTS) with
  | Raise e => Raise e
  | Return rows =>
      Return (rows ++ [[CStr ("Time Range: " ++ time_range_label); CStr EmptyString]])%list
  end.

(** Lines 925-928: the rows of 'Deleted Policies'. *)
Definition deleted_policies_rows (RESULTS : Results) : M (list (list Cell)) unit :=
  append_row [CStr "Deleted Policy"; CStr "Alert Count"] ;;
  for_each (sorted_keys (policies_deleted RESULTS)) (fun this_policy_id =>
    n <- lift (getitem (policies_deleted RESULTS) this_policy_id) ;;
    append_row [CStr this_policy_id; CInt n]).

(** The spreadsheet being written: its sheets in the order written, and
    whether [save_sheet] was reached.  The writing library is not part of
    the model: [write_sheet] records the rows it is given. *)
Record Workbook : Type := mkWorkbook {
  sheets : list (string * list (list Cell));
  saved : bool
}.

Definition write_sheet (this_sheet_name : string) (rows : list (list Cell))
  : M Workbook unit :=
  modify (fun wb => mkWorkbook (sheets wb ++ [(this_sheet_name, rows)])%list (saved wb)).

(** A sheet whose rows are built by a loop: [rows = []], the loop, and
    [write_sheet]. *)
Definition write_rows_of (this_sheet_name : string) (loop : M (list (list Cell)) unit)
  : M Workbook unit :=
  match loop [] with
  | (rows, Return _) => write_sheet this_sheet_name rows
  | (_, Raise e) => raise e
  end.

(** A sheet whose rows are a list literal. *)
Definition write_literal (this_sheet_name : string) (rows : res (list (list Cell)))
  : M Workbook unit :=
  match rows with
  | Return rows => write_sheet this_sheet_name rows
  | Raise e => raise e
  end.

Definition save_sheet : M Workbook unit :=
  modify (fun wb => mkWorkbook (sheets wb) true).

(** Lines 746-931: the report, for the [CONFIG['SUPPORT_API_MODE']] that
    line 738 left and the label of the time range. *)
Definition report (support : bool) (time_range_label : string) (RESULTS : Results)
    (DATA : Data) : M Workbook unit :=
  write_literal "Utilization" (utilization_rows RESULTS DATA) ;;
  write_rows_of "Open Alerts by Standard" (open_alerts_by_standard_rows RESULTS) ;;
  (if support then ret tt
   else write_rows_of "Open Closed Alerts by Standard"
          (open_closed_alerts_by_standard_rows time_range_label RESULTS)) ;;
  write_rows_of "Open Alerts by Policy" (open_alerts_by_policy_rows RESULTS) ;;
  (if support then ret tt
   else write_rows_of "Open Closed Alerts by Policy"
          (open_closed_alerts_by_policy_rows time_range_label RESULTS)) ;;
  write_literal "Open Alerts Summary" (open_alerts_summary_rows RESULTS) ;;
  (if support then ret tt
   else
     write_literal "Open Closed Alerts Summary"
                   (open_closed_alerts_summary_rows time_range_label RESULTS) ;;
     write_rows_of "Deleted Policies" (deleted_policies_rows RESULTS)) ;;
  save_sheet.

Definition new_workbook : Workbook := mkWorkbook [] false.

(** ** Vocabulary of the statements on the rest of the script *)

(** When [m] returns from a state of [P], it returns in a state of [Q]. *)
Definition ensures {S A} (P : S -> Prop) (m : M S A) (Q : A -> S -> Prop) : Prop :=
  forall s s' a, P s -> m s = (s', Return a) -> Q a s'.

(** The list of standards that line 608 or line 615 stores for a policy. *)
Definition standards_of (p : Policy) : list string :=
  match complianceMetadata p with
  | Some names => sorted_set names
  | None => []
  end.

(** The open-alert count that lines 589-595 take for a policy, [agg] being
    [RESULTS['aggregated_alerts_by']]. *)
Definition alert_count_of (support : bool) (agg : option AlertsBy) (p : Policy) : Z :=
  if support then
    match agg with
    | Some a => default 0 (by_policy_name a !! name p)
    | None => 0
    end
  else openAlertsCount p.

(** The entry of [RESULTS['policies']] of a policy when its turn of the
    loop of [process_policies] is over. *)
Definition entry_of (support : bool) (agg : option AlertsBy) (p : Policy) : PolicyInfo :=
  policy_info p (alert_count_of support agg p) (standards_of p).

(** The last element of [l] whose key is [k]. *)
Definition last_with {A} (key : A -> string) (k : string) (l : list A) : option A :=
  List.find (fun x => String.eqb (key x) k) (rev l).

(** Every name of [RESULTS['policies_by_name']] leads to an entry of
    [RESULTS['policies']]. *)
Definition names_resolve (r : Results) : Prop :=
  forall policy_name this_policy_id,
    policies_by_name r !! policy_name = Some this_policy_id ->
    is_Some (policies r !! this_policy_id).

(** A row of a per-standard sheet against the rollup. *)
Definition is_standard_row (rollup : gmap string (gmap string Z)) (std : string)
    (row : list Cell) : Prop :=
  exists counts h m l,
    rollup !! std = Some counts /\ counts !! "high" = Some h /\
    counts !! "medium" = Some m /\ counts !! "low" = Some l /\
    row = [CStr std; CInt h; CInt m; CInt l].

(** A row of the sheet 'Open Alerts by Policy' against the tables. *)
Definition is_policy_row (RESULTS : Results) (policy_name : string) (row : list Cell)
  : Prop :=
  exists this_policy_id info,
    policies_by_name RESULTS !! policy_name = Some this_policy_id /\
    policies RESULTS !! this_policy_id = Some info /\
    row = policy_row policy_name info (alertCount info).

(** The tables that [process_policies] fills, with the aggregates it reads. *)
Definition policy_side (r : Results) :=
  (aggregated_alerts_by r, policies_by_name r, policies r,
   compliance_standards_counts_from_policies r, alert_counts_from_policies r).

(** The tables that [process_alerts] fills. *)
Definition alert_side (r : Results) :=
  (compliance_standards_counts_from_alerts r, policy_counts_from_alerts r,
   policy_totals_by_alert r, alert_totals_by_alert r, policies_deleted r,
   policies_disabled r).

(** [RESULTS['summary']] as lines 691-700 fill it with the full API. *)
Definition summary_of_full_api (DATA : Data) (r : Results) : gmap string Z :=
  <["count_of_policies_with_alerts_from_alerts"
      := Z.of_nat (size (policy_counts_from_alerts r))]>
  (<["count_of_compliance_standards_with_alerts_from_alerts"
       := Z.of_nat (size (compliance_standards_counts_from_alerts r))]>
   (<["count_of_policies_with_alerts_from_policies"
        := count_values (fun v => bool_decide (alertCount v <> 0)) (policies r)]>
    (<["alert_count" := len_alerts (ALERTS DATA)]>
     (<["count_of_compliance_standards_with_alerts_from_policies"
          := count_values (fun v => bool_decide (v <> zero_row))
                          (compliance_standards_counts_from_policies r)]>
      (<["asset_count" := ASSETS DATA]> (summary r)))))).

(** The state from which the sheets of open alerts are built without an
    exception. *)
Definition open_sheets_ready (r : Results) : Prop :=
  policy_buckets_seeded r /\
  rows_complete (compliance_standards_counts_from_policies r) /\
  names_resolve r.

(** The names of the sheets of a workbook, in the order written. *)
Definition sheet_names (wb : Workbook) : list string := map fst (sheets wb).

(** An alerts file of the support API with an item of each documented
    status and of the type network. *)
Definition sample_aggregated : AggregatedFile :=
  mkAggregatedFile [mkAggItem "S3 bucket is public" 4]
                   [mkAggItem "config" 4; mkAggItem "network" 0]
                   [mkAggItem "high" 4]
                   [mkAggItem "open" 4; mkAggItem "resolved" 1].

(** The state in which a policy of documented severity and type is
    processed without an exception, with either API. *)
Definition policy_pass_ready (support : bool) (r : Results) : Prop :=
  policy_buckets_seeded r /\
  rows_complete (compliance_standards_counts_from_policies r) /\
  (support = true -> is_Some (aggregated_alerts_by r)).

(** What the bucket [open] counts beyond the buckets [custom] and
    [default] together. *)
Definition origin_gap (d : gmap string Z) : Z :=
  count_of d "open" - (count_of d "custom" + count_of d "default").

(** What the bucket [open] counts beyond the six buckets of policy types
    together. *)
Definition type_gap (d : gmap string Z) : Z :=
  count_of d "open"
  - (count_of d "anomaly" + count_of d "audit_event" + count_of d "config"
     + count_of d "data" + count_of d "iam" + count_of d "network").

(** What one more alert in bucket [k] adds to each gap. *)
Definition origin_weight (k : string) : Z :=
  (if String.eqb k "open" then 1 else 0)
  - ((if String.eqb k "custom" then 1 else 0) + (if String.eqb k "default" then 1 else 0)).

Definition type_weight (k : string) : Z :=
  (if String.eqb k "open" then 1 else 0)
  - ((if String.eqb k "anomaly" then 1 else 0) + (if String.eqb k "audit_event" then 1 else 0)
     + (if String.eqb k "config" then 1 else 0) + (if String.eqb k "data" then 1 else 0)
     + (if String.eqb k "iam" then 1 else 0) + (if String.eqb k "network" then 1 else 0)).

(** The value a sheet of labelled rows shows for a label: the second cell
    of the first row [(label, value)]. *)
Fixpoint value_of (label : string) (rows : list (list Cell)) : option Z :=
  match rows with
  | [] => None
  | [CStr l; CInt v] :: rest => if String.eqb l label then Some v else value_of label rest
  | _ :: rest => value_of label rest
  end.

(** Every record has the key 'enabled'. *)
Definition all_flagged (flags : list (option bool)) : Prop := Forall is_Some flags.

(** Collected data with a user record without the key 'enabled'. *)
Definition sample_data_with_users : Data :=
  mkData 12 [sample_policy_high; sample_policy_medium] (AlertsList [])
         [Some true; None] [sample_organization] [] [Some false] [].

(** Whether a result file exists. *)
Definition present {A} (file : option A) : bool :=
  match file with
  | Some _ => true
  | None => false
  end.

(** The test of line 455 on the eight result files. *)
Definition all_files_present (f : Files) : bool :=
  present (assets_file f) && present (policies_file f) && present (alerts_file f) &&
  present (users_file f) && present (accounts_file f) && present (groups_file f) &&
  present (rules_file f) && present (integrations_file f).

(** The file holds what the response of this run carried. *)
Definition served {A} (response : Response A) (file : option A) : Prop :=
  exists content, response = Ok content /\ file = Some content.

(** The token [get_prisma_login] returns, when it returns one. *)
Definition login_token (server : Server) : option string :=
  match login_response server with
  | Ok (Some t) => if String.eqb t EmptyString then None else Some t
  | _ => None
  end.

(** Lines 733-740 for the parsed command line. *)
Definition process_phase (args : Args) : M World Results :=
  output (Line "Processing Data") ;;
  DATA <- read_collected_data ;;
  match process_mode (support_api args) DATA with
  | (RESULTS, Return _) => ret RESULTS
  | (_, Raise e) => raise e
  end.

(** What is left of the world when the output is dropped. *)
Definition traffic_and_files (w : World) :=
  (requests w, status_responses w, files w).

(** The asset count [get_assets] writes: line 214, or lines 205-208 with
    the support API. *)
Definition assets_total (CONFIG : Config) (server : Server) : option Z :=
  if SUPPORT_API_MODE CONFIG then
    match timeline_response server with
    | Ok (Some resources :: _) => Some resources
    | Ok _ => Some 0
    | _ => None
    end
  else
    match inventory_response server with
    | Ok total => Some total
    | _ => None
    end.

(** The alerts file after [get_alerts] has returned. *)
Definition alerts_collected (CONFIG : Config) (server : Server)
    (file : option AlertsData) : Prop :=
  if SUPPORT_API_MODE CONFIG then
    exists policy policy_type policy_severity alert_status,
      alert_aggregate_response server "policy.name" = Ok policy /\
      alert_aggregate_response server "policy.type" = Ok policy_type /\
      alert_aggregate_response server "policy.severity" = Ok policy_severity /\
      alert_aggregate_response server "alert.status" = Ok alert_status /\
      file = Some (AlertsDict (mkAggregatedFile policy policy_type policy_severity
                                                alert_status))
  else
    file = None \/
    exists alerts, alert_job_download_response server = Ok alerts /\
                   file = Some (AlertsList alerts).

(** The rows of the accounts file that come from one row of the accounts
    response. *)
Definition expand_account (CONFIG : Config) (server : Server) (account : Account)
  : list Account :=
  if has_children CONFIG account then
    match cloud_project_response server (cloudType account) (accountId account) with
    | Ok children => parse_account_children account children
    | _ => []
    end
  else [account].

(** The follow-up requests for the accounts with children, in order. *)
Definition children_requests (CONFIG : Config) (accounts : list Account)
  : list (Request * bool) :=
  map (fun account => (children_request CONFIG account, true))
      (List.filter (has_children CONFIG) accounts).

(** The follow-up request of every account with children ends ok. *)
Definition children_served (CONFIG : Config) (server : Server) (accounts : list Account)
  : Prop :=
  Forall (fun account =>
            has_children CONFIG account = true ->
            is_ok (cloud_project_response server (cloudType account) (accountId account))
            = true)
         accounts.

(** The accounts file after [get_accounts] has returned: the accounts
    response of this run, flattened with the follow-up responses of this
    run, which all ended ok. *)
Definition accounts_collected (CONFIG : Config) (server : Server)
    (file : option (list Account)) : Prop :=
  exists accounts,
    cloud_response server = Ok accounts /\
    children_served CONFIG server accounts /\
    file = Some (concat (map (expand_account CONFIG server) accounts)).

(** The result files hold what the tenant answered in this run; the alerts
    file of the full API can be absent. *)
Definition collected (CONFIG : Config) (server : Server) (f : Files) : Prop :=
  (is_Some (assets_file f) /\ assets_file f = assets_total CONFIG server) /\
  served (if SUPPORT_API_MODE CONFIG then support_policy_response server
          else policy_response server) (policies_file f) /\
  alerts_collected CONFIG server (alerts_file f) /\
  served (user_response server) (users_file f) /\
  accounts_collected CONFIG server (accounts_file f) /\
  served (cloud_group_response server) (groups_file f) /\
  served (alert_rule_response server) (rules_file f) /\
  served (integration_response server) (integrations_file f).

(** [m] only adds to the log of requests. *)
Definition appends {A} (m : M World A) : Prop :=
  forall w, exists sent_now, requests (fst (m w)) = (requests w ++ sent_now)%list.

Definition login_request : Request := mkRequest POST login_path.

(** Lines 416-446: the steps of [collect_data] after the login. *)
Definition collect_after_login (CONFIG : Config) (server : Server) : M World unit :=
  output (Line "Querying Assets") ;;
  get_assets CONFIG server ;;
  output (Line "Results saved as: ASSETS") ;;
  output (Line "Querying Policies") ;;
  get_policies CONFIG server ;;
  output (Line "Results saved as: POLICIES") ;;
  output (Line "Querying Alerts") ;;
  get_alerts CONFIG server ;;
  output (Line "Results saved as: ALERTS") ;;
  output (Line "Querying Users") ;;
  get_users CONFIG server ;;
  output (Line "Results saved as: USERS") ;;
  output (Line "Querying Accounts") ;;
  get_accounts CONFIG server ;;
  output (Line "Results saved as: ACCOUNTS") ;;
  output (Line "Querying Account Groups") ;;
  get_account_groups CONFIG server ;;
  output (Line "Results saved as: GROUPS") ;;
  output (Line "Querying Alert Rules") ;;
  get_alert_rules CONFIG server ;;
  output (Line "Results saved as: RULES") ;;
  output (Line "Querying Integrations") ;;
  get_integrations CONFIG server ;;
  output (Line "Results saved as: INTEGRATIONS").

(** A tenant that refuses the login. *)
Definition server_with_failing_login : Server :=
  mkServer (NotOk 401 "Unauthorized") (Ok 12) (Ok []) (Ok []) (Ok []) (Ok None) []
           (Ok []) (fun _ => Ok []) (Ok []) (Ok []) (fun _ _ => Ok []) (Ok []) (Ok [])
           (Ok []).

(** A tenant without alerts whose alert job is ready at once. *)
Definition server_without_alerts : Server :=
  mkServer (Ok (Some "token")) (Ok 12) (Ok [Some 12])
           (Ok [sample_policy_high]) (Ok [sample_policy_high])
           (Ok (Some "job-1")) [Ok (Some "READY_TO_DOWNLOAD")] (Ok [])
           (fun _ => Ok [])
           (Ok []) (Ok []) (fun _ _ => Ok [])
           (Ok []) (Ok []) (Ok []).

(** The tables through which [process_alerts] attributes an alert to its
    policy. *)
Definition attribution_side (r : Results) :=
  (policy_totals_by_alert r, compliance_standards_counts_from_alerts r,
   policy_counts_from_alerts r).

(** Line 658 takes the alert for an alert of a deleted policy and line 659
    finds its reason. *)
Definition skipped_as_deleted (binding : option (string -> bool)) (a : Alert) : Prop :=
  exists mem, binding = Some mem /\ mem (alert_policyId a) = false /\ is_Some (reason a).

(** The labels of the sheet 'Open Alerts Summary' that show a bucket of
    [alert_counts_from_policies]. *)
Definition open_alert_labels : list string :=
  ["Open Alerts"; "Open Alerts High-Severity"; "Open Alerts Medium-Severity";
   "Open Alerts Low-Severity"; "Open Anomaly Alerts"; "Open Audit Alerts";
   "Open Config Alerts"; "Open Data Alerts"; "Open IAM Alerts"; "Open Network Alerts";
   "Open Alerts with IaC"; "Open Alerts with Remediation";
   "Open Alerts Generated by Custom Policies";
   "Open Alerts Generated by Default Policies"].

(** A row of the sheet 'Open Closed Alerts by Policy' against the tables. *)
Definition is_counted_policy_row (RESULTS : Results) (policy_name : string)
    (row : list Cell) : Prop :=
  exists this_policy_id policy_alert_count info,
    policy_counts_from_alerts RESULTS !! policy_name
    = Some (NameCount this_policy_id policy_alert_count) /\
    policies RESULTS !! this_policy_id = Some info /\
    row = policy_row policy_name info policy_alert_count.

(** The cells of [row] under 'With IAC' and 'With Remediation' both hold
    [flag]. *)
Definition with_iac_and_with_remediation (flag : bool) (row : list Cell) : Prop :=
  row !! 5%nat = Some (CBool flag) /\ row !! 6%nat = Some (CBool flag).

(** Lines 841-843: the rows that close the sheet 'Open Closed Alerts by
    Policy'. *)
Definition closing_rows (time_range_label : string) : list (list Cell) :=
  [[]; []; [CStr ("Time Range: " ++ time_range_label); CStr EmptyString]].

(** Tables in which an alert has been attributed to each of the two sample
    policies; no run of [process_collected_data] leaves such a table. *)
Definition sample_results_with_counts : Results :=
  put_policy_counts_from_alerts
    (<["S3 bucket is public" := NameCount "policy-1" 2]>
       (<["Flow logs are off" := NameCount "policy-2" 1]> ∅))
    sample_results_before_alerts.



(** * Properties *)

(** ** The monad *)

Section MonadLemmas.
Context {S : Type}.

Lemma bind_return {A B} (m : M S A) (f : A -> M S B) s s' a :
  m s = (s', Return a) -> bind m f s = f a s'.
Proof. intros H. unfold bind. now rewrite H. Qed.

Lemma bind_raise {A B} (m : M S A) (f : A -> M S B) s s' e :
  m s = (s', Raise e) -> bind m f s = (s', Raise e).
Proof. intros H. unfold bind. now rewrite H. Qed.

Lemma bind_ret_l {A B} (a : A) (f : A -> M S B) : bind (ret a) f = f a.
Proof. reflexivity. Qed.

Lemma frame_ret {T A} (proj : S -> T) (a : A) : frame proj (ret a).
Proof. now intros s. Qed.

Lemma frame_raise {T A} (proj : S -> T) e : frame proj (@raise S A e).
Proof. now intros s. Qed.

Lemma frame_lift {T A} (proj : S -> T) (r : res A) : frame proj (lift r).
Proof. now intros s. Qed.

Lemma frame_get_state {T} (proj : S -> T) : frame proj get_state.
Proof. now intros s. Qed.

Lemma frame_bind {T A B} (proj : S -> T) (m : M S A) (f : A -> M S B) :
  frame proj m -> (forall a, frame proj (f a)) -> frame proj (bind m f).
Proof.
  intros Hm Hf s. unfold bind. specialize (Hm s).
  destruct (m s) as [s' [a|e]]; simpl in *.
  - now rewrite Hf.
  - exact Hm.
Qed.

Lemma frame_for_each {T A} (proj : S -> T) (l : list A) (body : A -> M S unit) :
  (forall x, x ∈ l -> frame proj (body x)) -> frame proj (for_each l body).
Proof.
  induction l as [|x l IH]; intros H; simpl.
  - apply frame_ret.
  - apply frame_bind.
    + apply H. left.
    + intros _. apply IH. intros y Hy. apply H. now right.
Qed.

Lemma preserves_of_frame {T A} (proj : S -> T) (I : T -> Prop) (m : M S A) :
  frame proj m -> preserves (fun s => I (proj s)) m.
Proof. intros H s. now rewrite H. Qed.

Lemma preserves_bind {A B} (I : S -> Prop) (m : M S A) (f : A -> M S B) :
  preserves I m -> (forall a, preserves I (f a)) -> preserves I (bind m f).
Proof.
  intros Hm Hf s Hs. unfold bind. specialize (Hm s Hs).
  destruct (m s) as [s' [a|e]]; simpl in *.
  - now apply Hf.
  - exact Hm.
Qed.

Lemma preserves_ret {A} (I : S -> Prop) (a : A) : preserves I (ret a).
Proof. now intros s. Qed.

Lemma preserves_for_each {A} (I : S -> Prop) (l : list A) (body : A -> M S unit) :
  (forall x, x ∈ l -> preserves I (body x)) -> preserves I (for_each l body).
Proof.
  induction l as [|x l IH]; intros H; simpl.
  - apply preserves_ret.
  - apply preserves_bind.
    + apply H. left.
    + intros _. apply IH. intros y Hy. apply H. now right.
Qed.

Lemma returns_ret {A} (P : S -> Prop) (Q : A -> S -> Prop) (a : A) :
  (forall s, P s -> Q a s) -> returns P (ret a) Q.
Proof. intros H s Hs. exists a, s. split; [reflexivity | now apply H]. Qed.

Lemma returns_bind {A B} (P : S -> Prop) (R : A -> S -> Prop) (Q : B -> S -> Prop)
    (m : M S A) (f : A -> M S B) :
  returns P m R -> (forall a, returns (R a) (f a) Q) -> returns P (bind m f) Q.
Proof.
  intros Hm Hf s Hs. destruct (Hm s Hs) as (a & s' & Hrun & HR).
  rewrite (bind_return _ _ _ _ _ Hrun). now apply Hf.
Qed.

Lemma returns_weaken {A} (P P' : S -> Prop) (Q Q' : A -> S -> Prop) (m : M S A) :
  returns P' m Q' -> (forall s, P s -> P' s) -> (forall a s, Q' a s -> Q a s) ->
  returns P m Q.
Proof.
  intros H HP HQ s Hs. destruct (H s (HP s Hs)) as (a & s' & Hrun & Hq).
  exists a, s'. split; [exact Hrun | now apply HQ].
Qed.

Lemma returns_for_each {A} (I : S -> Prop) (l : list A) (body : A -> M S unit) :
  (forall x, x ∈ l -> returns I (body x) (fun _ => I)) ->
  returns I (for_each l body) (fun _ => I).
Proof.
  induction l as [|x l IH]; intros H; simpl.
  - now apply returns_ret.
  - apply (returns_bind I (fun _ => I)).
    + apply H. left.
    + intros _. apply IH. intros y Hy. apply H. now right.
Qed.
End MonadLemmas.

(** ** Statements on tables *)

(** Two string literals differ. *)
Ltac str_neq :=
  let H := fresh in
  intros H; apply String.eqb_eq in H; vm_compute in H; discriminate H.

(** A lookup of a literal key through insertions at literal keys. *)
Ltac lookup_lit :=
  repeat first [ rewrite lookup_insert_eq
               | rewrite lookup_insert_ne by str_neq ].

Lemma frame_modify {S T} (proj : S -> T) (f : S -> S) :
  (forall s, proj (f s) = proj s) -> frame proj (modify f).
Proof. intros H s. apply H. Qed.

Lemma frame_update {S T U} (proj : S -> T) (get : S -> U) (put : U -> S -> S)
    (f : U -> res U) :
  (forall u s, proj (put u s) = proj s) -> frame proj (update get put f).
Proof. intros H s. unfold update. destruct (f (get s)); simpl; [apply H | reflexivity]. Qed.

Lemma frame_read_aggregated_alerts_by {T} (proj : Results -> T) :
  frame proj read_aggregated_alerts_by.
Proof. intros r. unfold read_aggregated_alerts_by. now destruct (aggregated_alerts_by r). Qed.

Lemma frame_read_policy {T} (proj : Results -> T) id : frame proj (read_policy id).
Proof. now intros r. Qed.

Lemma frame_in_policies {T} (proj : Results -> T) binding id :
  frame proj (in_policies binding id).
Proof. destruct binding; [apply frame_ret | apply frame_raise]. Qed.

(** Statements that leave a table alone are recognised by their shape. *)
Ltac frame_step :=
  first
    [ apply frame_ret
    | apply frame_raise
    | apply frame_lift
    | apply frame_get_state
    | apply frame_read_aggregated_alerts_by
    | apply frame_read_policy
    | apply frame_in_policies
    | apply frame_modify; intros; reflexivity
    | apply frame_update; intros; reflexivity
    | apply frame_bind; [ | intros ? ]
    | apply frame_for_each; intros ? ?
    | match goal with
      | |- frame _ (if ?b then _ else _) => destruct b
      | |- frame _ (match ?x with _ => _ end) => destruct x
      end ].

Ltac frame_auto := repeat frame_step.

Lemma iadd_Return k n d d' :
  iadd k n d = Return d' ->
  exists v, d !! k = Some v /\ d' = <[k := v + n]> d.
Proof.
  unfold iadd. destruct (d !! k) as [v|]; [|discriminate].
  intros [= <-]. now exists v.
Qed.

Lemma iadd_present k n d v :
  d !! k = Some v -> iadd k n d = Return (<[k := v + n]> d).
Proof. intros H. unfold iadd. now rewrite H. Qed.

Lemma iadd_absent k n d : d !! k = None -> iadd k n d = Raise (KeyError k).
Proof. intros H. unfold iadd. now rewrite H. Qed.

Lemma iadd_lookup_other k n d d' k' :
  iadd k n d = Return d' -> k' <> k -> d' !! k' = d !! k'.
Proof.
  intros H Hne. apply iadd_Return in H as (v & _ & ->).
  now rewrite lookup_insert_ne.
Qed.

(** ** Open alerts by severity (process_policies) *)

Lemma add_keeps_open_buckets k n :
  k ∉ open_buckets ->
  preserves (fun r => open_buckets_agree (alert_counts_from_policies r))
            (add_alert_counts_from_policies k n).
Proof.
  intros Hk r (o & h & m & l & Ho & Hh & Hm & Hl & Hsum).
  unfold add_alert_counts_from_policies, update.
  destruct (iadd k n (alert_counts_from_policies r)) as [d'|e] eqn:E; simpl.
  - exists o, h, m, l.
    assert (forall k', k' ∈ open_buckets -> d' !! k' = alert_counts_from_policies r !! k')
      as Hsame.
    { intros k' Hk'. apply (iadd_lookup_other _ _ _ _ _ E). intros ->. contradiction. }
    rewrite !Hsame by (unfold open_buckets; rewrite !elem_of_cons; tauto). auto.
  - exists o, h, m, l. auto.
Qed.

Lemma add_open_keeps_agreement sev count {A} (k : M Results A) :
  sev ∈ severities ->
  preserves (fun r => open_buckets_agree (alert_counts_from_policies r)) k ->
  preserves (fun r => open_buckets_agree (alert_counts_from_policies r))
            (add_alert_counts_from_policies "open" count ;;
             add_alert_counts_from_policies ("open_" ++ sev) count ;; k).
Proof.
  intros Hsev Hk r (o & h & m & l & Ho & Hh & Hm & Hl & Hsum).
  unfold bind at 1. unfold add_alert_counts_from_policies at 1. unfold update.
  rewrite (iadd_present _ _ _ _ Ho). cbn [fst snd].
  set (r1 := put_alert_counts_from_policies _ r).
  assert (alert_counts_from_policies r1 = <["open" := o + count]> (alert_counts_from_policies r))
    as Hr1 by reflexivity.
  unfold bind, add_alert_counts_from_policies, update. rewrite Hr1.
  assert (Hcase : sev = "high" \/ sev = "medium" \/ sev = "low").
  { unfold severities in Hsev. rewrite !elem_of_cons, elem_of_nil in Hsev. tauto. }
  destruct Hcase as [-> | [-> | ->]];
    [ change ("open_" ++ "high") with "open_high"
    | change ("open_" ++ "medium") with "open_medium"
    | change ("open_" ++ "low") with "open_low" ].
  - rewrite (iadd_present "open_high" count _ h)
      by (rewrite lookup_insert_ne by str_neq; assumption).
    apply Hk. exists (o + count), (h + count), m, l. cbn.
    repeat split; lookup_lit; auto; lia.
  - rewrite (iadd_present "open_medium" count _ m)
      by (rewrite lookup_insert_ne by str_neq; assumption).
    apply Hk. exists (o + count), h, (m + count), l. cbn.
    repeat split; lookup_lit; auto; lia.
  - rewrite (iadd_present "open_low" count _ l)
      by (rewrite lookup_insert_ne by str_neq; assumption).
    apply Hk. exists (o + count), h, m, (l + count). cbn.
    repeat split; lookup_lit; auto; lia.
Qed.

Lemma process_policy_keeps_open_buckets support p :
  severity p ∈ severities -> policyType p ∉ open_buckets ->
  preserves (fun r => open_buckets_agree (alert_counts_from_policies r))
            (process_policy support p).
Proof.
  intros Hsev Hty. unfold process_policy.
  apply preserves_bind; [apply preserves_of_frame; frame_auto | intros _].
  apply preserves_bind.
  { apply preserves_of_frame. unfold policy_alert_count. frame_auto. }
  intros count.
  apply preserves_bind; [apply preserves_of_frame; frame_auto | intros _].
  apply add_open_keeps_agreement; [exact Hsev|].
  apply preserves_bind; [now apply add_keeps_open_buckets | intros _].
  apply preserves_bind.
  { destruct (remediable p); [|apply preserves_ret].
    apply add_keeps_open_buckets. unfold open_buckets.
    rewrite !elem_of_cons, elem_of_nil. intros [|[|[|[|[]]]]]; discriminate. }
  intros _. apply preserves_bind.
  { destruct (bool_decide _); [|apply preserves_ret].
    apply add_keeps_open_buckets. unfold open_buckets.
    rewrite !elem_of_cons, elem_of_nil. intros [|[|[|[|[]]]]]; discriminate. }
  intros _. apply preserves_bind.
  { destruct (systemDefault p);
      apply add_keeps_open_buckets; unfold open_buckets;
      rewrite !elem_of_cons, elem_of_nil; intros [|[|[|[|[]]]]]; discriminate. }
  intros _. apply preserves_of_frame. unfold attribute_standard_from_policy. frame_auto.
Qed.

Lemma add_alert_counts_returns k n r v :
  alert_counts_from_policies r !! k = Some v ->
  add_alert_counts_from_policies k n r =
  (put_alert_counts_from_policies (<[k := v + n]> (alert_counts_from_policies r)) r,
   Return tt).
Proof.
  intros H. unfold add_alert_counts_from_policies, update.
  now rewrite (iadd_present _ _ _ _ H).
Qed.

Lemma seeded_insert k v r :
  policy_buckets_seeded r ->
  policy_buckets_seeded
    (put_alert_counts_from_policies (<[k := v]> (alert_counts_from_policies r)) r).
Proof.
  intros H k' Hk'. cbn. destruct (decide (k = k')) as [->|Hne].
  - rewrite lookup_insert_eq. eauto.
  - rewrite lookup_insert_ne by exact Hne. now apply H.
Qed.

Lemma add_other_bucket_ready k n o h m l :
  k ∉ open_buckets -> is_Some (alert_counts_from_policies_seed !! k) ->
  returns (policy_tables_ready o h m l) (add_alert_counts_from_policies k n)
          (fun _ => policy_tables_ready o h m l).
Proof.
  intros Hk Hseed r (HK & HR & Ho & Hh & Hm & Hl).
  destruct (HK k Hseed) as [v Hv].
  eexists tt, _. split; [exact (add_alert_counts_returns _ _ _ _ Hv)|].
  assert (forall k', k' ∈ open_buckets -> k <> k') as Hne.
  { intros k' Hk' ->. contradiction. }
  unfold open_buckets in Hne.
  split; [now apply seeded_insert|]. split; [exact HR|].
  repeat split; cbn; (rewrite lookup_insert_ne; [assumption|]);
    apply Hne; rewrite !elem_of_cons; tauto.
Qed.

Lemma add_open_bucket_ready n o h m l :
  returns (policy_tables_ready o h m l) (add_alert_counts_from_policies "open" n)
          (fun _ => policy_tables_ready (o + n) h m l).
Proof.
  intros r (HK & HR & Ho & Hh & Hm & Hl).
  eexists tt, _. split; [exact (add_alert_counts_returns _ _ _ _ Ho)|].
  split; [now apply seeded_insert|]. split; [exact HR|].
  repeat split; cbn; lookup_lit; auto.
Qed.

Lemma severity_cases sev :
  sev ∈ severities -> sev = "high" \/ sev = "medium" \/ sev = "low".
Proof. unfold severities. rewrite !elem_of_cons, elem_of_nil. tauto. Qed.

Lemma add_severity_bucket_ready sev n o h m l :
  sev ∈ severities ->
  returns (policy_tables_ready o h m l)
          (add_alert_counts_from_policies ("open_" ++ sev) n)
          (fun _ => policy_tables_ready o (h + severity_share "high" sev n)
                                        (m + severity_share "medium" sev n)
                                        (l + severity_share "low" sev n)).
Proof.
  intros Hsev r (HK & HR & Ho & Hh & Hm & Hl).
  destruct (severity_cases _ Hsev) as [-> | [-> | ->]];
    [ change ("open_" ++ "high") with "open_high"
    | change ("open_" ++ "medium") with "open_medium"
    | change ("open_" ++ "low") with "open_low" ];
    (eexists tt, _; split; [apply add_alert_counts_returns; eassumption|]);
    (split; [now apply seeded_insert|]); (split; [exact HR|]);
    unfold severity_share; cbn [String.eqb Ascii.eqb Bool.eqb];
    repeat split; cbn; lookup_lit; rewrite ?Z.add_0_r; auto.
Qed.

Lemma modify_ready (f : Results -> Results) o h m l :
  (forall r, alert_counts_from_policies (f r) = alert_counts_from_policies r) ->
  (forall r, compliance_standards_counts_from_policies (f r) =
             compliance_standards_counts_from_policies r) ->
  returns (policy_tables_ready o h m l) (modify f)
          (fun _ => policy_tables_ready o h m l).
Proof.
  intros H1 H2 r (HK & HR & HO). exists tt, (f r). split; [reflexivity|].
  unfold policy_tables_ready, policy_buckets_seeded, open_buckets_are.
  rewrite H1, H2. auto.
Qed.

Lemma rows_complete_setdefault std rollup :
  rows_complete rollup -> rows_complete (setdefault std zero_row rollup).
Proof.
  intros H std' row. unfold setdefault.
  destruct (rollup !! std) eqn:E; [apply H|].
  destruct (decide (std = std')) as [->|Hne].
  - rewrite lookup_insert_eq. intros [= <-] sev Hsev.
    destruct (severity_cases _ Hsev) as [-> | [-> | ->]]; now eexists.
  - rewrite lookup_insert_ne by exact Hne. apply H.
Qed.

Lemma setdefault_lookup {V} k (v : V) d : is_Some (setdefault k v d !! k).
Proof.
  unfold setdefault. destruct (d !! k) eqn:E.
  - rewrite E. eauto.
  - rewrite lookup_insert_eq. eauto.
Qed.

Lemma iadd2_complete std sev n rollup :
  rows_complete rollup -> is_Some (rollup !! std) -> sev ∈ severities ->
  exists rollup', iadd2 std sev n rollup = Return rollup' /\ rows_complete rollup'.
Proof.
  intros HR [row Hrow] Hsev. unfold iadd2. rewrite Hrow.
  destruct (HR _ _ Hrow _ Hsev) as [v Hv].
  rewrite (iadd_present _ _ _ _ Hv). eexists. split; [reflexivity|].
  intros std' row'. destruct (decide (std = std')) as [->|Hne].
  - rewrite lookup_insert_eq. intros [= <-] sev' Hsev'.
    destruct (decide (sev = sev')) as [->|Hne].
    + rewrite lookup_insert_eq. eauto.
    + rewrite lookup_insert_ne by exact Hne. now apply (HR _ _ Hrow).
  - rewrite lookup_insert_ne by exact Hne. apply HR.
Qed.

Lemma attribute_standard_from_policy_ready sev n std o h m l :
  sev ∈ severities ->
  returns (policy_tables_ready o h m l) (attribute_standard_from_policy sev n std)
          (fun _ => policy_tables_ready o h m l).
Proof.
  intros Hsev r (HK & HR & HO).
  destruct (iadd2_complete std sev n _ (rows_complete_setdefault std _ HR)
              (setdefault_lookup _ _ _) Hsev) as (rollup' & E & HR').
  exists tt. eexists. split.
  - unfold attribute_standard_from_policy, bind, modify, update.
    cbn [fst snd compliance_standards_counts_from_policies
         put_compliance_standards_counts_from_policies].
    rewrite E. reflexivity.
  - split; [exact HK|]. split; [exact HR'|exact HO].
Qed.

Lemma policy_type_seeded ty :
  ty ∈ policy_types ->
  (ty ∉ open_buckets) /\ is_Some (alert_counts_from_policies_seed !! ty).
Proof.
  unfold policy_types, open_buckets. rewrite !elem_of_cons, !elem_of_nil.
  intros [->|[->|[->|[->|[->|[->|[]]]]]]]; (split; [|now eexists]);
    intros [H|[H|[H|[H|[]]]]]; discriminate H.
Qed.

(** A policy of the full API with a documented severity and type is processed
    without an exception and adds its count to [open] and to the bucket of
    its severity. *)
Lemma process_policy_ready p o h m l :
  severity p ∈ severities -> policyType p ∈ policy_types ->
  returns (policy_tables_ready o h m l) (process_policy false p)
          (fun _ => policy_tables_ready
                      (o + openAlertsCount p)
                      (h + severity_share "high" (severity p) (openAlertsCount p))
                      (m + severity_share "medium" (severity p) (openAlertsCount p))
                      (l + severity_share "low" (severity p) (openAlertsCount p))).
Proof.
  intros Hsev Hty. destruct (policy_type_seeded _ Hty) as [Hty1 Hty2].
  assert (forall k, k ∈ ["remediable"; "shiftable"; "default"; "custom"] ->
                    (k ∉ open_buckets) /\ is_Some (alert_counts_from_policies_seed !! k))
    as Hflag.
  { intros k. unfold open_buckets. rewrite !elem_of_cons, !elem_of_nil.
    intros [->|[->|[->|[->|[]]]]]; (split; [|now eexists]);
      intros [H|[H|[H|[H|[]]]]]; discriminate H. }
  set (n := openAlertsCount p).
  set (Q := policy_tables_ready (o + n) (h + severity_share "high" (severity p) n)
              (m + severity_share "medium" (severity p) n)
              (l + severity_share "low" (severity p) n)).
  unfold process_policy, policy_alert_count. cbv beta iota zeta. fold n.
  apply (returns_bind _ (fun _ => policy_tables_ready o h m l));
    [apply modify_ready; reflexivity | intros _].
  rewrite bind_ret_l.
  apply (returns_bind _ (fun _ => policy_tables_ready o h m l));
    [apply modify_ready; reflexivity | intros _].
  apply (returns_bind _ (fun _ => policy_tables_ready (o + n) h m l));
    [apply add_open_bucket_ready | intros _].
  apply (returns_bind _ (fun _ => Q));
    [now apply add_severity_bucket_ready | intros _].
  apply (returns_bind _ (fun _ => Q));
    [now apply add_other_bucket_ready | intros _].
  apply (returns_bind _ (fun _ => Q)).
  { destruct (remediable p); [|now apply returns_ret].
    apply add_other_bucket_ready; apply Hflag; rewrite !elem_of_cons; tauto. }
  intros _. apply (returns_bind _ (fun _ => Q)).
  { destruct (bool_decide _); [|now apply returns_ret].
    apply add_other_bucket_ready; apply Hflag; rewrite !elem_of_cons; tauto. }
  intros _. apply (returns_bind _ (fun _ => Q)).
  { destruct (systemDefault p);
      apply add_other_bucket_ready; apply Hflag; rewrite !elem_of_cons; tauto. }
  intros _. destruct (complianceMetadata p) as [names|].
  - apply (returns_bind _ (fun _ => Q)); [apply modify_ready; reflexivity | intros _].
    apply returns_for_each. intros std _.
    now apply attribute_standard_from_policy_ready.
  - now apply returns_ret.
Qed.

Lemma init_policy_tables_ready r :
  policy_tables_ready 0 0 0 0 (fst (init_policy_tables r)).
Proof.
  split; [|split].
  - intros k Hk. exact Hk.
  - intros std row H. cbn in H. now rewrite lookup_empty in H.
  - repeat split.
Qed.

Lemma init_policy_tables_returns r :
  init_policy_tables r = (fst (init_policy_tables r), Return tt).
Proof. reflexivity. Qed.

(** C3. After [process_policies] has run over policies whose severity is
    high, medium or low (and whose type is not itself the name of an open
    bucket, as no documented type is), with either API and however the run
    ends, the [open] bucket of [alert_counts_from_policies] is the sum of
    [open_high], [open_medium] and [open_low].  For two policies of the full
    API of severity high and medium, of documented types and with 5 and 3
    open alerts, the run returns and leaves open = 8, open_high = 5,
    open_medium = 3 and open_low = 0. *)
Theorem open_is_sum_of_open_by_severity :
  (forall support policies r,
      Forall (fun p => severity p ∈ severities /\ policyType p ∉ open_buckets) policies ->
      open_buckets_agree
        (alert_counts_from_policies
           (fst ((init_policy_tables ;; process_policies support policies) r))))
  /\
  (forall p1 p2 r,
      severity p1 = "high" -> severity p2 = "medium" ->
      openAlertsCount p1 = 5 -> openAlertsCount p2 = 3 ->
      policyType p1 ∈ policy_types -> policyType p2 ∈ policy_types ->
      exists r',
        (init_policy_tables ;; process_policies false [p1; p2]) r = (r', Return tt) /\
        open_buckets_are 8 5 3 0 r').
Proof.
  split.
  - intros support policies r Hall.
    rewrite (bind_return _ _ _ _ _ (init_policy_tables_returns r)).
    apply (preserves_for_each
             (fun r => open_buckets_agree (alert_counts_from_policies r))).
    + intros p Hp. rewrite Forall_forall in Hall. destruct (Hall p Hp).
      now apply process_policy_keeps_open_buckets.
    + exists 0, 0, 0, 0. repeat split.
  - intros p1 p2 r Hs1 Hs2 Hc1 Hc2 Ht1 Ht2.
    rewrite (bind_return _ _ _ _ _ (init_policy_tables_returns r)).
    assert (Hsev1 : severity p1 ∈ severities)
      by (rewrite Hs1; unfold severities; rewrite !elem_of_cons; tauto).
    assert (Hsev2 : severity p2 ∈ severities)
      by (rewrite Hs2; unfold severities; rewrite !elem_of_cons; tauto).
    destruct (process_policy_ready p1 0 0 0 0 Hsev1 Ht1 _ (init_policy_tables_ready r))
      as ([] & r1 & E1 & H1).
    destruct (process_policy_ready p2 _ _ _ _ Hsev2 Ht2 _ H1) as ([] & r2 & E2 & H2).
    exists r2. split.
    + unfold process_policies. cbn [for_each].
      rewrite (bind_return _ _ _ _ _ E1), (bind_return _ _ _ _ _ E2). reflexivity.
    + rewrite Hs1, Hs2, Hc1, Hc2 in H2. apply H2.
Qed.

Lemma open_is_sum_of_open_by_severity_witness :
  open_buckets_agree
    (alert_counts_from_policies
       (fst ((init_policy_tables ;;
              process_policies false [sample_policy_high; sample_policy_medium])
               empty_results)))
  /\ exists r',
      (init_policy_tables ;;
       process_policies false [sample_policy_high; sample_policy_medium]) empty_results
      = (r', Return tt) /\
      open_buckets_are 8 5 3 0 r'.
Proof.
  split.
  - apply (proj1 open_is_sum_of_open_by_severity).
    repeat constructor; cbn; unfold severities, open_buckets;
      rewrite ?elem_of_cons, ?elem_of_nil; try tauto;
      intros [H|[H|[H|[H|[]]]]]; discriminate H.
  - apply (proj2 open_is_sum_of_open_by_severity); try reflexivity;
      unfold policy_types; cbn; rewrite !elem_of_cons; tauto.
Defined.

(** ** Sorted lists of distinct strings *)

Lemma compare_lt_trans x y z :
  String.compare x y = Lt -> String.compare y z = Lt -> String.compare x z = Lt.
Proof.
  intros H1 H2. apply String_as_OT.cmp_lt in H1, H2. apply String_as_OT.cmp_lt.
  exact (String_as_OT.lt_trans _ _ _ H1 H2).
Qed.

Lemma compare_gt_lt x y : String.compare x y = Gt -> String.compare y x = Lt.
Proof. intros H. rewrite String.compare_antisym, H. reflexivity. Qed.

Lemma insert_sorted_elem x l y : y ∈ insert_sorted x l <-> y = x \/ y ∈ l.
Proof.
  induction l as [|z l IH]; cbn [insert_sorted].
  - rewrite elem_of_cons, !elem_of_nil. tauto.
  - destruct (String.compare x z) eqn:E.
    + apply String.compare_eq_iff in E. subst z. rewrite elem_of_cons. tauto.
    + rewrite !elem_of_cons. tauto.
    + rewrite !elem_of_cons, IH. tauto.
Qed.

Lemma insert_sorted_increasing x l : increasing l -> increasing (insert_sorted x l).
Proof.
  unfold increasing. induction l as [|z l IH]; intros Hl; cbn [insert_sorted].
  - repeat constructor.
  - apply StronglySorted_inv in Hl as [Hl Hz]. destruct (String.compare x z) eqn:E.
    + now constructor.
    + constructor; [now constructor|]. constructor; [exact E|].
      rewrite List.Forall_forall in *. intros y Hy. eapply compare_lt_trans; eauto.
    + constructor; [now apply IH|].
      rewrite List.Forall_forall in *. intros y Hy.
      apply list_elem_of_In, insert_sorted_elem in Hy as [->|Hy].
      * now apply compare_gt_lt.
      * now apply Hz, list_elem_of_In.
Qed.

Lemma increasing_NoDup l : increasing l -> NoDup l.
Proof.
  unfold increasing. induction 1 as [|x l Hl IH Hx]; constructor; [|exact IH].
  intros Hin. rewrite List.Forall_forall in Hx.
  specialize (Hx x (proj1 (list_elem_of_In _ _) Hin)).
  pose proof (proj2 (String_as_OT.cmp_eq x x) eq_refl) as E.
  unfold String_as_OT.cmp in E. congruence.
Qed.

(** [sorted_set l] has the strings of [l], each once, in increasing order. *)
Lemma sorted_set_spec l :
  (forall x, x ∈ sorted_set l <-> x ∈ l) /\ increasing (sorted_set l) /\
  NoDup (sorted_set l).
Proof.
  assert (increasing (sorted_set l)) as Hinc.
  { unfold sorted_set. induction l as [|y l IH]; cbn [foldr].
    - constructor.
    - now apply insert_sorted_increasing. }
  split; [|split; [exact Hinc | now apply increasing_NoDup]].
  clear Hinc. unfold sorted_set. induction l as [|y l IH]; intros x; cbn [foldr].
  - reflexivity.
  - rewrite insert_sorted_elem, elem_of_cons, IH. reflexivity.
Qed.

(** ** The compliance rollup built from policies *)

Lemma row_total_bump sev v n row :
  sev ∈ severities -> row !! sev = Some v ->
  row_total (<[sev := v + n]> row) = row_total row + n.
Proof.
  intros Hsev Hv. unfold row_total, count_of.
  destruct (severity_cases _ Hsev) as [-> | [-> | ->]];
    rewrite Hv; lookup_lit; cbn; lia.
Qed.

Lemma rollup_add_spec sev n rollup std :
  sev ∈ severities -> rows_complete rollup ->
  iadd2 std sev n (setdefault std zero_row rollup) = Return (rollup_add sev n rollup std) /\
  rows_complete (rollup_add sev n rollup std) /\
  (forall std', is_Some (rollup_add sev n rollup std !! std')
                <-> std' = std \/ is_Some (rollup !! std')) /\
  (forall std', total_of (rollup_add sev n rollup std) std'
                = total_of rollup std' + (if decide (std' = std) then n else 0)).
Proof.
  intros Hsev HR.
  pose proof (rows_complete_setdefault std _ HR) as HR1.
  destruct (setdefault_lookup std zero_row rollup) as [row Hrow].
  destruct (HR1 _ _ Hrow _ Hsev) as [v Hv].
  assert (iadd2 std sev n (setdefault std zero_row rollup)
          = Return (<[std := <[sev := v + n]> row]> (setdefault std zero_row rollup))) as E.
  { unfold iadd2. rewrite Hrow. now rewrite (iadd_present _ _ _ _ Hv). }
  unfold rollup_add. rewrite E. split; [reflexivity|].
  assert (row_total row = total_of rollup std) as Hrt.
  { unfold total_of, setdefault in *. destruct (rollup !! std) as [row0|] eqn:E0.
    - rewrite E0 in Hrow. now injection Hrow as ->.
    - rewrite lookup_insert_eq in Hrow. injection Hrow as <-. reflexivity. }
  assert (forall std', std' <> std ->
                       setdefault std zero_row rollup !! std' = rollup !! std') as Hother.
  { intros std' Hne. unfold setdefault. destruct (rollup !! std); [reflexivity|].
    now rewrite lookup_insert_ne. }
  split; [|split].
  - destruct (iadd2_complete std sev n _ HR1 (ex_intro _ _ Hrow) Hsev) as (d & Ed & Hd).
    rewrite E in Ed. now injection Ed as <-.
  - intros std'. destruct (decide (std' = std)) as [->|Hne].
    + rewrite lookup_insert_eq. split; eauto.
    + rewrite lookup_insert_ne by congruence. rewrite (Hother _ Hne).
      split; [now right | intros [H|H]; [contradiction | exact H]].
  - intros std'. unfold total_of at 1. destruct (decide (std' = std)) as [->|Hne].
    + rewrite lookup_insert_eq. rewrite (row_total_bump _ _ _ _ Hsev Hv). lia.
    + rewrite lookup_insert_ne by congruence. rewrite (Hother _ Hne).
      unfold total_of. lia.
Qed.

Lemma rollup_add_all sev n l :
  sev ∈ severities -> NoDup l ->
  forall rollup, rows_complete rollup ->
    let rollup' := foldl (rollup_add sev n) rollup l in
    rows_complete rollup' /\
    (forall std, is_Some (rollup' !! std) <-> std ∈ l \/ is_Some (rollup !! std)) /\
    (forall std, total_of rollup' std
                 = total_of rollup std + (if bool_decide (std ∈ l) then n else 0)).
Proof.
  intros Hsev. induction 1 as [|x l Hx Hl IH]; intros rollup HR; cbn [foldl].
  - split; [exact HR|]. split.
    + intros std. rewrite elem_of_nil. tauto.
    + intros std. rewrite bool_decide_eq_false_2 by apply not_elem_of_nil. lia.
  - destruct (rollup_add_spec sev n rollup x Hsev HR) as (_ & HR1 & Hdom1 & Htot1).
    destruct (IH _ HR1) as (HR2 & Hdom2 & Htot2). split; [exact HR2|]. split.
    + intros std. rewrite Hdom2, Hdom1, elem_of_cons. tauto.
    + intros std. rewrite Htot2, Htot1.
      destruct (decide (std = x)) as [->|Hne].
      * rewrite (bool_decide_eq_false_2 (x ∈ l)) by exact Hx.
        rewrite bool_decide_eq_true_2 by left. lia.
      * destruct (bool_decide (std ∈ l)) eqn:E.
        -- apply bool_decide_eq_true in E.
           rewrite bool_decide_eq_true_2 by now right. lia.
        -- apply bool_decide_eq_false in E.
           rewrite bool_decide_eq_false_2; [lia|].
           rewrite elem_of_cons. tauto.
Qed.

Lemma returns_and_frame {S T A} (P : S -> Prop) (Q : A -> S -> Prop) (proj : S -> T)
    (x : T) (m : M S A) :
  returns P m Q -> frame proj m ->
  returns (fun s => P s /\ proj s = x) m (fun a s => Q a s /\ proj s = x).
Proof.
  intros Hm Hf s [HP Hx]. destruct (Hm s HP) as (a & s' & E & HQ).
  exists a, s'. split; [exact E|]. split; [exact HQ|].
  specialize (Hf s). rewrite E in Hf. cbn in Hf. congruence.
Qed.

Lemma attribute_standard_from_policy_rollup sev n std o h m l X :
  sev ∈ severities ->
  returns (fun r => policy_tables_ready o h m l r /\
                    compliance_standards_counts_from_policies r = X)
          (attribute_standard_from_policy sev n std)
          (fun _ r => policy_tables_ready o h m l r /\
                      compliance_standards_counts_from_policies r = rollup_add sev n X std).
Proof.
  intros Hsev r ((HK & HR & HO) & HX). subst X.
  destruct (rollup_add_spec sev n _ std Hsev HR) as (E & HR' & _).
  exists tt. eexists. split.
  - unfold attribute_standard_from_policy, bind, modify, update.
    cbn [fst snd compliance_standards_counts_from_policies
         put_compliance_standards_counts_from_policies].
    rewrite E. reflexivity.
  - split; [|reflexivity]. split; [exact HK|]. split; [exact HR' | exact HO].
Qed.

Lemma for_each_standard_rollup sev n o h m l names :
  sev ∈ severities ->
  forall X,
    returns (fun r => policy_tables_ready o h m l r /\
                      compliance_standards_counts_from_policies r = X)
            (for_each names (attribute_standard_from_policy sev n))
            (fun _ r => policy_tables_ready o h m l r /\
                        compliance_standards_counts_from_policies r
                        = foldl (rollup_add sev n) X names).
Proof.
  intros Hsev. induction names as [|std names IH]; intros X; cbn [for_each foldl].
  - now apply returns_ret.
  - eapply returns_bind; [now apply attribute_standard_from_policy_rollup | intros ?].
    apply IH.
Qed.

(** A policy of the full API with a documented severity and type: the run
    returns, with the buckets of [process_policy_ready] and the rollup of
    [rollup_of_policy]. *)
Lemma process_policy_rollup p o h m l X :
  severity p ∈ severities -> policyType p ∈ policy_types ->
  returns (fun r => policy_tables_ready o h m l r /\
                    compliance_standards_counts_from_policies r = X)
          (process_policy false p)
          (fun _ r =>
             policy_tables_ready
               (o + openAlertsCount p)
               (h + severity_share "high" (severity p) (openAlertsCount p))
               (m + severity_share "medium" (severity p) (openAlertsCount p))
               (l + severity_share "low" (severity p) (openAlertsCount p)) r /\
             compliance_standards_counts_from_policies r = rollup_of_policy X p).
Proof.
  intros Hsev Hty. destruct (policy_type_seeded _ Hty) as [Hty1 Hty2].
  assert (forall k, k ∈ ["remediable"; "shiftable"; "default"; "custom"] ->
                    (k ∉ open_buckets) /\ is_Some (alert_counts_from_policies_seed !! k))
    as Hflag.
  { intros k. unfold open_buckets. rewrite !elem_of_cons, !elem_of_nil.
    intros [->|[->|[->|[->|[]]]]]; (split; [|now eexists]);
      intros [H|[H|[H|[H|[]]]]]; discriminate H. }
  set (n := openAlertsCount p).
  set (Q := policy_tables_ready (o + n) (h + severity_share "high" (severity p) n)
              (m + severity_share "medium" (severity p) n)
              (l + severity_share "low" (severity p) n)).
  set (rollup := compliance_standards_counts_from_policies).
  assert (forall k c, frame rollup (add_alert_counts_from_policies k c)) as Hadd
      by (intros; unfold add_alert_counts_from_policies; frame_auto).
  unfold process_policy, policy_alert_count, rollup_of_policy.
  cbv beta iota zeta. fold n.
  apply (returns_bind _ (fun _ r => policy_tables_ready o h m l r /\ rollup r = X));
    [apply returns_and_frame; [apply modify_ready; reflexivity | frame_auto] | intros _].
  rewrite bind_ret_l.
  apply (returns_bind _ (fun _ r => policy_tables_ready o h m l r /\ rollup r = X));
    [apply returns_and_frame; [apply modify_ready; reflexivity | frame_auto] | intros _].
  apply (returns_bind _ (fun _ r => policy_tables_ready (o + n) h m l r /\ rollup r = X));
    [apply returns_and_frame; [apply add_open_bucket_ready | apply Hadd] | intros _].
  apply (returns_bind _ (fun _ r => Q r /\ rollup r = X));
    [apply returns_and_frame; [now apply add_severity_bucket_ready | apply Hadd]
    | intros _].
  apply (returns_bind _ (fun _ r => Q r /\ rollup r = X));
    [apply returns_and_frame; [now apply add_other_bucket_ready | apply Hadd]
    | intros _].
  apply (returns_bind _ (fun _ r => Q r /\ rollup r = X)).
  { destruct (remediable p); [|now apply returns_ret].
    apply returns_and_frame; [|apply Hadd].
    apply add_other_bucket_ready; apply Hflag; rewrite !elem_of_cons; tauto. }
  intros _. apply (returns_bind _ (fun _ r => Q r /\ rollup r = X)).
  { destruct (bool_decide _); [|now apply returns_ret].
    apply returns_and_frame; [|apply Hadd].
    apply add_other_bucket_ready; apply Hflag; rewrite !elem_of_cons; tauto. }
  intros _. apply (returns_bind _ (fun _ r => Q r /\ rollup r = X)).
  { destruct (systemDefault p); (apply returns_and_frame; [|apply Hadd]);
      apply add_other_bucket_ready; apply Hflag; rewrite !elem_of_cons; tauto. }
  intros _. destruct (complianceMetadata p) as [names|].
  - apply (returns_bind _ (fun _ r => Q r /\ rollup r = X));
      [apply returns_and_frame; [apply modify_ready; reflexivity | frame_auto]
      | intros _].
    now apply for_each_standard_rollup.
  - now apply returns_ret.
Qed.

Lemma process_policies_rollup policies :
  Forall (fun p => severity p ∈ severities /\ policyType p ∈ policy_types) policies ->
  forall o h m l X,
    returns (fun r => policy_tables_ready o h m l r /\
                      compliance_standards_counts_from_policies r = X)
            (process_policies false policies)
            (fun _ r => compliance_standards_counts_from_policies r
                        = foldl rollup_of_policy X policies).
Proof.
  unfold process_policies.
  induction 1 as [|p policies [Hsev Hty] _ IH]; intros o h m l X; cbn [for_each foldl].
  - apply returns_ret. now intros r [_ H].
  - eapply returns_bind; [now apply process_policy_rollup | intros ?]. apply IH.
Qed.

Lemma rollup_of_policy_spec p X :
  severity p ∈ severities -> rows_complete X ->
  rows_complete (rollup_of_policy X p) /\
  (forall std, is_Some (rollup_of_policy X p !! std)
               <-> declares p std = true \/ is_Some (X !! std)) /\
  (forall std, total_of (rollup_of_policy X p) std
               = total_of X std + (if declares p std then openAlertsCount p else 0)).
Proof.
  intros Hsev HX. unfold rollup_of_policy, declares.
  destruct (complianceMetadata p) as [names|].
  - destruct (sorted_set_spec names) as (Helem & _ & Hnodup).
    destruct (rollup_add_all (severity p) (openAlertsCount p) _ Hsev Hnodup X HX)
      as (HR & Hdom & Htot).
    split; [exact HR|]. split.
    + intros std. rewrite Hdom, Helem, bool_decide_eq_true. reflexivity.
    + intros std. rewrite Htot.
      now rewrite (bool_decide_ext _ _ (Helem std)).
  - split; [exact HX|]. split.
    + intros std. split; [now right | intros [H|H]; [discriminate H | exact H]].
    + intros std. lia.
Qed.

Lemma rollup_of_policies_spec policies :
  Forall (fun p => severity p ∈ severities /\ policyType p ∈ policy_types) policies ->
  forall X, rows_complete X ->
    (forall std, is_Some (foldl rollup_of_policy X policies !! std)
                 <-> existsb (fun p => declares p std) policies = true \/
                     is_Some (X !! std)) /\
    (forall std, total_of (foldl rollup_of_policy X policies) std
                 = total_of X std + attributed_from_policies policies std).
Proof.
  induction 1 as [|p policies [Hsev _] _ IH]; intros X HX; cbn [foldl].
  - split; intros std; cbn.
    + split; [now right | intros [H|H]; [discriminate H | exact H]].
    + lia.
  - destruct (rollup_of_policy_spec p X Hsev HX) as (HR & Hdom & Htot).
    destruct (IH _ HR) as (Hdom' & Htot'). split; intros std.
    + rewrite Hdom', Hdom. cbn [existsb]. rewrite orb_true_iff. tauto.
    + rewrite Htot', Htot. cbn [attributed_from_policies foldr].
      fold (attributed_from_policies policies std). lia.
Qed.

(** The half of C4 on policies: with the full API and policies of documented
    severities and types, [process_policies] returns, and the rollup built
    from policies has exactly the standards some policy declares, the three
    severity counts of each adding up to the open alerts of the policies
    that declare it. *)
Lemma rollup_from_policies_matches policies r :
  Forall (fun p => severity p ∈ severities /\ policyType p ∈ policy_types) policies ->
  exists r',
    (init_policy_tables ;; process_policies false policies) r = (r', Return tt) /\
    rollup_matches policies (compliance_standards_counts_from_policies r').
Proof.
  intros Hall.
  rewrite (bind_return _ _ _ _ _ (init_policy_tables_returns r)).
  destruct (process_policies_rollup policies Hall 0 0 0 0 ∅ _
              (conj (init_policy_tables_ready r) eq_refl)) as ([] & r' & E & Hrollup).
  exists r'. split; [exact E|]. rewrite Hrollup.
  assert (rows_complete ∅) as Hempty by (intros std row H; now rewrite lookup_empty in H).
  destruct (rollup_of_policies_spec policies Hall ∅ Hempty) as (Hdom & Htot).
  intros std. specialize (Hdom std). specialize (Htot std).
  unfold total_of in Htot. rewrite !lookup_empty in *.
  destruct (foldl rollup_of_policy ∅ policies !! std) as [row|] eqn:Erow.
  - split; [|lia]. destruct (proj1 Hdom) as [H|[? H]]; [eauto | exact H | discriminate H].
  - destruct (existsb _ policies) eqn:Eex; [|reflexivity].
    destruct (proj2 Hdom) as [? H]; [now left | discriminate H].
Qed.

(** ** The unbound name of line 658 *)

(** In the module, processing an alert never returns: it ends at line 658 at
    the latest. *)
Lemma process_alert_raises a r :
  exists e, snd (process_alert module_policies a r) = Raise e.
Proof.
  unfold process_alert, bind.
  destruct (alert_level_counts a r) as [r1 [[]|e]]; cbn; eauto.
Qed.

Lemma frame_process_alert_in_module {T} (proj : Results -> T) a :
  (forall v r, proj (put_alert_totals_by_alert v r) = proj r) ->
  frame proj (process_alert module_policies a).
Proof.
  intros H. unfold process_alert, alert_level_counts, add_alert_totals_by_alert.
  repeat first [ apply frame_update; intros; apply H | frame_step ].
Qed.

(** With the full API, whatever the files hold, the rollup built from alerts
    is empty when [process_collected_data] ends. *)
Lemma rollup_from_alerts_never_filled DATA :
  compliance_standards_counts_from_alerts
    (fst (process_collected_data false DATA empty_results)) = ∅.
Proof.
  unfold process_collected_data, process_collected_data_with.
  set (I := fun r : Results => compliance_standards_counts_from_alerts r = ∅).
  assert (forall {A} (m : M Results A),
             frame compliance_standards_counts_from_alerts m -> preserves I m) as Hframe.
  { intros A m H. exact (preserves_of_frame _ (fun d => d = ∅) m H). }
  assert (preserves I
            ((ret tt : M Results unit) ;;
             init_policy_tables ;;
             process_policies false (POLICIES DATA) ;;
             init_alert_tables ;;
             process_alerts_with module_policies false (ALERTS DATA) ;;
             modify (put_summary ∅) ;;
             process_summary false DATA)) as H.
  { apply preserves_bind; [apply preserves_ret | intros _].
    apply preserves_bind; [apply Hframe; unfold init_policy_tables; frame_auto | intros _].
    apply preserves_bind.
    { apply Hframe. unfold process_policies, process_policy, policy_alert_count,
        attribute_standard_from_policy, add_alert_counts_from_policies. frame_auto. }
    intros _. apply preserves_bind; [now intros r _ | intros _].
    apply preserves_bind.
    { apply Hframe. unfold process_alerts_with.
      destruct (ALERTS DATA) as [alerts|aggregated]; [|apply frame_raise].
      apply frame_for_each. intros a _. now apply frame_process_alert_in_module. }
    intros _. apply preserves_bind; [apply Hframe; frame_auto | intros _].
    apply Hframe. unfold process_summary, set_summary. frame_auto. }
  now apply H.
Qed.

(** ** Keys that are not seeded *)

(** C2.  The code at a dismissed alert of a remediable policy, processed
    with the full API: line 650 adds to [remediable_dismissed], which the
    seed of [alert_totals_by_alert] does not have, and the run ends with
    that [KeyError].  The seed has [policy_disabled] but not the
    [policies_disabled] that lines 676 and 918 use, and the branch of a
    disabled policy raises from the state in which [process_alerts] is
    entered (there is no [RESULTS['policies_disabled']] either). *)
Theorem remediable_dismissed_not_seeded :
  snd (process_collected_data false
         (sample_data [sample_policy_medium] (AlertsList [sample_alert_dismissed]))
         empty_results)
  = Raise (KeyError "remediable_dismissed") /\
  alert_totals_by_alert_seed !! "remediable_dismissed" = None /\
  alert_totals_by_alert_seed !! "policies_disabled" = None /\
  alert_totals_by_alert_seed !! "policy_disabled" = Some 0 /\
  snd (policy_disabled_branch "Flow logs are off" sample_results_before_alerts)
  = Raise (KeyError "policies_disabled").
Proof. repeat split; vm_compute; reflexivity. Qed.

(** ** The compliance rollup built from alerts *)

(** C4.  The code at one policy that declares two standards and one alert of
    that policy, processed with the full API: the rollup built from
    policies has the two standards, line 658 raises on the unbound name
    [policies], and the rollup built from alerts stays empty. *)
Theorem rollup_from_alerts_stays_empty :
  let run := process_collected_data false
               (sample_data [sample_policy_high]
                            (AlertsList [sample_alert_of_policy_high]))
               empty_results in
  snd run = Raise (NameError "policies") /\
  compliance_standards_counts_from_alerts (fst run) = ∅ /\
  compliance_standards_counts_from_policies (fst run)
  = <["CIS" := <["high" := 5]> zero_row]> (<["PCI" := <["high" := 5]> zero_row]> ∅).
Proof. cbv zeta. repeat split; vm_compute; reflexivity. Qed.

(** ** The mode of a process-only run *)

Lemma process_mode_support flag DATA :
  process_mode flag DATA
  = process_collected_data (is_dict (ALERTS DATA) || flag) DATA empty_results.
Proof.
  unfold process_mode, support_mode_for_processing. now destruct (is_dict (ALERTS DATA)).
Qed.

(** C8, amended.  In process mode a dictionary in the alerts file selects
    the support path whatever the flag; a list leaves the flag of the
    invocation as it is: the path taken is the support path exactly when
    the file is a dictionary or the flag was given, and this is the mode in
    which a process-only run of the script calls [process_collected_data]
    on the files it has read. *)
Theorem support_path_in_process_mode :
  (forall flag aggregated,
      support_mode_for_processing flag (AlertsDict aggregated) = true) /\
  (forall flag alerts,
      support_mode_for_processing flag alerts = is_dict alerts || flag) /\
  (forall args server w,
      mode args = Process ->
      main args server w
      = (output (Line "Processing Data") ;;
         DATA <- read_collected_data ;;
         match process_collected_data (is_dict (ALERTS DATA) || support_api args)
                                      DATA empty_results with
         | (RESULTS, Return _) => ret RESULTS
         | (_, Raise e) => raise e
         end) w).
Proof.
  split; [reflexivity|]. split.
  - intros flag alerts. unfold support_mode_for_processing. now destruct (is_dict alerts).
  - intros args server w Hmode. unfold main.
    assert (configure args w = (w, Return (config_of args))) as E
        by (unfold configure, config_of; cbn; now rewrite Hmode).
    rewrite (bind_return _ _ _ _ _ E).
    change (RUN_MODE (config_of args)) with (mode args). rewrite Hmode.
    rewrite bind_ret_l. unfold bind.
    destruct (output (Line "Processing Data") w) as [w1 [[]|e]]; [|reflexivity].
    destruct (read_collected_data w1) as [w2 [DATA|e]]; [|reflexivity].
    now rewrite process_mode_support.
Qed.

Lemma support_path_in_process_mode_witness :
  mode (sample_args Process) = Process /\
  snd (main (sample_args Process) (sample_server [] [])
            (start (sample_server [] [])
                   (mkFiles (Some 12) (Some [sample_policy_high])
                            (Some (AlertsDict (mkAggregatedFile [] [] [] [])))
                            (Some []) (Some []) (Some []) (Some []) (Some []))))
  = Raise (KeyError "network").
Proof.
  split; [reflexivity|].
  rewrite (proj2 (proj2 support_path_in_process_mode) (sample_args Process)
                 (sample_server [] []) _ eq_refl).
  vm_compute. reflexivity.
Defined.

(** C8 as worded fails for a list in the alerts file and the flag given to
    the process-mode run: the support path is taken, from the invocation,
    and [process_aggregated_alerts] raises on the list. *)
Lemma mode_recovered_from_file_only_fails :
  ~ mode_recovered_from_file_only true (AlertsList []) /\
  snd (process_mode true (sample_data [] (AlertsList [])))
  = Raise (TypeError "list indices must be integers or slices, not str") /\
  snd (process_mode false (sample_data [] (AlertsList []))) = Return tt.
Proof.
  split; [|split; vm_compute; reflexivity].
  unfold mode_recovered_from_file_only. cbn. discriminate.
Qed.

(** ** The columns of the per-policy sheets *)

(** The sheet of the two sample policies: the first is shiftable and not
    remediable, the second remediable and not shiftable. *)
Example open_alerts_by_policy_of_samples :
  open_alerts_by_policy_rows sample_results_before_alerts []
  = ([policy_sheet_header;
      [CStr "Flow logs are off"; CBool false; CStr "CUSTOM"; CStr "medium";
       CStr "network"; CBool true; CBool true; CInt 3; CStr EmptyString];
      [CStr "S3 bucket is public"; CBool true; CStr "PC-AWS-S3-1"; CStr "high";
       CStr "config"; CBool false; CBool false; CInt 5; CStr "CIS,PCI"]],
     Return tt).
Proof. vm_compute. reflexivity. Qed.

(** ** The network total of the support API *)

Lemma fill_lookup items : forall d k,
  is_Some (fill items d !! k) <-> is_Some (d !! k) \/ has_item k items = true.
Proof.
  unfold fill, has_item.
  induction items as [|item items IH]; intros d k; cbn [foldl existsb].
  - split; [now left | intros [H|H]; [exact H | discriminate H]].
  - rewrite IH. rewrite orb_true_iff. destruct (String.eqb_spec (agg_key item) k) as [->|Hne].
    + rewrite lookup_insert_eq. split; [intros _; right; now left | eauto].
    + rewrite lookup_insert_ne by exact Hne.
      split; [intros [H|H]; auto | intros [H|[H|H]]; auto; discriminate H].
Qed.

Lemma seed_lookup keys k : k ∈ keys -> seed keys !! k = Some 0.
Proof.
  unfold seed. induction keys as [|k0 keys IH]; intros Hk.
  - now apply elem_of_nil in Hk.
  - cbn [map]. rewrite list_to_map_cons. destruct (decide (k0 = k)) as [->|Hne].
    + apply lookup_insert_eq.
    + rewrite lookup_insert_ne by exact Hne. apply IH.
      apply elem_of_cons in Hk as [->|Hk]; [contradiction | exact Hk].
Qed.

Lemma fill_seeded items keys k :
  k ∈ keys -> is_Some (fill items (seed keys) !! k).
Proof. intros Hk. apply fill_lookup. left. rewrite (seed_lookup _ _ Hk). eauto. Qed.

Lemma copy_to_policy_totals_returns k table k2 v r :
  table !! k2 = Some v ->
  copy_to_policy_totals k table k2 r
  = (put_policy_totals_by_alert (<[k := v]> (policy_totals_by_alert r)) r, Return tt).
Proof. intros H. unfold copy_to_policy_totals, bind, lift, getitem. now rewrite H. Qed.

Lemma copy_to_alert_totals_returns k table k2 v r :
  table !! k2 = Some v ->
  copy_to_alert_totals k table k2 r
  = (put_alert_totals_by_alert (<[k := v]> (alert_totals_by_alert r)) r, Return tt).
Proof. intros H. unfold copy_to_alert_totals, bind, lift, getitem. now rewrite H. Qed.

Lemma copy_to_policy_totals_raises k table k2 r :
  table !! k2 = None ->
  copy_to_policy_totals k table k2 r = (r, Raise (KeyError k2)).
Proof. intros H. unfold copy_to_policy_totals, bind, lift, getitem. now rewrite H. Qed.

(** C10.  With the support API, [process_aggregated_alerts] seeds the
    per-type counters anomaly, audit_event, config, data and iam, and not
    network; the counter of network exists exactly when the response
    aggregated by policy type has an item of type network, and
    [process_alerts], which reads that counter, returns in that case and
    raises [KeyError] on network otherwise. *)
Theorem network_total_needs_network_item :
  forall aggregated r,
  exists agg,
    process_aggregated_alerts (AlertsDict aggregated) = Return agg /\
    Forall (fun k => is_Some (by_type agg !! k))
           ["anomaly"; "audit_event"; "config"; "data"; "iam"] /\
    seed ["anomaly"; "audit_event"; "config"; "data"; "iam"] !! "network" = None /\
    bool_decide (is_Some (by_type agg !! "network"))
    = has_item "network" (by_policy_type aggregated) /\
    snd (process_alerts true (AlertsDict aggregated)
                        (put_aggregated_alerts_by (Some agg) r))
    = if has_item "network" (by_policy_type aggregated) then Return tt
      else Raise (KeyError "network").
Proof.
  intros aggregated r. eexists. split; [reflexivity|].
  set (types := ["anomaly"; "audit_event"; "config"; "data"; "iam"]).
  assert (forall k, k ∈ types ->
                    is_Some (fill (by_policy_type aggregated) (seed types) !! k)) as Hty
      by (intros k Hk; now apply fill_seeded).
  assert (forall k, k ∈ ["high"; "medium"; "low"] ->
                    is_Some (fill (by_policy_severity aggregated)
                                  (seed ["high"; "medium"; "low"]) !! k)) as Hsev
      by (intros k Hk; now apply fill_seeded).
  assert (forall k, k ∈ ["open"; "resolved"] ->
                    is_Some (fill (by_alert_status aggregated)
                                  (seed ["open"; "resolved"]) !! k)) as Hst
      by (intros k Hk; now apply fill_seeded).
  assert (is_Some (fill (by_policy_type aggregated) (seed types) !! "network")
          <-> has_item "network" (by_policy_type aggregated) = true) as Hnet.
  { rewrite fill_lookup. split; [|now right].
    intros [[v Hv]|H]; [discriminate Hv | exact H]. }
  split; [|split; [reflexivity|split]].
  - cbn [by_type]. subst types. repeat constructor; apply Hty; rewrite !elem_of_cons; tauto.
  - cbn [by_type]. destruct (has_item "network" (by_policy_type aggregated)).
    + apply bool_decide_eq_true. now apply Hnet.
    + apply bool_decide_eq_false. intros H. apply Hnet in H. discriminate H.
  - unfold process_alerts, process_alerts_with, process_alerts_support.
    unfold bind at 1. cbn [read_aggregated_alerts_by aggregated_alerts_by
                           put_aggregated_alerts_by by_severity by_type by_status].
    destruct (Hsev "high") as [vh Hh]; [rewrite !elem_of_cons; tauto|].
    destruct (Hsev "medium") as [vm Hm]; [rewrite !elem_of_cons; tauto|].
    destruct (Hsev "low") as [vl Hl]; [rewrite !elem_of_cons; tauto|].
    destruct (Hty "anomaly") as [v1 H1]; [subst types; rewrite !elem_of_cons; tauto|].
    destruct (Hty "audit_event") as [v2 H2]; [subst types; rewrite !elem_of_cons; tauto|].
    destruct (Hty "config") as [v3 H3]; [subst types; rewrite !elem_of_cons; tauto|].
    destruct (Hty "data") as [v4 H4]; [subst types; rewrite !elem_of_cons; tauto|].
    destruct (Hty "iam") as [v5 H5]; [subst types; rewrite !elem_of_cons; tauto|].
    destruct (Hst "open") as [vo Ho]; [rewrite !elem_of_cons; tauto|].
    destruct (Hst "resolved") as [vr Hr]; [rewrite !elem_of_cons; tauto|].
    rewrite (bind_return _ _ _ _ _ (copy_to_policy_totals_returns _ _ _ _ _ Hh)).
    rewrite (bind_return _ _ _ _ _ (copy_to_policy_totals_returns _ _ _ _ _ Hm)).
    rewrite (bind_return _ _ _ _ _ (copy_to_policy_totals_returns _ _ _ _ _ Hl)).
    rewrite (bind_return _ _ _ _ _ (copy_to_policy_totals_returns _ _ _ _ _ H1)).
    rewrite (bind_return _ _ _ _ _ (copy_to_policy_totals_returns _ _ _ _ _ H2)).
    rewrite (bind_return _ _ _ _ _ (copy_to_policy_totals_returns _ _ _ _ _ H3)).
    rewrite (bind_return _ _ _ _ _ (copy_to_policy_totals_returns _ _ _ _ _ H4)).
    rewrite (bind_return _ _ _ _ _ (copy_to_policy_totals_returns _ _ _ _ _ H5)).
    destruct (has_item "network" (by_policy_type aggregated)).
    + destruct (proj2 Hnet eq_refl) as [vn Hn].
      rewrite (bind_return _ _ _ _ _ (copy_to_policy_totals_returns _ _ _ _ _ Hn)).
      rewrite (bind_return _ _ _ _ _ (copy_to_alert_totals_returns _ _ _ _ _ Ho)).
      now rewrite (copy_to_alert_totals_returns _ _ _ _ _ Hr).
    + assert (fill (by_policy_type aggregated) (seed types) !! "network" = None) as Hn.
      { apply eq_None_not_Some. intros H. apply Hnet in H. discriminate H. }
      now rewrite (bind_raise _ _ _ _ _ (copy_to_policy_totals_raises _ _ _ _ Hn)).
Qed.

(** ** Account flattening *)

Lemma parse_account_children_rows parent children :
  Forall2 (flattened_from parent) children (parse_account_children parent children).
Proof.
  unfold parse_account_children.
  induction children as [|child children IH]; cbn [map]; constructor; [|exact IH].
  unfold flattened_from. destruct (String.eqb (accountId parent) (accountId child));
    cbn; repeat split; reflexivity.
Qed.

Lemma make_api_call_ok {A} rq (content : A) w :
  make_api_call rq (Ok content) w
  = (mkWorld (requests w ++ [(rq, true)]) (status_responses w) (files w) (printed w),
     Return content).
Proof. reflexivity. Qed.

(** C5, amended.  When [get_accounts] flattens an account that passes the
    test of its mode (type organization with the full API, a positive child
    count with the support API), the accounts file holds the rows of the
    follow-up response, in their order and as many; the row that has the
    identifier of the parent carries the child count of the parent, and
    every other row is as the response gave it, child count included. *)
Theorem children_rows_flattened :
  forall CONFIG server w parent children,
    cloud_response server = Ok [parent] ->
    has_children CONFIG parent = true ->
    cloud_project_response server (cloudType parent) (accountId parent) = Ok children ->
    exists rows,
      flattened_accounts CONFIG server w = Some rows /\
      snd (get_accounts CONFIG server w) = Return tt /\
      length rows = length children /\
      Forall2 (flattened_from parent) children rows.
Proof.
  intros CONFIG server w parent children Hcloud Hhas Hchildren.
  exists (parse_account_children parent children).
  assert (get_accounts CONFIG server w
          = (mkWorld (requests w ++ [(if SUPPORT_API_MODE CONFIG
                                      then mkRequest POST support_cloud_path
                                      else mkRequest GET cloud_path, true)]
                                ++ [(children_request CONFIG parent, true)])
                     (status_responses w)
                     (put_accounts_file (Some (parse_account_children parent children))
                                        (put_accounts_file None (files w)))
                     (printed w),
             Return tt)) as E.
  { unfold get_accounts. rewrite Hcloud. unfold bind at 1. cbn [write_file modify].
    unfold bind at 1. rewrite make_api_call_ok.
    unfold bind at 1. cbn [flatten_accounts]. rewrite Hhas, Hchildren.
    unfold bind at 1. rewrite make_api_call_ok. cbn.
    now rewrite <- app_assoc. }
  unfold flattened_accounts. rewrite E. cbn.
  split; [reflexivity|]. split; [reflexivity|]. split.
  - unfold parse_account_children. now rewrite length_map.
  - apply parse_account_children_rows.
Qed.

Lemma children_rows_flattened_witness :
  cloud_response (sample_server [sample_organization_as_child; sample_child_1] [])
  = Ok [sample_organization] /\
  has_children (sample_config false) sample_organization = true /\
  exists rows,
    flattened_accounts (sample_config false)
      (sample_server [sample_organization_as_child; sample_child_1] [])
      (start (sample_server [sample_organization_as_child; sample_child_1] []) no_files)
    = Some rows /\
    length rows = 2%nat /\
    Forall2 (flattened_from sample_organization)
            [sample_organization_as_child; sample_child_1] rows.
Proof.
  split; [reflexivity|]. split; [reflexivity|].
  destruct (children_rows_flattened (sample_config false)
              (sample_server [sample_organization_as_child; sample_child_1] [])
              (start (sample_server [sample_organization_as_child; sample_child_1] [])
                     no_files)
              sample_organization [sample_organization_as_child; sample_child_1]
              eq_refl eq_refl eq_refl) as (rows & H1 & _ & H2 & H3).
  exists rows. split; [exact H1|]. split; [exact H2 | exact H3].
Defined.

(** C5 as worded fails for an organization with a child count of 2 whose
    follow-up response has two rows, neither with the identifier of the
    organization: both rows keep the child count 0 of the response. *)
Lemma children_carry_parent_count_fails :
  ~ children_carry_parent_count (sample_config false)
      (sample_server [sample_child_1; sample_child_2] [])
      (start (sample_server [sample_child_1; sample_child_2] []) no_files)
      sample_organization [sample_child_1; sample_child_2].
Proof.
  intros (rows & Hrows & _ & Hall). vm_compute in Hrows.
  injection Hrows as <-. apply Forall_cons in Hall as [H _].
  cbn in H. discriminate H.
Qed.

(** ** The alert job *)

(** A status other than IN_PROGRESS ends the loop at once, whatever the
    bound on its turns. *)
Lemma poll_alert_job_done server turns job_id job_status :
  job_status <> "IN_PROGRESS" ->
  poll_alert_job server turns job_id job_status
  = if String.eqb job_status "READY_TO_DOWNLOAD" then
      api_response <- make_api_call (download_request job_id)
                                    (alert_job_download_response server) ;;
      write_file (put_alerts_file (Some (AlertsList api_response)))
    else output JobStatusUnexpected.
Proof.
  intros Hne. apply String.eqb_neq in Hne.
  destruct turns; cbn [poll_alert_job]; now rewrite Hne.
Qed.

Lemma get_job_status_next job_id response rest w :
  status_responses w = response :: rest ->
  get_job_status job_id w
  = bind (make_api_call (status_request job_id) response)
         (fun status_field =>
            match status_field with
            | None => output JobStatusMissing ;; ret None
            | Some alert_job_status => ret (Some alert_job_status)
            end)
         (mkWorld (requests w) rest (files w) (printed w)).
Proof.
  intros H. unfold get_job_status. unfold bind at 1.
  unfold next_status_response. now rewrite H.
Qed.

Lemma get_job_status_ok job_id job_status rest w :
  status_responses w = Ok (Some job_status) :: rest ->
  get_job_status job_id w
  = (mkWorld (requests w ++ [(status_request job_id, true)]) rest (files w) (printed w),
     Return (Some job_status)).
Proof. intros H. now rewrite (get_job_status_next _ _ _ _ H). Qed.

(** The loop over [n] more answers IN_PROGRESS and then [last]: one status
    request and one line of output for each answer consumed. *)
Lemma poll_alert_job_in_progress server job_id last rest :
  forall n turns w,
    status_responses w
    = (replicate n (Ok (Some "IN_PROGRESS")) ++ Ok (Some last) :: rest)%list ->
    (n < turns)%nat ->
    poll_alert_job server turns job_id "IN_PROGRESS" w
    = poll_alert_job server (turns - S n) job_id last
        (mkWorld (requests w ++ replicate (S n) (status_request job_id, true)) rest
                 (files w) (printed w ++ replicate (S n) (Checking "IN_PROGRESS"))).
Proof.
  induction n as [|n IH]; intros turns w Hw Hlt;
    (destruct turns as [|turns]; [lia|]); cbn [poll_alert_job String.eqb Ascii.eqb Bool.eqb].
  - cbn [replicate app] in Hw.
    unfold bind at 1. cbn [output modify].
    unfold bind at 1. rewrite (get_job_status_ok job_id last rest) by exact Hw.
    cbn [requests files printed status_responses].
    replace (S turns - 1)%nat with turns by lia. reflexivity.
  - cbn [replicate app] in Hw.
    unfold bind at 1. cbn [output modify].
    unfold bind at 1. rewrite (get_job_status_ok job_id "IN_PROGRESS" _) by exact Hw.
    rewrite (IH turns); [ | reflexivity | lia ].
    cbn [requests files printed status_responses].
    replace (S turns - S (S n))%nat with (turns - S n)%nat by lia.
    now rewrite <- !app_assoc.
Qed.

(** The bound on the turns of the loop is never reached: a run with more
    turns than responses left is the same with any such number of turns. *)
Lemma poll_alert_job_turns server job_id :
  forall turns turns' job_status w,
    (length (status_responses w) < turns)%nat ->
    (length (status_responses w) < turns')%nat ->
    poll_alert_job server turns job_id job_status w
    = poll_alert_job server turns' job_id job_status w.
Proof.
  induction turns as [|turns IH]; intros turns' job_status w H H'; [lia|].
  destruct turns' as [|turns']; [lia|].
  cbn [poll_alert_job]. destruct (String.eqb job_status "IN_PROGRESS"); [|reflexivity].
  unfold bind at 1 3. cbn [output modify].
  unfold get_job_status, bind at 1 5. unfold next_status_response.
  cbn [status_responses requests files printed].
  destruct (status_responses w) as [|response rest] eqn:E.
  - reflexivity.
  - unfold bind. destruct response as [[job_status'|]| |]; cbn; try reflexivity.
    apply IH; cbn in *; lia.
Qed.

(** What [get_alerts] leaves once the loop has seen [last], from the world
    [w1] in which the status requests were made. *)
Lemma poll_alert_job_last server turns job_id last w1 :
  last <> "IN_PROGRESS" ->
  let run := poll_alert_job server turns job_id last w1 in
  requests (fst run)
  = (requests w1 ++
     (if String.eqb last "READY_TO_DOWNLOAD"
      then [(download_request job_id, is_ok (alert_job_download_response server))]
      else []))%list /\
  status_responses (fst run) = status_responses w1 /\
  (if String.eqb last "READY_TO_DOWNLOAD" then
     match alert_job_download_response server with
     | Ok content =>
         snd run = Return tt /\
         files (fst run) = put_alerts_file (Some (AlertsList content)) (files w1) /\
         printed (fst run) = printed w1
     | _ => snd run = Raise (SystemExit 1) /\ files (fst run) = files w1
     end
   else snd run = Return tt /\ files (fst run) = files w1 /\
        printed (fst run) = (printed w1 ++ [JobStatusUnexpected])%list).
Proof.
  intros Hne. cbv zeta. rewrite (poll_alert_job_done _ _ _ _ Hne).
  destruct (String.eqb last "READY_TO_DOWNLOAD").
  - destruct (alert_job_download_response server); cbn; auto.
  - cbn. now rewrite app_nil_r.
Qed.

(** C6.  With the full API, after the job is submitted and for status
    answers IN_PROGRESS [n] times and then [last], [get_alerts] sends
    [n + 1] status requests and then, when [last] is READY_TO_DOWNLOAD, one
    download request, whose content it writes to the alerts file; for any
    other [last] it sends no download request, prints the error and
    returns, leaving no alerts file. *)
Theorem alert_job_polled :
  forall CONFIG server w job_id n last rest,
    SUPPORT_API_MODE CONFIG = false ->
    alert_jobs_response server = Ok (Some job_id) ->
    status_responses w
    = (replicate n (Ok (Some "IN_PROGRESS")) ++ Ok (Some last) :: rest)%list ->
    last <> "IN_PROGRESS" ->
    let run := get_alerts CONFIG server w in
    requests (fst run)
    = (requests w ++ [(mkRequest POST alert_jobs_path, true)] ++
       replicate (S n) (status_request job_id, true) ++
       (if String.eqb last "READY_TO_DOWNLOAD"
        then [(download_request job_id, is_ok (alert_job_download_response server))]
        else []))%list /\
    status_responses (fst run) = rest /\
    (if String.eqb last "READY_TO_DOWNLOAD" then
       match alert_job_download_response server with
       | Ok content =>
           snd run = Return tt /\
           alerts_file (files (fst run)) = Some (AlertsList content)
       | _ => snd run = Raise (SystemExit 1) /\ alerts_file (files (fst run)) = None
       end
     else snd run = Return tt /\ alerts_file (files (fst run)) = None /\
          printed (fst run)
          = (printed w ++ replicate n (Checking "IN_PROGRESS") ++ [JobStatusUnexpected])%list).
Proof.
  intros CONFIG server w job_id n last rest Hsup Hjobs Hw Hne. cbv zeta.
  assert (exists turns w1,
             get_alerts CONFIG server w = poll_alert_job server turns job_id last w1 /\
             requests w1
             = (requests w ++ [(mkRequest POST alert_jobs_path, true)] ++
                replicate (S n) (status_request job_id, true))%list /\
             status_responses w1 = rest /\
             files w1 = put_alerts_file None (files w) /\
             printed w1 = (printed w ++ replicate n (Checking "IN_PROGRESS"))%list)
    as (turns & w1 & E & Hrq & Hst & Hfiles & Hout).
  { unfold get_alerts. rewrite Hsup, Hjobs.
    unfold bind at 1. cbn [write_file modify].
    unfold bind at 1. rewrite make_api_call_ok.
    cbn [requests status_responses files printed].
    destruct n as [|n]; cbn [replicate app] in Hw.
    - eexists _, _. split.
      + unfold bind at 1. rewrite (get_job_status_ok job_id last rest) by exact Hw.
        unfold bind at 1. cbn [get_state]. reflexivity.
      + cbn. rewrite app_nil_r, <- app_assoc. repeat split; reflexivity.
    - eexists _, _. split.
      + unfold bind at 1. rewrite (get_job_status_ok job_id "IN_PROGRESS" _) by exact Hw.
        unfold bind at 1. cbn [get_state].
        rewrite (poll_alert_job_in_progress server job_id last rest n);
          [reflexivity | reflexivity | ].
        cbn [status_responses]. rewrite length_app, length_replicate. cbn. lia.
      + cbn [requests status_responses files printed].
        rewrite <- !app_assoc. repeat split; reflexivity. }
  rewrite E.
  destruct (poll_alert_job_last server turns job_id last w1 Hne) as (Prq & Pst & Pend).
  rewrite Prq, Pst, Hrq, Hst.
  split; [now rewrite <- !app_assoc|]. split; [reflexivity|].
  destruct (String.eqb last "READY_TO_DOWNLOAD").
  - destruct (alert_job_download_response server).
    + destruct Pend as (-> & -> & _). now rewrite Hfiles.
    + destruct Pend as (-> & ->). now rewrite Hfiles.
    + destruct Pend as (-> & ->). now rewrite Hfiles.
  - destruct Pend as (-> & -> & ->). rewrite Hfiles, Hout. cbn.
    now rewrite <- !app_assoc.
Qed.

(** The scenario of the specification: IN_PROGRESS, IN_PROGRESS,
    READY_TO_DOWNLOAD gives three status requests and then one download
    request. *)
Lemma alert_job_polled_witness :
  let server := sample_server [] [Ok (Some "IN_PROGRESS"); Ok (Some "IN_PROGRESS");
                                  Ok (Some "READY_TO_DOWNLOAD")] in
  let run := get_alerts (sample_config false) server (start server no_files) in
  "READY_TO_DOWNLOAD" <> "IN_PROGRESS" /\
  requests (fst run)
  = [(mkRequest POST alert_jobs_path, true);
     (status_request "job-1", true); (status_request "job-1", true);
     (status_request "job-1", true);
     (download_request "job-1", true)] /\
  snd run = Return tt /\
  alerts_file (files (fst run)) = Some (AlertsList [sample_alert_of_policy_high]).
Proof.
  cbv zeta.
  assert ("READY_TO_DOWNLOAD" <> "IN_PROGRESS") as Hne by discriminate.
  split; [exact Hne|].
  destruct (alert_job_polled (sample_config false)
              (sample_server [] [Ok (Some "IN_PROGRESS"); Ok (Some "IN_PROGRESS");
                                 Ok (Some "READY_TO_DOWNLOAD")])
              (start (sample_server [] [Ok (Some "IN_PROGRESS"); Ok (Some "IN_PROGRESS");
                                        Ok (Some "READY_TO_DOWNLOAD")]) no_files)
              "job-1" 2%nat "READY_TO_DOWNLOAD" [] eq_refl eq_refl eq_refl Hne)
    as (Hrq & _ & Hend).
  split; [exact Hrq|]. exact Hend.
Defined.

(** ** Exit status of a collection *)

Lemma collects_ret {A} (a : A) : collects (ret a).
Proof. now intros w Hw. Qed.

Lemma collects_get_state : collects get_state.
Proof. now intros w Hw. Qed.

Lemma collects_bind {A B} (m : M World A) (f : A -> M World B) :
  collects m -> (forall a, collects (f a)) -> collects (bind m f).
Proof.
  intros Hm Hf w Hw. unfold bind. specialize (Hm w Hw).
  destruct (m w) as [w' [a|e]]; [now apply Hf | exact Hm].
Qed.

Lemma collects_output m : is_login_error m = false -> collects (output m).
Proof.
  intros Hm w Hw. cbn. unfold collection_failed in *. cbn.
  rewrite existsb_app. cbn. rewrite Hm.
  apply orb_false_iff in Hw as [-> ->]. reflexivity.
Qed.

Lemma collects_write_file put : collects (write_file put).
Proof. now intros w Hw. Qed.

Lemma collection_failed_sent rq ok w :
  collection_failed (fst (sent rq ok w)) = collection_failed w || negb ok.
Proof.
  unfold collection_failed. cbn. rewrite existsb_app. cbn.
  destruct (existsb _ (requests w)), (existsb _ (printed w)), ok; reflexivity.
Qed.

Lemma collects_make_api_call {A} rq (response : Response A) :
  collects (make_api_call rq response).
Proof.
  intros w Hw. destruct response as [content|code text|error]; cbn.
  - pose proof (collection_failed_sent rq true w) as Ht.
    rewrite Hw in Ht. exact Ht.
  - split; [reflexivity|]. unfold collection_failed. cbn.
    rewrite !existsb_app. cbn. now rewrite !orb_true_r.
  - split; [reflexivity|]. unfold collection_failed. cbn.
    rewrite !existsb_app. cbn. now rewrite !orb_true_r.
Qed.

Lemma collects_login_error :
  collects (output ErrorWithApiLogin ;; raise (A := string) (SystemExit 1)).
Proof.
  intros w Hw. cbn. split; [reflexivity|]. unfold collection_failed. cbn.
  rewrite existsb_app. cbn. now rewrite !orb_true_r.
Qed.

(** Steps of the collection are recognised by their shape. *)
Ltac collects_step :=
  first
    [ apply collects_ret
    | apply collects_get_state
    | apply collects_write_file
    | apply collects_make_api_call
    | apply collects_output; reflexivity
    | apply collects_login_error
    | apply collects_bind; [ | intros ? ]
    | match goal with
      | |- collects (if ?b then _ else _) => destruct b
      | |- collects (match ?x with _ => _ end) => destruct x
      end ].

Ltac collects_auto := repeat collects_step.

Lemma collects_get_prisma_login server : collects (get_prisma_login server).
Proof. unfold get_prisma_login. collects_auto. Qed.

Lemma collects_get_assets CONFIG server : collects (get_assets CONFIG server).
Proof. unfold get_assets. collects_auto. Qed.

Lemma collects_get_policies CONFIG server : collects (get_policies CONFIG server).
Proof. unfold get_policies. collects_auto. Qed.

Lemma collects_get_users CONFIG server : collects (get_users CONFIG server).
Proof. unfold get_users. collects_auto. Qed.

Lemma collects_flatten_accounts CONFIG server accounts :
  forall account_list, collects (flatten_accounts CONFIG server accounts account_list).
Proof.
  induction accounts as [|account rest IH]; intros account_list; cbn [flatten_accounts].
  - apply collects_ret.
  - destruct (has_children CONFIG account); [|apply IH].
    apply collects_bind; [apply collects_make_api_call | intros children; apply IH].
Qed.

Lemma collects_get_accounts CONFIG server : collects (get_accounts CONFIG server).
Proof.
  unfold get_accounts.
  apply collects_bind; [apply collects_write_file | intros _].
  apply collects_bind; [apply collects_make_api_call | intros accounts].
  apply collects_bind; [apply collects_flatten_accounts | intros account_list].
  apply collects_write_file.
Qed.

Lemma collects_get_account_groups CONFIG server : collects (get_account_groups CONFIG server).
Proof. unfold get_account_groups. collects_auto. Qed.

Lemma collects_get_alert_rules CONFIG server : collects (get_alert_rules CONFIG server).
Proof. unfold get_alert_rules. collects_auto. Qed.

Lemma collects_get_integrations CONFIG server : collects (get_integrations CONFIG server).
Proof. unfold get_integrations. collects_auto. Qed.

Lemma collects_get_job_status job_id : collects (get_job_status job_id).
Proof.
  intros w Hw. unfold get_job_status, bind at 1, next_status_response.
  destruct (status_responses w) as [|response rest].
  - apply (collects_bind (make_api_call _ _) _ (collects_make_api_call _ _)); [|exact Hw].
    intros [s|]; collects_auto.
  - apply (collects_bind (make_api_call _ _) _ (collects_make_api_call _ _)); [|exact Hw].
    intros [s|]; collects_auto.
Qed.

(** The loop, with more turns than responses left. *)
Lemma poll_alert_job_collects server job_id :
  forall turns job_status w,
    (length (status_responses w) < turns)%nat ->
    collection_failed w = false ->
    match poll_alert_job server turns job_id job_status w with
    | (w', Return _) => collection_failed w' = false
    | (w', Raise e) => e = SystemExit 1 /\ collection_failed w' = true
    end.
Proof.
  induction turns as [|turns IH]; intros job_status w Hlen Hw; [lia|].
  cbn [poll_alert_job]. destruct (String.eqb job_status "IN_PROGRESS").
  - unfold bind at 1. cbn [output modify].
    set (w1 := mkWorld _ _ _ _).
    assert (collection_failed w1 = false) as Hw1
        by (apply (collects_output (Checking job_status) eq_refl w Hw)).
    assert (status_responses w1 = status_responses w) as Hs1 by reflexivity.
    unfold bind. pose proof (collects_get_job_status job_id w1 Hw1) as Hj.
    assert (forall w2 r, get_job_status job_id w1 = (w2, Return r) ->
                         (length (status_responses w2) < turns)%nat) as Hdec.
    { intros w2 r. unfold get_job_status, bind, next_status_response.
      rewrite Hs1. destruct (status_responses w) as [|response rest] eqn:E.
      - cbn. discriminate.
      - destruct response as [[s|]| |]; cbn; intros [= <- _]; cbn in *; lia. }
    destruct (get_job_status job_id w1) as [w2 [[s|]|e]] eqn:Ej.
    + apply IH; [now apply (Hdec w2 (Some s)) | exact Hj].
    + exact Hj.
    + exact Hj.
  - destruct (String.eqb job_status "READY_TO_DOWNLOAD").
    + revert w Hlen Hw. intros w _. revert w.
      change (collects (api_response <- make_api_call (download_request job_id)
                                          (alert_job_download_response server) ;;
                        write_file (put_alerts_file (Some (AlertsList api_response))))).
      collects_auto.
    + now apply (collects_output JobStatusUnexpected eq_refl).
Qed.

Lemma collects_get_alerts CONFIG server : collects (get_alerts CONFIG server).
Proof.
  unfold get_alerts, get_alerts_aggregate.
  apply collects_bind; [apply collects_write_file | intros _].
  destruct (SUPPORT_API_MODE CONFIG); [collects_auto|].
  apply collects_bind; [apply collects_make_api_call | intros [job_id|]];
    [|now apply collects_output].
  apply collects_bind; [apply collects_get_job_status | intros [job_status|]];
    [|apply collects_ret].
  intros w Hw. unfold bind. cbn [get_state].
  apply poll_alert_job_collects; [lia | exact Hw].
Qed.

Lemma collects_collect_data CONFIG server : collects (collect_data CONFIG server).
Proof.
  unfold collect_data.
  repeat first
    [ apply collects_get_prisma_login | apply collects_get_assets
    | apply collects_get_policies | apply collects_get_alerts
    | apply collects_get_users | apply collects_get_accounts
    | apply collects_get_account_groups | apply collects_get_alert_rules
    | apply collects_get_integrations
    | apply collects_output; reflexivity
    | apply collects_bind; [ | intros ? ] ].
Qed.

Lemma configure_complete args w :
  missing_required args = false -> configure args w = (w, Return (config_of args)).
Proof.
  unfold missing_required, configure. cbn.
  intros H. apply orb_false_iff in H as [H H3]. apply orb_false_iff in H as [H1 H2].
  rewrite H1, H2, H3. unfold config_of. now destruct (mode args).
Qed.

Lemma configure_missing args w :
  mode args <> Process -> missing_required args = true ->
  exists w', configure args w = (w', Raise (SystemExit 1)) /\
             requests w' = requests w /\
             existsb is_login_error (printed w') = existsb is_login_error (printed w).
Proof.
  unfold missing_required, configure. cbn. intros Hmode H.
  assert (forall m, is_login_error m = false ->
                    existsb is_login_error (printed w ++ [m]) =
                    existsb is_login_error (printed w)) as Hout.
  { intros m Hm. rewrite existsb_app. cbn. rewrite Hm. now rewrite !orb_false_r. }
  destruct (mode args); try contradiction;
    destruct (missing (url args)); cbn in *;
      try (eexists; split; [reflexivity|]; split; [reflexivity|]; now apply Hout);
    destruct (missing (access_key args)); cbn in *;
      try (eexists; split; [reflexivity|]; split; [reflexivity|]; now apply Hout);
    destruct (missing (secret_key args)); cbn in *; try discriminate;
      eexists; (split; [reflexivity|]); (split; [reflexivity|]); now apply Hout.
Qed.

Lemma frame_output_collection_failed m :
  is_login_error m = false -> frame collection_failed (output m).
Proof.
  intros Hm w. unfold collection_failed. cbn. rewrite existsb_app. cbn.
  rewrite Hm. now rewrite !orb_false_r.
Qed.

Lemma frame_read_file {A} (file : Files -> option A) :
  frame collection_failed (read_file file).
Proof.
  unfold read_file. apply frame_bind; [apply frame_get_state | intros w].
  destruct (file (files w)); [apply frame_ret|].
  apply frame_bind; [now apply frame_output_collection_failed | intros _].
  apply frame_raise.
Qed.

Lemma frame_read_collected_data : frame collection_failed read_collected_data.
Proof.
  unfold read_collected_data.
  repeat first [ apply frame_read_file | apply frame_ret
               | apply frame_bind; [ | intros ? ] ].
Qed.

Lemma main_collect args server files :
  mode args = Collect -> missing_required args = false ->
  main args server (start server files)
  = match collect_data (config_of args) server
            (fst (output (Line "Collecting Data") (start server files))) with
    | (w', Return _) =>
        (fst (output (Line "Run with --mode process") w'), Raise (SystemExit 0))
    | (w', Raise e) => (w', Raise e)
    end.
Proof.
  intros Hmode Hm. unfold main.
  rewrite (bind_return _ _ _ _ _ (configure_complete _ _ Hm)).
  change (RUN_MODE (config_of args)) with (mode args). rewrite Hmode.
  unfold bind. cbn [output modify fst].
  now destruct (collect_data _ _ _) as [w' [[]|e]].
Qed.

Lemma main_auto args server files :
  mode args = Auto -> missing_required args = false ->
  main args server (start server files)
  = match collect_data (config_of args) server
            (fst (output (Line "Collecting Data") (start server files))) with
    | (w', Return _) =>
        (output (Line "Processing Data") ;;
         DATA <- read_collected_data ;;
         match process_mode (SUPPORT_API_MODE (config_of args)) DATA with
         | (RESULTS, Return _) => ret RESULTS
         | (_, Raise e) => raise e
         end) w'
    | (w', Raise e) => (w', Raise e)
    end.
Proof.
  intros Hmode Hm. unfold main.
  rewrite (bind_return _ _ _ _ _ (configure_complete _ _ Hm)).
  change (RUN_MODE (config_of args)) with (mode args). rewrite Hmode.
  unfold bind at 1 2 3. cbn [output modify fst].
  now destruct (collect_data _ _ _) as [w' [[]|e]].
Qed.

(** C7, amended.  A collect-only run exits with status 1 when an argument
    that [configure] requires (the URL, the access key, the secret key) is
    missing or when the collection has an error (a request that does not
    end with a response that is ok, or a login response without a token),
    and with status 0 otherwise; a run in the default mode exits with
    status 1 in the same cases.  A response of the alert-job paths without
    'id' or 'status' is not among these errors. *)
Theorem exit_status_of_collection :
  (forall args server files,
      mode args = Collect ->
      let run := main args server (start server files) in
      exit_status (snd run)
      = Some (if missing_required args || collection_failed (fst run) then 1 else 0)) /\
  (forall args server files,
      mode args = Auto ->
      let run := main args server (start server files) in
      missing_required args || collection_failed (fst run) = true ->
      exit_status (snd run) = Some 1).
Proof.
  assert (forall args server files,
             mode args <> Process -> missing_required args = true ->
             exit_status (snd (main args server (start server files))) = Some 1) as Hmissing.
  { intros args server files Hmode Hm. unfold main.
    destruct (configure_missing args (start server files) Hmode Hm) as (w' & E & _).
    now rewrite (bind_raise _ _ _ _ _ E). }
  assert (forall args server files,
             match collect_data (config_of args) server
                     (fst (output (Line "Collecting Data") (start server files))) with
             | (w', Return _) => collection_failed w' = false
             | (w', Raise e) => e = SystemExit 1 /\ collection_failed w' = true
             end) as Hcollect.
  { intros args server files. apply collects_collect_data. reflexivity. }
  split.
  - intros args server files Hmode. cbv zeta.
    destruct (missing_required args) eqn:Hm.
    { apply Hmissing; [congruence | exact Hm]. }
    specialize (Hcollect args server files).
    rewrite (main_collect _ _ _ Hmode Hm).
    destruct (collect_data _ _ _) as [w' [[]|e]]; cbn [fst snd orb exit_status].
    + rewrite (frame_output_collection_failed (Line "Run with --mode process") eq_refl w').
      now rewrite Hcollect.
    + destruct Hcollect as [-> ->]. reflexivity.
  - intros args server files Hmode. cbv zeta.
    destruct (missing_required args) eqn:Hm.
    { intros _. apply Hmissing; [congruence | exact Hm]. }
    specialize (Hcollect args server files).
    rewrite (main_auto _ _ _ Hmode Hm).
    destruct (collect_data _ _ _) as [w' [[]|e]]; cbn [orb].
    + intros Hfailed. exfalso. revert Hfailed.
      assert (frame collection_failed
                (output (Line "Processing Data") ;;
                 DATA <- read_collected_data ;;
                 match process_mode (SUPPORT_API_MODE (config_of args)) DATA with
                 | (RESULTS, Return _) => ret RESULTS
                 | (_, Raise e) => raise e
                 end)) as Hframe.
      { apply frame_bind; [now apply frame_output_collection_failed | intros _].
        apply frame_bind; [apply frame_read_collected_data | intros DATA].
        destruct (process_mode _ DATA) as [RESULTS [[]|e]];
          [apply frame_ret | apply frame_raise]. }
      rewrite (Hframe w'). now rewrite Hcollect.
    + intros _. destruct Hcollect as [-> _]. reflexivity.
Qed.

Lemma exit_status_of_collection_witness :
  (mode (sample_args Collect) = Collect /\
   exit_status (snd (main (sample_args Collect) server_with_failing_policies
                          (start server_with_failing_policies no_files)))
   = Some 1) /\
  (mode (sample_args Auto) = Auto /\
   missing_required (sample_args Auto) ||
   collection_failed (fst (main (sample_args Auto) server_with_failing_policies
                                (start server_with_failing_policies no_files)))
   = true /\
   exit_status (snd (main (sample_args Auto) server_with_failing_policies
                          (start server_with_failing_policies no_files)))
   = Some 1).
Proof.
  split.
  - split; [reflexivity|].
    exact (proj1 exit_status_of_collection (sample_args Collect)
                 server_with_failing_policies no_files eq_refl).
  - split; [reflexivity|]. split; [vm_compute; reflexivity|].
    apply (proj2 exit_status_of_collection (sample_args Auto)
                 server_with_failing_policies no_files eq_refl).
    vm_compute. reflexivity.
Defined.

(** C7 as worded fails for a collect-only run whose alert-jobs response has
    no 'id': the error is printed, the collection goes on, and the run
    exits with status 0. *)
Lemma exits_1_on_any_error_fails :
  malformed_job_response
    (fst (main (sample_args Collect) server_without_job_id
               (start server_without_job_id no_files))) = true /\
  exit_status (snd (main (sample_args Collect) server_without_job_id
                         (start server_without_job_id no_files))) = Some 0 /\
  ~ exits_1_on_any_error (sample_args Collect) server_without_job_id no_files.
Proof.
  split; [vm_compute; reflexivity|]. split; [vm_compute; reflexivity|].
  unfold exits_1_on_any_error. vm_compute. discriminate.
Qed.

(** ** Runs that return *)

Lemma bind_Return_inv {S A B} (m : M S A) (f : A -> M S B) s s' b :
  bind m f s = (s', Return b) ->
  exists a s1, m s = (s1, Return a) /\ f a s1 = (s', Return b).
Proof. unfold bind. destruct (m s) as [s1 [a|e]]; [eauto | discriminate]. Qed.

Lemma bind_modify {S B} (f : S -> S) (k : unit -> M S B) s :
  bind (modify f) k s = k tt (f s).
Proof. reflexivity. Qed.

Lemma ensures_bind {S A B} (P : S -> Prop) (R : A -> S -> Prop) (Q : B -> S -> Prop)
    (m : M S A) (f : A -> M S B) :
  ensures P m R -> (forall a, ensures (R a) (f a) Q) -> ensures P (bind m f) Q.
Proof.
  intros Hm Hf s s' b HP E. apply bind_Return_inv in E as (a & s1 & E1 & E2).
  exact (Hf a s1 s' b (Hm s s1 a HP E1) E2).
Qed.

Lemma ensures_ret {S A} (P : S -> Prop) (Q : A -> S -> Prop) (a : A) :
  (forall s, P s -> Q a s) -> ensures P (ret a) Q.
Proof. intros H s s' a' HP [= <- <-]. now apply H. Qed.

Lemma ensures_raise {S A} (P : S -> Prop) (Q : A -> S -> Prop) e :
  ensures P (raise e) Q.
Proof. intros s s' a _ E. discriminate E. Qed.

Lemma ensures_modify {S} (P : S -> Prop) (Q : unit -> S -> Prop) (f : S -> S) :
  (forall s, P s -> Q tt (f s)) -> ensures P (modify f) Q.
Proof. intros H s s' a HP [= <- <-]. now apply H. Qed.

Lemma ensures_weaken {S A} (P P' : S -> Prop) (Q Q' : A -> S -> Prop) (m : M S A) :
  ensures P' m Q' -> (forall s, P s -> P' s) -> (forall a s, Q' a s -> Q a s) ->
  ensures P m Q.
Proof. intros H HP HQ s s' a Hs E. exact (HQ _ _ (H s s' a (HP _ Hs) E)). Qed.

Lemma ensures_of_preserves {S A} (I : S -> Prop) (m : M S A) :
  preserves I m -> ensures I m (fun _ => I).
Proof. intros H s s' a HI E. specialize (H s HI). now rewrite E in H. Qed.

Lemma ensures_of_frame {S T A} (proj : S -> T) (x : T) (m : M S A) :
  frame proj m -> ensures (fun s => proj s = x) m (fun _ s => proj s = x).
Proof. intros H s s' a <- E. specialize (H s). now rewrite E in H. Qed.

Lemma ensures_and {S A} (P1 P2 : S -> Prop) (Q1 Q2 : A -> S -> Prop) (m : M S A) :
  ensures P1 m Q1 -> ensures P2 m Q2 ->
  ensures (fun s => P1 s /\ P2 s) m (fun a s => Q1 a s /\ Q2 a s).
Proof. intros H1 H2 s s' a [HP1 HP2] E. split; eauto. Qed.

Lemma ensures_for_each {S A} (I : S -> Prop) (l : list A) (body : A -> M S unit) :
  (forall x, x ∈ l -> ensures I (body x) (fun _ => I)) ->
  ensures I (for_each l body) (fun _ => I).
Proof.
  induction l as [|x l IH]; intros H.
  - now apply ensures_ret.
  - cbn [for_each]. apply (ensures_bind _ (fun _ => I)).
    + apply H. left.
    + intros _. apply IH. intros y Hy. apply H. now right.
Qed.

(** A loop whose body takes a component of the state from [t] to
    [step t x] takes it to the fold of [step] over the list. *)
Lemma ensures_for_each_fold {S T A} (proj : S -> T) (step : T -> A -> T) (l : list A)
    (body : A -> M S unit) :
  (forall x t, ensures (fun s => proj s = t) (body x) (fun _ s => proj s = step t x)) ->
  forall t, ensures (fun s => proj s = t) (for_each l body)
                    (fun _ s => proj s = foldl step t l).
Proof.
  intros H. induction l as [|x l IH]; intros t.
  - now apply ensures_ret.
  - cbn [for_each foldl]. apply (ensures_bind _ (fun _ s => proj s = step t x)).
    + apply H.
    + intros _. apply IH.
Qed.

(** ** The tables of policies *)

(** One turn of the loop of [process_policies] that returns has written
    the entry of the policy and its name, and nothing else into the two
    tables. *)
Lemma process_policy_entry support p G X N :
  ensures (fun r => (aggregated_alerts_by r, policies r, policies_by_name r) = (G, X, N))
          (process_policy support p)
          (fun _ r => (aggregated_alerts_by r, policies r, policies_by_name r)
                      = (G, <[policyId p := entry_of support G p]> X,
                         <[name p := policyId p]> N)).
Proof.
  set (pr := fun r => (aggregated_alerts_by r, policies r, policies_by_name r)).
  unfold process_policy.
  apply (ensures_bind _ (fun _ r => pr r = (G, X, <[name p := policyId p]> N))).
  { apply ensures_modify. intros r [= <- <- <-]. reflexivity. }
  intros _.
  apply (ensures_bind _ (fun count r => pr r = (G, X, <[name p := policyId p]> N) /\
                                        count = alert_count_of support G p)).
  { intros r r' count [= HG HX HN] E. unfold policy_alert_count in E.
    destruct support.
    - unfold bind, read_aggregated_alerts_by in E.
      destruct (aggregated_alerts_by r) as [a|] eqn:Ea; [|discriminate].
      injection E as <- <-. subst G. split; [|reflexivity].
      unfold pr. now rewrite Ea, HX, HN.
    - injection E as <- <-. split; [|reflexivity]. unfold pr. now rewrite HG, HX, HN. }
  intros count.
  set (X1 := fun standards => <[policyId p := policy_info p count standards]> X).
  apply (ensures_bind _ (fun _ r => pr r = (G, X1 [], <[name p := policyId p]> N) /\
                                    count = alert_count_of support G p)).
  { apply ensures_modify. intros r [[= <- <- <-] Hc]. split; [reflexivity|exact Hc]. }
  intros _.
  assert (Hadd : forall k, ensures
            (fun r => pr r = (G, X1 [], <[name p := policyId p]> N) /\
                      count = alert_count_of support G p)
            (add_alert_counts_from_policies k count)
            (fun _ r => pr r = (G, X1 [], <[name p := policyId p]> N) /\
                        count = alert_count_of support G p)).
  { intros k r r' a [Hpr Hc] E. split; [|exact Hc].
    refine (ensures_of_frame pr _ _ _ r r' a Hpr E).
    unfold add_alert_counts_from_policies. frame_auto. }
  assert (Hret : ensures
            (fun r => pr r = (G, X1 [], <[name p := policyId p]> N) /\
                      count = alert_count_of support G p)
            (ret tt)
            (fun _ r => pr r = (G, X1 [], <[name p := policyId p]> N) /\
                        count = alert_count_of support G p))
    by now apply ensures_ret.
  do 3 (apply (ensures_bind _ (fun _ r => pr r = (G, X1 [], <[name p := policyId p]> N) /\
                                        count = alert_count_of support G p));
        [apply Hadd | intros _]).
  do 3 (apply (ensures_bind _ (fun _ r => pr r = (G, X1 [], <[name p := policyId p]> N) /\
                                        count = alert_count_of support G p));
        [match goal with |- ensures _ (if ?b then _ else _) _ => destruct b end;
         first [apply Hadd | apply Hret] | intros _]).
  unfold entry_of, standards_of.
  destruct (complianceMetadata p) as [names|].
  - apply (ensures_bind _ (fun _ r => pr r = (G, X1 (sorted_set names),
                                              <[name p := policyId p]> N) /\
                                      count = alert_count_of support G p)).
    + apply ensures_modify. intros r [[= <- HX <-] Hc]. split; [|exact Hc].
      unfold pr. cbn. rewrite HX. unfold X1. now rewrite insert_insert_eq.
    + intros _ r r' a [Hpr Hc] E. subst count.
      refine (ensures_of_frame pr _ _ _ r r' a Hpr E).
      unfold attribute_standard_from_policy. frame_auto.
  - apply ensures_ret. intros r [Hpr ->]. exact Hpr.
Qed.

Lemma last_with_snoc {A} (key : A -> string) k (l : list A) x :
  last_with key k (l ++ [x])
  = if String.eqb (key x) k then Some x else last_with key k l.
Proof. unfold last_with. now rewrite rev_app_distr. Qed.

(** A table filled by assignments in a loop holds, for each key, the value
    of the last element with that key. *)
Lemma foldl_insert_lookup {A V} (key : A -> string) (val : A -> V) (l : list A) :
  forall (t : gmap string V) k,
    foldl (fun t x => <[key x := val x]> t) t l !! k
    = match last_with key k l with
      | Some x => Some (val x)
      | None => t !! k
      end.
Proof.
  induction l as [|x l IH] using rev_ind; intros t k.
  - reflexivity.
  - rewrite foldl_app, last_with_snoc. cbn [foldl].
    destruct (String.eqb (key x) k) eqn:E.
    + apply String.eqb_eq in E. subst k. apply lookup_insert_eq.
    + apply String.eqb_neq in E. rewrite lookup_insert_ne by exact E. apply IH.
Qed.

Lemma last_with_Some {A} (key : A -> string) k (l : list A) x :
  last_with key k l = Some x -> x ∈ l /\ key x = k.
Proof.
  unfold last_with. intros H. apply find_some in H as [Hin E].
  apply String.eqb_eq in E. split; [|exact E].
  apply list_elem_of_In. now apply in_rev.
Qed.

Lemma last_with_None {A} (key : A -> string) k (l : list A) :
  last_with key k l = None <-> k ∉ map key l.
Proof.
  unfold last_with. split.
  - intros H Hin. apply list_elem_of_In, in_map_iff in Hin as (x & <- & Hx).
    apply in_rev in Hx. pose proof (find_none _ _ H x Hx) as E. cbn in E.
    rewrite String.eqb_refl in E. discriminate E.
  - intros H. destruct (List.find _ _) as [x|] eqn:E; [|reflexivity].
    apply find_some in E as [Hin E]. apply String.eqb_eq in E. exfalso. apply H.
    apply list_elem_of_In, in_map_iff. exists x. split; [exact E|]. now apply in_rev.
Qed.

(** [process_policies] that returns has written, in the order of the
    file, the entry and the name of every policy. *)
Lemma process_policies_tables support ps : forall G X N,
  ensures (fun r => (aggregated_alerts_by r, policies r, policies_by_name r) = (G, X, N))
          (process_policies support ps)
          (fun _ r => (aggregated_alerts_by r, policies r, policies_by_name r)
                      = (G,
                         foldl (fun t p => <[policyId p := entry_of support G p]> t) X ps,
                         foldl (fun t p => <[name p := policyId p]> t) N ps)).
Proof.
  unfold process_policies. induction ps as [|p ps IH]; intros G X N.
  - now apply ensures_ret.
  - cbn [for_each foldl]. eapply ensures_bind; [apply process_policy_entry|].
    intros ?. apply IH.
Qed.

Lemma standards_of_spec p :
  increasing (standards_of p) /\
  forall std, std ∈ standards_of p <-> declares p std = true.
Proof.
  unfold standards_of, declares. destruct (complianceMetadata p) as [names|].
  - destruct (sorted_set_spec names) as (Hel & Hinc & _). split; [exact Hinc|].
    intros std. rewrite Hel. symmetry. apply bool_decide_eq_true.
  - split; [constructor|]. intros std. rewrite elem_of_nil. split; [tauto|discriminate].
Qed.

(** X1. When [process_policies] returns, either API, [RESULTS['policies']]
    holds under each policy identifier of the file the entry of the last
    policy with that identifier (its name, flags, severity and type, the UPI
    or CUSTOM, the open-alert count of lines 589-595), and keeps the entries
    of other identifiers; [RESULTS['policies_by_name']] maps each name to
    the identifier of the last policy of that name.  The standards stored
    in an entry are in increasing order, without duplicates, and are the
    standard names the policy declares. *)
Theorem policies_table_holds_last_of_each :
  forall support ps r r',
    process_policies support ps r = (r', Return tt) ->
    (forall this_policy_id,
        policies r' !! this_policy_id
        = match last_with policyId this_policy_id ps with
          | Some p => Some (entry_of support (aggregated_alerts_by r) p)
          | None => policies r !! this_policy_id
          end) /\
    (forall policy_name,
        policies_by_name r' !! policy_name
        = match last_with name policy_name ps with
          | Some p => Some (policyId p)
          | None => policies_by_name r !! policy_name
          end) /\
    (forall p,
        let info := entry_of support (aggregated_alerts_by r) p in
        increasing (complianceStandards info) /\
        forall std, std ∈ complianceStandards info <-> declares p std = true).
Proof.
  intros support ps r r' E.
  pose proof (process_policies_tables support ps _ _ _ r r' tt eq_refl E) as [= _ HX HN].
  split; [|split].
  - intros id. rewrite HX. apply foldl_insert_lookup.
  - intros nm. rewrite HN. apply (foldl_insert_lookup name policyId).
  - intros p. apply standards_of_spec.
Qed.

Lemma policies_table_holds_last_of_each_witness :
  policies (fst (process_policies false [sample_policy_high; sample_policy_medium]
                                  (fst (init_policy_tables empty_results))))
    !! "policy-1"
  = Some (mkPolicyInfo "S3 bucket is public" true "high" "config" true false true
                       "PC-AWS-S3-1" 5 ["CIS"; "PCI"]).
Proof.
  destruct (policies_table_holds_last_of_each false
              [sample_policy_high; sample_policy_medium]
              (fst (init_policy_tables empty_results))
              (fst (process_policies false [sample_policy_high; sample_policy_medium]
                                     (fst (init_policy_tables empty_results)))))
    as (H & _ & _).
  - vm_compute. reflexivity.
  - rewrite H. reflexivity.
Defined.

(** ** What the policy pass keeps *)

Lemma preserves_seeded_frame {A} (m : M Results A) :
  frame alert_counts_from_policies m -> preserves policy_buckets_seeded m.
Proof.
  intros H.
  apply (preserves_of_frame alert_counts_from_policies
           (fun d => forall k, is_Some (alert_counts_from_policies_seed !! k) ->
                               is_Some (d !! k)) m H).
Qed.

Lemma add_keeps_seeded k n :
  preserves policy_buckets_seeded (add_alert_counts_from_policies k n).
Proof.
  intros r H. unfold add_alert_counts_from_policies, update.
  destruct (iadd k n _) as [d|e] eqn:E; simpl; [|exact H].
  apply iadd_Return in E as (v & _ & ->). now apply seeded_insert.
Qed.

Lemma iadd2_keeps_complete std sev n X X' :
  iadd2 std sev n X = Return X' -> rows_complete X -> rows_complete X'.
Proof.
  unfold iadd2. destruct (X !! std) as [row|] eqn:Hrow; [|discriminate].
  destruct (iadd sev n row) as [row'|] eqn:E; [|discriminate].
  intros [= <-] HX std' row'' Hl s Hs.
  apply iadd_Return in E as (v & Hv & ->).
  destruct (decide (std' = std)) as [->|Hne].
  - rewrite lookup_insert_eq in Hl. injection Hl as <-.
    destruct (decide (s = sev)) as [->|Hs'].
    + rewrite lookup_insert_eq. eauto.
    + rewrite lookup_insert_ne by congruence. exact (HX std row Hrow s Hs).
  - rewrite lookup_insert_ne in Hl by congruence. exact (HX std' row'' Hl s Hs).
Qed.

Lemma preserves_complete_frame {A} (m : M Results A) :
  frame compliance_standards_counts_from_policies m ->
  preserves (fun r => rows_complete (compliance_standards_counts_from_policies r)) m.
Proof. apply (preserves_of_frame compliance_standards_counts_from_policies rows_complete). Qed.

Lemma attribute_keeps_complete sev n std :
  preserves (fun r => rows_complete (compliance_standards_counts_from_policies r))
            (attribute_standard_from_policy sev n std).
Proof.
  unfold attribute_standard_from_policy. apply preserves_bind.
  - intros r H. simpl. now apply rows_complete_setdefault.
  - intros _ r H. unfold update.
    destruct (iadd2 std sev n _) as [X'|] eqn:E; simpl; [|exact H].
    exact (iadd2_keeps_complete _ _ _ _ _ E H).
Qed.

(** The seeds of [alert_counts_from_policies] stay and every row of the
    rollup keeps its three severities through one policy, however its turn
    ends. *)
Lemma process_policy_keeps_seeded support p :
  preserves policy_buckets_seeded (process_policy support p).
Proof.
  unfold process_policy, policy_alert_count.
  repeat first
    [ apply add_keeps_seeded
    | apply preserves_ret
    | apply preserves_seeded_frame;
      solve [unfold attribute_standard_from_policy; frame_auto]
    | apply preserves_bind; [ | intros ? ]
    | match goal with
      | |- preserves _ (if ?b then _ else _) => destruct b
      | |- preserves _ (match ?x with _ => _ end) => destruct x
      end ].
Qed.

Lemma process_policy_keeps_complete support p :
  preserves (fun r => rows_complete (compliance_standards_counts_from_policies r))
            (process_policy support p).
Proof.
  unfold process_policy, policy_alert_count.
  repeat first
    [ apply attribute_keeps_complete
    | apply preserves_ret
    | apply preserves_complete_frame;
      solve [unfold add_alert_counts_from_policies; frame_auto]
    | apply preserves_bind; [ | intros ? ]
    | apply preserves_for_each; intros ? ?
    | match goal with
      | |- preserves _ (if ?b then _ else _) => destruct b
      | |- preserves _ (match ?x with _ => _ end) => destruct x
      end ].
Qed.

Lemma names_resolve_insert p (info : PolicyInfo) (N : gmap string string)
    (X : gmap string PolicyInfo) :
  (forall nm id, N !! nm = Some id -> is_Some (X !! id)) ->
  forall nm id, <[name p := policyId p]> N !! nm = Some id ->
                is_Some (<[policyId p := info]> X !! id).
Proof.
  intros H nm id Hl. destruct (decide (id = policyId p)) as [->|Hne].
  - rewrite lookup_insert_eq. eauto.
  - rewrite lookup_insert_ne by congruence.
    destruct (decide (nm = name p)) as [->|Hn].
    + rewrite lookup_insert_eq in Hl. congruence.
    + rewrite lookup_insert_ne in Hl by congruence. eauto.
Qed.

Lemma process_policy_names_resolve support p :
  ensures names_resolve (process_policy support p) (fun _ => names_resolve).
Proof.
  intros r r' a H E.
  pose proof (process_policy_entry support p _ _ _ r r' a eq_refl E) as [= _ HX HN].
  unfold names_resolve. rewrite HX, HN. now apply names_resolve_insert.
Qed.

(** The state in which the sheets of open alerts can be built. *)
Lemma process_policies_open_sheets_ready support ps :
  ensures (fun r => policy_buckets_seeded r /\
                    rows_complete (compliance_standards_counts_from_policies r) /\
                    names_resolve r)
          (process_policies support ps)
          (fun _ r => policy_buckets_seeded r /\
                      rows_complete (compliance_standards_counts_from_policies r) /\
                      names_resolve r).
Proof.
  apply ensures_for_each. intros p _.
  apply ensures_and; [|apply ensures_and].
  - apply ensures_of_preserves, process_policy_keeps_seeded.
  - apply (ensures_of_preserves
             (fun r => rows_complete (compliance_standards_counts_from_policies r))),
      process_policy_keeps_complete.
  - apply process_policy_names_resolve.
Qed.

(** ** Sorted keys and the rows of a loop *)

Lemma compare_irrefl x : String.compare x x <> Lt.
Proof.
  pose proof (proj2 (String_as_OT.cmp_eq x x) eq_refl) as E.
  unfold String_as_OT.cmp in E. congruence.
Qed.

(** Two increasing lists with the same elements are the same list. *)
Lemma increasing_ext l1 : forall l2,
  increasing l1 -> increasing l2 -> (forall x, x ∈ l1 <-> x ∈ l2) -> l1 = l2.
Proof.
  induction l1 as [|a l1 IH]; intros [|b l2] H1 H2 Hel.
  - reflexivity.
  - exfalso. apply (not_elem_of_nil b), Hel. left.
  - exfalso. apply (not_elem_of_nil a), Hel. left.
  - apply StronglySorted_inv in H1 as [H1 Ha], H2 as [H2 Hb].
    rewrite List.Forall_forall in Ha, Hb.
    assert (a = b) as <-.
    { pose proof (proj1 (Hel a) ltac:(left)) as Hab.
      pose proof (proj2 (Hel b) ltac:(left)) as Hba.
      apply elem_of_cons in Hab as [Hab|Hab]; [exact Hab|].
      apply elem_of_cons in Hba as [Hba|Hba]; [now symmetry|].
      apply list_elem_of_In in Hab, Hba.
      exfalso. apply (compare_irrefl a).
      exact (compare_lt_trans _ _ _ (Ha _ Hba) (Hb _ Hab)). }
    f_equal. apply IH; [exact H1 | exact H2 |].
    intros x. split; intros Hx.
    + pose proof (proj1 (Hel x) ltac:(now right)) as Hx'.
      apply elem_of_cons in Hx' as [->|Hx']; [|exact Hx'].
      exfalso. apply (compare_irrefl a), Ha. now apply list_elem_of_In.
    + pose proof (proj2 (Hel x) ltac:(now right)) as Hx'.
      apply elem_of_cons in Hx' as [->|Hx']; [|exact Hx'].
      exfalso. apply (compare_irrefl a), Hb. now apply list_elem_of_In.
Qed.

Lemma sorted_keys_spec {V} (d : gmap string V) :
  increasing (sorted_keys d) /\ forall k, k ∈ sorted_keys d <-> is_Some (d !! k).
Proof.
  unfold sorted_keys.
  destruct (sorted_set_spec (map fst (map_to_list d))) as (Hel & Hinc & _).
  split; [exact Hinc|]. intros k. rewrite Hel, list_elem_of_In, in_map_iff. split.
  - intros ([k' v] & <- & Hin). apply list_elem_of_In, elem_of_map_to_list in Hin.
    cbn. eauto.
  - intros [v Hv]. exists (k, v). split; [reflexivity|].
    now apply list_elem_of_In, elem_of_map_to_list.
Qed.

(** The keys of a table filled by assignments, in increasing order. *)
Lemma sorted_keys_foldl_insert {A V} (key : A -> string) (val : A -> V) (l : list A) :
  sorted_keys (foldl (fun t x => <[key x := val x]> t) (∅ : gmap string V) l)
  = sorted_set (map key l).
Proof.
  destruct (sorted_keys_spec (foldl (fun t x => <[key x := val x]> t)
                                    (∅ : gmap string V) l)) as [Hinc Hel].
  destruct (sorted_set_spec (map key l)) as (Hel' & Hinc' & _).
  apply increasing_ext; [exact Hinc | exact Hinc' |].
  intros k. rewrite Hel, Hel', foldl_insert_lookup.
  destruct (last_with key k l) as [x|] eqn:E.
  - apply last_with_Some in E as [Hx <-]. split; [intros _|eauto].
    apply list_elem_of_In, in_map, list_elem_of_In, Hx.
  - rewrite lookup_empty. apply last_with_None in E. split; [intros [? [=]]|tauto].
Qed.

(** A loop that appends one row per element. *)
Lemma for_each_append {A} (l : list A) (body : A -> M (list (list Cell)) unit)
    (P : A -> list Cell -> Prop) :
  (forall x, x ∈ l ->
             forall rows, exists row, body x rows = ((rows ++ [row])%list, Return tt) /\
                                      P x row) ->
  forall rows, exists new,
      for_each l body rows = ((rows ++ new)%list, Return tt) /\ Forall2 P l new.
Proof.
  induction l as [|x l IH]; intros H rows.
  - exists []. rewrite app_nil_r. split; [reflexivity|constructor].
  - destruct (H x ltac:(left) rows) as (row & E & HP).
    destruct (IH (fun y Hy => H y ltac:(now right)) (rows ++ [row])%list)
      as (new & E' & HF).
    exists (row :: new). split; [|now constructor].
    cbn [for_each]. rewrite (bind_return _ _ _ _ _ E), E'.
    now rewrite <- app_assoc.
Qed.

(** ** The sheets of open alerts *)

Lemma standard_rows_returns rollup :
  rows_complete rollup ->
  exists rows,
    standard_rows rollup [] = (standard_sheet_header :: rows, Return tt) /\
    Forall2 (is_standard_row rollup) (sorted_keys rollup) rows.
Proof.
  intros Hc. unfold standard_rows, append_row. rewrite bind_modify.
  destruct (for_each_append (sorted_keys rollup)
              (fun compliance_standard_name =>
                 row <- lift (standard_row rollup compliance_standard_name) ;;
                 modify (fun rows => (rows ++ [row])%list))
              (is_standard_row rollup)) with (rows := [standard_sheet_header])
    as (new & E & HF).
  - intros std Hstd rows. apply (proj2 (sorted_keys_spec rollup)) in Hstd as [counts Hl].
    assert (forall s, s ∈ severities -> is_Some (counts !! s)) as Hs
        by exact (Hc std counts Hl).
    destruct (Hs "high") as [h Hh];
      [unfold severities; rewrite !elem_of_cons; tauto|].
    destruct (Hs "medium") as [m Hm];
      [unfold severities; rewrite !elem_of_cons; tauto|].
    destruct (Hs "low") as [l Hlow];
      [unfold severities; rewrite !elem_of_cons; tauto|].
    exists [CStr std; CInt h; CInt m; CInt l]. split.
    + unfold bind, lift, standard_row, getitem. now rewrite Hl, Hh, Hm, Hlow.
    + now exists counts, h, m, l.
  - exists new. split; [exact E | exact HF].
Qed.

Lemma open_alerts_by_policy_rows_returns RESULTS :
  names_resolve RESULTS ->
  exists rows,
    open_alerts_by_policy_rows RESULTS [] = (policy_sheet_header :: rows, Return tt) /\
    Forall2 (is_policy_row RESULTS) (sorted_keys (policies_by_name RESULTS)) rows.
Proof.
  intros Hr. unfold open_alerts_by_policy_rows, append_row. rewrite bind_modify.
  destruct (for_each_append (sorted_keys (policies_by_name RESULTS))
              (fun policy_name =>
                 this_policy_id <- lift (getitem (policies_by_name RESULTS) policy_name) ;;
                 info <- lift (getitem (policies RESULTS) this_policy_id) ;;
                 modify (fun rows =>
                           (rows ++ [policy_row policy_name info (alertCount info)])%list))
              (is_policy_row RESULTS)) with (rows := [policy_sheet_header])
    as (new & E & HF).
  - intros nm Hnm rows.
    apply (proj2 (sorted_keys_spec (policies_by_name RESULTS))) in Hnm as [id Hid].
    destruct (Hr nm id Hid) as [info Hinfo].
    exists (policy_row nm info (alertCount info)). split.
    + unfold bind, lift, getitem. now rewrite Hid, Hinfo.
    + now exists id, info.
  - exists new. split; [exact E | exact HF].
Qed.

(** ** What a run of [process_collected_data] that returns leaves *)

Lemma process_summary_returns support DATA r r' :
  process_summary support DATA r = (r', Return tt) ->
  exists s,
    r' = put_summary s r /\
    s !! "asset_count" = Some (ASSETS DATA) /\
    is_Some (s !! "count_of_compliance_standards_with_alerts_from_policies") /\
    is_Some (s !! "count_of_policies_with_alerts_from_policies") /\
    (support = false -> s = summary_of_full_api DATA r).
Proof.
  destruct support; intros E.
  - cbv [process_summary bind set_summary modify get_state read_aggregated_alerts_by
         lift] in E. cbn [aggregated_alerts_by put_summary] in E.
    destruct (aggregated_alerts_by r) as [agg|]; [|discriminate].
    destruct (getitem (by_status agg) "open") as [n|]; [|discriminate].
    injection E as <-. eexists. split; [reflexivity|]. cbn [summary put_summary].
    split; [|split; [|split]]; [| | |discriminate]; lookup_lit; eauto.
  - injection E as <-. exists (summary_of_full_api DATA r).
    split; [reflexivity|]. unfold summary_of_full_api.
    split; [|split; [|split]]; [| | |reflexivity]; lookup_lit; eauto.
Qed.

Lemma process_alerts_full_returns alerts r r' :
  process_alerts false alerts r = (r', Return tt) -> alerts = AlertsList [] /\ r' = r.
Proof.
  unfold process_alerts, process_alerts_with. destruct alerts as [[|a l]|]; cbn.
  - intros [= <-]. now split.
  - destruct (process_alert_raises a r) as [e He].
    unfold bind. destruct (process_alert module_policies a r) as [r1 [[]|e1]];
      [discriminate He | discriminate].
  - discriminate.
Qed.

Lemma frame_process_alerts_policy_side binding support alerts :
  frame policy_side (process_alerts_with binding support alerts).
Proof.
  unfold process_alerts_with, process_alerts_support, process_alert, alert_level_counts,
    policy_deleted_branch, policy_level_counts, policy_disabled_branch,
    attribute_standard_from_alert, add_alert_totals_by_alert, add_policy_totals_by_alert,
    copy_to_policy_totals, copy_to_alert_totals.
  frame_auto.
Qed.

Lemma frame_process_policies_alert_side support ps :
  frame alert_side (process_policies support ps).
Proof.
  unfold process_policies, process_policy, policy_alert_count,
    attribute_standard_from_policy, add_alert_counts_from_policies.
  frame_auto.
Qed.

Lemma open_sheets_ready_policy_side r r' :
  policy_side r' = policy_side r -> open_sheets_ready r -> open_sheets_ready r'.
Proof.
  unfold policy_side, open_sheets_ready, policy_buckets_seeded, names_resolve.
  intros [= _ HN HX HC HA]. now rewrite HN, HX, HC, HA.
Qed.

Lemma init_policy_tables_open_sheets_ready r :
  open_sheets_ready (fst (init_policy_tables r)).
Proof.
  destruct (init_policy_tables_ready r) as (Hs & Hc & _).
  split; [exact Hs|]. split; [exact Hc|].
  intros nm id H. cbn in H. now rewrite lookup_empty in H.
Qed.

(** The steps of [process_collected_data] that returned, with the state
    [process_policies] left and the state [process_alerts] left. *)
Lemma process_collected_data_steps binding support DATA r0 R :
  process_collected_data_with binding support DATA r0 = (R, Return tt) ->
  exists r1 r3 r5,
    process_policies support (POLICIES DATA) (fst (init_policy_tables r1)) = (r3, Return tt) /\
    process_alerts_with binding support (ALERTS DATA) (fst (init_alert_tables r3))
    = (r5, Return tt) /\
    process_summary support DATA (put_summary ∅ r5) = (R, Return tt) /\
    (if support then
       exists agg, process_aggregated_alerts (ALERTS DATA) = Return agg /\
                   r1 = put_aggregated_alerts_by (Some agg) r0
     else r1 = r0).
Proof.
  unfold process_collected_data_with. intros E.
  apply bind_Return_inv in E as ([] & r1 & E1 & E).
  rewrite (bind_return _ _ _ _ _ (init_policy_tables_returns r1)) in E.
  apply bind_Return_inv in E as ([] & r3 & E3 & E).
  change (init_alert_tables ;; ?k) with (bind init_alert_tables (fun _ => k)) in E.
  assert (init_alert_tables r3 = (fst (init_alert_tables r3), Return tt)) as E4
      by reflexivity.
  rewrite (bind_return _ _ _ _ _ E4) in E.
  apply bind_Return_inv in E as ([] & r5 & E5 & E).
  rewrite bind_modify in E.
  exists r1, r3, r5. split; [exact E3|]. split; [exact E5|]. split; [exact E|].
  destruct support.
  - unfold bind, lift in E1.
    destruct (process_aggregated_alerts (ALERTS DATA)) as [agg|]; [|discriminate].
    injection E1 as <-. now exists agg.
  - now injection E1 as <-.
Qed.

Lemma processed_open_sheets_ready binding support DATA r0 R :
  process_collected_data_with binding support DATA r0 = (R, Return tt) ->
  open_sheets_ready R /\
  summary R !! "asset_count" = Some (ASSETS DATA) /\
  is_Some (summary R !! "count_of_compliance_standards_with_alerts_from_policies") /\
  is_Some (summary R !! "count_of_policies_with_alerts_from_policies").
Proof.
  intros E. apply process_collected_data_steps in E as (r1 & r3 & r5 & E3 & E5 & E7 & _).
  apply process_summary_returns in E7 as (s & -> & H1 & H2 & H3 & _).
  split; [|now split].
  apply (open_sheets_ready_policy_side (fst (init_alert_tables r3))).
  - pose proof (frame_process_alerts_policy_side binding support (ALERTS DATA)
                  (fst (init_alert_tables r3))) as Hf.
    rewrite E5 in Hf. exact Hf.
  - apply (open_sheets_ready_policy_side r3); [reflexivity|].
    exact (process_policies_open_sheets_ready support (POLICIES DATA) _ r3 tt
             (init_policy_tables_open_sheets_ready r1) E3).
Qed.

(** With the full API a run that returns had no alert to process and left
    the tables of the alert pass as they were created. *)
Lemma processed_full_api DATA R :
  process_collected_data false DATA empty_results = (R, Return tt) ->
  ALERTS DATA = AlertsList [] /\
  alert_side R
  = (∅, policy_counts_from_alerts_seed, ∅, alert_totals_by_alert_seed, ∅, None) /\
  exists r5, alert_side r5 = alert_side R /\ policy_side r5 = policy_side R /\
             summary R = summary_of_full_api DATA (put_summary ∅ r5).
Proof.
  intros E. apply process_collected_data_steps in E as (r1 & r3 & r5 & E3 & E5 & E7 & ->).
  apply process_alerts_full_returns in E5 as [HA ->].
  apply process_summary_returns in E7 as (s & -> & _ & _ & _ & Hs).
  split; [exact HA|]. split.
  - pose proof (frame_process_policies_alert_side false (POLICIES DATA)
                  (fst (init_policy_tables empty_results))) as Hf.
    rewrite E3 in Hf. unfold alert_side in *. cbn in Hf |- *.
    now injection Hf as _ _ _ _ _ ->.
  - eexists. split; [|split]; [| |exact (Hs eq_refl)]; reflexivity.
Qed.

(** ** The report *)

Lemma write_rows_of_returns name loop rows wb :
  loop [] = (rows, Return tt) ->
  write_rows_of name loop wb
  = (mkWorkbook (sheets wb ++ [(name, rows)])%list (saved wb), Return tt).
Proof. intros E. unfold write_rows_of. now rewrite E. Qed.

Lemma write_rows_of_raises name loop rows e wb :
  loop [] = (rows, Raise e) -> write_rows_of name loop wb = (wb, Raise e).
Proof. intros E. unfold write_rows_of. now rewrite E. Qed.

Lemma write_literal_returns name rows wb :
  write_literal name (Return rows) wb
  = (mkWorkbook (sheets wb ++ [(name, rows)])%list (saved wb), Return tt).
Proof. reflexivity. Qed.

Lemma utilization_rows_returns RESULTS DATA n :
  summary RESULTS !! "asset_count" = Some n ->
  exists rows, utilization_rows RESULTS DATA = Return rows /\ length rows = 31%nat.
Proof.
  intros H. unfold utilization_rows, getitem. rewrite H.
  eexists. split; reflexivity.
Qed.

Lemma labelled_rows_cons_value label table key v rest :
  table !! key = Some v ->
  labelled_rows (Some (label, table, key) :: rest)
  = match labelled_rows rest with
    | Return rows => Return ([CStr label; CInt v] :: rows)
    | Raise e => Raise e
    end.
Proof. intros H. cbn [labelled_rows]. unfold getitem. now rewrite H. Qed.

Lemma open_alerts_summary_rows_returns RESULTS :
  policy_buckets_seeded RESULTS ->
  is_Some (summary RESULTS !! "count_of_compliance_standards_with_alerts_from_policies") ->
  is_Some (summary RESULTS !! "count_of_policies_with_alerts_from_policies") ->
  exists rows, open_alerts_summary_rows RESULTS = Return rows /\ length rows = 21%nat.
Proof.
  intros Hseed [n1 H1] [n2 H2].
  assert (forall k, is_Some (alert_counts_from_policies_seed !! k) ->
                    exists v, alert_counts_from_policies RESULTS !! k = Some v) as Hk
      by (intros k Hs; exact (Hseed k Hs)).
  unfold open_alerts_summary_rows, open_alerts_summary_lines.
  rewrite (labelled_rows_cons_value _ _ _ _ _ H1).
  rewrite (labelled_rows_cons_value _ _ _ _ _ H2).
  cbn [labelled_rows]. unfold getitem.
  repeat match goal with
         | |- context [alert_counts_from_policies RESULTS !! ?k] =>
             let v := fresh "v" in
             let H := fresh "H" in
             destruct (Hk k) as [v H]; [vm_compute; eauto|]; rewrite H; clear H
         end.
  eexists. split; reflexivity.
Qed.

(** X2. Whenever [process_collected_data] has returned in support mode,
    the report is written to its end: the sheets 'Utilization', 'Open
    Alerts by Standard', 'Open Alerts by Policy' and 'Open Alerts Summary'
    are written in this order, no read of [RESULTS] raises, and the
    workbook is saved. *)
Theorem support_report_is_saved :
  forall DATA time_range_label RESULTS,
    process_collected_data true DATA empty_results = (RESULTS, Return tt) ->
    exists wb,
      report true time_range_label RESULTS DATA new_workbook = (wb, Return tt) /\
      saved wb = true /\
      sheet_names wb = ["Utilization"; "Open Alerts by Standard"; "Open Alerts by Policy";
                        "Open Alerts Summary"].
Proof.
  intros DATA label R E.
  apply processed_open_sheets_ready in E as ((Hseed & Hc & Hn) & Ha & Hs1 & Hs2).
  destruct (utilization_rows_returns R DATA _ Ha) as (rows1 & E1 & _).
  destruct (standard_rows_returns _ Hc) as (rows2 & E2 & _).
  destruct (open_alerts_by_policy_rows_returns R Hn) as (rows3 & E3 & _).
  destruct (open_alerts_summary_rows_returns R Hseed Hs1 Hs2) as (rows4 & E4 & _).
  unfold report. rewrite E1, E4.
  rewrite (bind_return _ _ _ _ _ (write_literal_returns _ _ _)).
  rewrite (bind_return _ _ _ _ _ (write_rows_of_returns _ _ _ _ E2)).
  rewrite bind_ret_l.
  rewrite (bind_return _ _ _ _ _ (write_rows_of_returns _ _ _ _ E3)).
  rewrite bind_ret_l.
  rewrite (bind_return _ _ _ _ _ (write_literal_returns _ _ _)).
  rewrite bind_ret_l.
  eexists. split; [reflexivity|]. split; reflexivity.
Qed.

Lemma support_report_is_saved_witness :
  exists wb,
    report true "Past 1 Week"
           (fst (process_collected_data true
                   (sample_data [sample_policy_high; sample_policy_medium]
                                (AlertsDict sample_aggregated))
                   empty_results))
           (sample_data [sample_policy_high; sample_policy_medium]
                        (AlertsDict sample_aggregated))
           new_workbook
    = (wb, Return tt) /\
    saved wb = true /\
    sheet_names wb = ["Utilization"; "Open Alerts by Standard"; "Open Alerts by Policy";
                      "Open Alerts Summary"].
Proof.
  apply support_report_is_saved. vm_compute. reflexivity.
Defined.

Lemma sorted_keys_empty {V} : sorted_keys (∅ : gmap string V) = [].
Proof. unfold sorted_keys. now rewrite map_to_list_empty. Qed.

(** X3. Whenever [process_collected_data] has returned with the full API,
    the report stops at the sheet 'Open Closed Alerts by Policy': line 831
    subscripts a seeded integer of [policy_counts_from_alerts], which
    raises TypeError.  The four sheets before it have been written and the
    workbook is not saved. *)
Theorem full_api_report_is_never_saved :
  forall DATA time_range_label RESULTS,
    process_collected_data false DATA empty_results = (RESULTS, Return tt) ->
    exists wb,
      report false time_range_label RESULTS DATA new_workbook
      = (wb, Raise (TypeError "'int' object is not subscriptable")) /\
      saved wb = false /\
      sheet_names wb = ["Utilization"; "Open Alerts by Standard";
                        "Open Closed Alerts by Standard"; "Open Alerts by Policy"].
Proof.
  intros DATA label R E.
  destruct (processed_full_api DATA R E) as (_ & Hside & _).
  apply processed_open_sheets_ready in E as ((Hseed & Hc & Hn) & Ha & Hs1 & Hs2).
  destruct (utilization_rows_returns R DATA _ Ha) as (rows1 & E1 & _).
  destruct (standard_rows_returns _ Hc) as (rows2 & E2 & _).
  destruct (open_alerts_by_policy_rows_returns R Hn) as (rows3 & E3 & _).
  injection Hside as Hcs Hpc _ _ _ _.
  assert (exists rows, open_closed_alerts_by_standard_rows label R [] = (rows, Return tt))
    as (rows5 & E5).
  { unfold open_closed_alerts_by_standard_rows, standard_rows.
    rewrite Hcs, sorted_keys_empty. eexists. reflexivity. }
  assert (exists rows, open_closed_alerts_by_policy_rows label R []
                       = (rows, Raise (TypeError "'int' object is not subscriptable")))
    as (rows6 & E6).
  { unfold open_closed_alerts_by_policy_rows. rewrite Hpc.
    assert (sorted_keys policy_counts_from_alerts_seed
            = ["anomaly"; "audit_event"; "config"; "custom"; "data"; "default"; "high";
               "iam"; "low"; "medium"; "network"]) as -> by (vm_compute; reflexivity).
    eexists. reflexivity. }
  unfold report. rewrite E1.
  rewrite (bind_return _ _ _ _ _ (write_literal_returns _ _ _)).
  rewrite (bind_return _ _ _ _ _ (write_rows_of_returns _ _ _ _ E2)).
  rewrite (bind_return _ _ _ _ _ (write_rows_of_returns _ _ _ _ E5)).
  rewrite (bind_return _ _ _ _ _ (write_rows_of_returns _ _ _ _ E3)).
  rewrite (bind_raise _ _ _ _ _ (write_rows_of_raises _ _ _ _ _ E6)).
  eexists. split; [reflexivity|]. split; reflexivity.
Qed.

Lemma full_api_report_is_never_saved_witness :
  exists wb,
    report false "Past 1 Week"
           (fst (process_collected_data false
                   (sample_data [sample_policy_high; sample_policy_medium] (AlertsList []))
                   empty_results))
           (sample_data [sample_policy_high; sample_policy_medium] (AlertsList []))
           new_workbook
    = (wb, Raise (TypeError "'int' object is not subscriptable")) /\
    saved wb = false /\
    sheet_names wb = ["Utilization"; "Open Alerts by Standard";
                      "Open Closed Alerts by Standard"; "Open Alerts by Policy"].
Proof.
  apply full_api_report_is_never_saved. vm_compute. reflexivity.
Defined.

(** ** Processing with the full API *)

(** X4. With the full API, [process_collected_data] returns only when the
    alerts file is the empty list: any alert ends the run with an exception
    (line 658 at the latest), as does an alerts file that holds a
    dictionary.  With an empty list and policies of documented severities
    and types it does return. *)
Theorem full_api_processing_returns_iff_no_alert :
  (forall DATA,
      snd (process_collected_data false DATA empty_results) = Return tt ->
      ALERTS DATA = AlertsList []) /\
  (forall DATA,
      Forall (fun p => severity p ∈ severities /\ policyType p ∈ policy_types)
             (POLICIES DATA) ->
      ALERTS DATA = AlertsList [] ->
      snd (process_collected_data false DATA empty_results) = Return tt).
Proof.
  split.
  - intros DATA H.
    destruct (process_collected_data false DATA empty_results) as [R res] eqn:E.
    cbn in H. subst res. exact (proj1 (processed_full_api DATA R E)).
  - intros DATA Hall HA.
    destruct (process_policies_rollup (POLICIES DATA) Hall 0 0 0 0 ∅ _
                (conj (init_policy_tables_ready empty_results) eq_refl))
      as ([] & r3 & E3 & _).
    unfold process_collected_data, process_collected_data_with.
    rewrite bind_ret_l.
    rewrite (bind_return _ _ _ _ _ (init_policy_tables_returns empty_results)).
    rewrite (bind_return _ _ _ _ _ E3), HA. reflexivity.
Qed.

Lemma full_api_processing_returns_iff_no_alert_witness :
  ALERTS (sample_data [sample_policy_high; sample_policy_medium] (AlertsList []))
  = AlertsList [] /\
  snd (process_collected_data false
         (sample_data [sample_policy_high; sample_policy_medium] (AlertsList []))
         empty_results) = Return tt.
Proof.
  assert (snd (process_collected_data false
                 (sample_data [sample_policy_high; sample_policy_medium] (AlertsList []))
                 empty_results) = Return tt) as H.
  { apply (proj2 full_api_processing_returns_iff_no_alert); [|reflexivity].
    repeat constructor; cbn; unfold severities, policy_types;
      rewrite ?elem_of_cons; tauto. }
  split; [|exact H].
  exact (proj1 full_api_processing_returns_iff_no_alert _ H).
Defined.

(** X5. The summary of a run of the full API that returned: the number of
    alerts and the number of standards with alerts are 0, and the number of
    policies with alerts is 11, the number of keys that lines 491-503 put
    in [policy_counts_from_alerts], although no alert was processed. *)
Theorem summary_of_full_api_run :
  forall DATA RESULTS,
    process_collected_data false DATA empty_results = (RESULTS, Return tt) ->
    summary RESULTS !! "asset_count" = Some (ASSETS DATA) /\
    summary RESULTS !! "alert_count" = Some 0 /\
    summary RESULTS !! "count_of_compliance_standards_with_alerts_from_alerts" = Some 0 /\
    summary RESULTS !! "count_of_policies_with_alerts_from_alerts" = Some 11 /\
    summary RESULTS !! "count_of_policies_with_alerts_from_policies"
    = Some (count_values (fun v => bool_decide (alertCount v <> 0)) (policies RESULTS)) /\
    summary RESULTS !! "count_of_compliance_standards_with_alerts_from_policies"
    = Some (count_values (fun v => bool_decide (v <> zero_row))
                         (compliance_standards_counts_from_policies RESULTS)).
Proof.
  intros DATA R E.
  destruct (processed_full_api DATA R E) as (HA & Hside & r5 & H5 & Hp & ->).
  rewrite Hside in H5. injection H5 as Hcs Hpc _ _ _ _.
  injection Hp as _ _ HX HC _.
  unfold summary_of_full_api. cbn [policy_counts_from_alerts put_summary
    compliance_standards_counts_from_alerts policies
    compliance_standards_counts_from_policies ALERTS summary].
  rewrite Hcs, Hpc, HX, HC, HA.
  split; [|split; [|split; [|split; [|split]]]]; lookup_lit; reflexivity.
Qed.

Lemma summary_of_full_api_run_witness :
  summary (fst (process_collected_data false
                  (sample_data [sample_policy_high; sample_policy_medium] (AlertsList []))
                  empty_results))
    !! "count_of_policies_with_alerts_from_alerts" = Some 11.
Proof.
  refine (proj1 (proj2 (proj2 (proj2
            (summary_of_full_api_run
               (sample_data [sample_policy_high; sample_policy_medium] (AlertsList []))
               _ _))))).
  vm_compute. reflexivity.
Defined.

(** ** The policy pass returns *)

Lemma policy_pass_ready_frame support (f : Results -> Results) :
  (forall r, aggregated_alerts_by (f r) = aggregated_alerts_by r) ->
  (forall r, alert_counts_from_policies (f r) = alert_counts_from_policies r) ->
  (forall r, compliance_standards_counts_from_policies (f r)
             = compliance_standards_counts_from_policies r) ->
  returns (policy_pass_ready support) (modify f) (fun _ => policy_pass_ready support).
Proof.
  intros Hg Ha Hc r (Hs & Hr & Hagg). exists tt, (f r). split; [reflexivity|].
  unfold policy_pass_ready, policy_buckets_seeded. now rewrite Hg, Ha, Hc.
Qed.

Lemma add_returns_ready support k n :
  is_Some (alert_counts_from_policies_seed !! k) ->
  returns (policy_pass_ready support) (add_alert_counts_from_policies k n)
          (fun _ => policy_pass_ready support).
Proof.
  intros Hk r (Hs & Hr & Hagg). destruct (Hs k Hk) as [v Hv].
  exists tt. eexists. split; [exact (add_alert_counts_returns _ _ _ _ Hv)|].
  split; [now apply seeded_insert|]. split; [exact Hr | exact Hagg].
Qed.

Lemma attribute_returns_ready support sev n std :
  sev ∈ severities ->
  returns (policy_pass_ready support) (attribute_standard_from_policy sev n std)
          (fun _ => policy_pass_ready support).
Proof.
  intros Hsev r (Hs & Hr & Hagg).
  destruct (iadd2_complete std sev n _ (rows_complete_setdefault std _ Hr)
              (setdefault_lookup _ _ _) Hsev) as (rollup' & E & Hr').
  exists tt. eexists. split.
  - unfold attribute_standard_from_policy, bind, modify, update.
    cbn [fst snd compliance_standards_counts_from_policies
         put_compliance_standards_counts_from_policies].
    rewrite E. reflexivity.
  - split; [exact Hs|]. split; [exact Hr' | exact Hagg].
Qed.

Lemma open_severity_seeded sev :
  sev ∈ severities -> is_Some (alert_counts_from_policies_seed !! ("open_" ++ sev)).
Proof. intros H. destruct (severity_cases sev H) as [ -> | [ -> | -> ] ]; now eexists. Qed.

(** A policy of documented severity and type is processed without an
    exception, with either API. *)
Lemma process_policy_returns support p :
  severity p ∈ severities -> policyType p ∈ policy_types ->
  returns (policy_pass_ready support) (process_policy support p)
          (fun _ => policy_pass_ready support).
Proof.
  intros Hsev Hty. destruct (policy_type_seeded _ Hty) as [_ Hty2].
  set (K := policy_pass_ready support).
  unfold process_policy.
  apply (returns_bind _ (fun _ => K));
    [apply policy_pass_ready_frame; reflexivity | intros _].
  apply (returns_bind _ (fun _ => K)).
  { intros r HK. unfold policy_alert_count. destruct support.
    - destruct HK as (Hs & Hr & Hagg). destruct (Hagg eq_refl) as [agg Ha].
      eexists. exists r. split; [|now split].
      unfold bind, read_aggregated_alerts_by. rewrite Ha. reflexivity.
    - eexists. exists r. split; [reflexivity | exact HK]. }
  intros count.
  apply (returns_bind _ (fun _ => K));
    [apply policy_pass_ready_frame; reflexivity | intros _].
  apply (returns_bind _ (fun _ => K)); [apply add_returns_ready; now eexists | intros _].
  apply (returns_bind _ (fun _ => K));
    [now apply add_returns_ready, open_severity_seeded | intros _].
  apply (returns_bind _ (fun _ => K)); [now apply add_returns_ready | intros _].
  apply (returns_bind _ (fun _ => K)).
  { destruct (remediable p); [|now apply returns_ret].
    apply add_returns_ready. now eexists. }
  intros _. apply (returns_bind _ (fun _ => K)).
  { destruct (bool_decide _); [|now apply returns_ret].
    apply add_returns_ready. now eexists. }
  intros _. apply (returns_bind _ (fun _ => K)).
  { destruct (systemDefault p); apply add_returns_ready; now eexists. }
  intros _. destruct (complianceMetadata p) as [names|].
  - apply (returns_bind _ (fun _ => K));
      [apply policy_pass_ready_frame; reflexivity | intros _].
    apply returns_for_each. intros std _. now apply attribute_returns_ready.
  - now apply returns_ret.
Qed.

Lemma process_policies_returns support ps :
  Forall (fun p => severity p ∈ severities /\ policyType p ∈ policy_types) ps ->
  returns (policy_pass_ready support) (process_policies support ps)
          (fun _ => policy_pass_ready support).
Proof.
  intros Hall. apply returns_for_each. intros p Hp.
  rewrite Forall_forall in Hall. destruct (Hall p Hp). now apply process_policy_returns.
Qed.

(** ** The buckets of origin and of type *)

Lemma count_of_insert k v (d : gmap string Z) k' :
  count_of (<[k := v]> d) k' = if String.eqb k k' then v else count_of d k'.
Proof.
  unfold count_of. destruct (String.eqb k k') eqn:E.
  - apply String.eqb_eq in E. subst k'. now rewrite lookup_insert_eq.
  - apply String.eqb_neq in E. now rewrite lookup_insert_ne.
Qed.

Lemma add_gaps k n r r' :
  add_alert_counts_from_policies k n r = (r', Return tt) ->
  origin_gap (alert_counts_from_policies r')
  = origin_gap (alert_counts_from_policies r) + origin_weight k * n /\
  type_gap (alert_counts_from_policies r')
  = type_gap (alert_counts_from_policies r) + type_weight k * n.
Proof.
  unfold add_alert_counts_from_policies, update.
  destruct (iadd k n _) as [d|] eqn:E; [|discriminate].
  intros [= <-]. apply iadd_Return in E as (v & Hv & ->).
  cbn [alert_counts_from_policies put_alert_counts_from_policies].
  assert (count_of (alert_counts_from_policies r) k = v) as Hc
      by (unfold count_of; now rewrite Hv).
  unfold origin_gap, type_gap, origin_weight, type_weight.
  rewrite !count_of_insert.
  split;
    repeat match goal with
           | |- context [String.eqb k ?s] => destruct (String.eqb k s) eqn:?
           end;
    repeat match goal with
           | H : String.eqb ?x _ = true |- _ =>
               first [ is_var x; apply String.eqb_eq in H; subst x
                     | vm_compute in H; discriminate H ]
           end;
    lia.
Qed.

Lemma type_weights ty :
  ty ∈ policy_types -> origin_weight ty = 0 /\ type_weight ty = -1.
Proof.
  unfold policy_types. rewrite !elem_of_cons, elem_of_nil.
  intros [->|[->|[->|[->|[->|[->|[]]]]]]]; split; reflexivity.
Qed.

(** One turn of the loop of [process_policies] that returns adds the count
    of the policy to [open], to one bucket of origin and to one bucket of
    type. *)
Ltac weights :=
  repeat match goal with
         | |- context [origin_weight ?k] =>
             let v := eval vm_compute in (origin_weight k) in
             change (origin_weight k) with v
         | |- context [type_weight ?k] =>
             let v := eval vm_compute in (type_weight k) in
             change (type_weight k) with v
         end.

Lemma process_policy_gaps support p a b :
  policyType p ∈ policy_types ->
  ensures (fun r => origin_gap (alert_counts_from_policies r) = a /\
                    type_gap (alert_counts_from_policies r) = b)
          (process_policy support p)
          (fun _ r => origin_gap (alert_counts_from_policies r) = a /\
                      type_gap (alert_counts_from_policies r) = b).
Proof.
  intros Hty r r' [] [Ha Hb] E. destruct (type_weights _ Hty) as [Hw1 Hw2].
  unfold process_policy in E. rewrite bind_modify in E.
  apply bind_Return_inv in E as (count & r1 & E1 & E).
  assert (alert_counts_from_policies r1 = alert_counts_from_policies r) as H1.
  { assert (frame alert_counts_from_policies (policy_alert_count support p)) as Hf
        by (unfold policy_alert_count; frame_auto).
    specialize (Hf (put_policies_by_name (<[name p := policyId p]> (policies_by_name r)) r)).
    rewrite E1 in Hf. exact Hf. }
  rewrite bind_modify in E.
  apply bind_Return_inv in E as ([] & r2 & E2 & E). apply add_gaps in E2 as [F2 G2].
  apply bind_Return_inv in E as ([] & r3 & E3 & E). apply add_gaps in E3 as [F3 G3].
  apply bind_Return_inv in E as ([] & r4 & E4 & E). apply add_gaps in E4 as [F4 G4].
  apply bind_Return_inv in E as ([] & r5 & E5 & E).
  assert (origin_gap (alert_counts_from_policies r5)
          = origin_gap (alert_counts_from_policies r4) /\
          type_gap (alert_counts_from_policies r5)
          = type_gap (alert_counts_from_policies r4)) as [F5 G5].
  { destruct (remediable p); [|now injection E5 as <-].
    apply add_gaps in E5 as [F5 G5]. rewrite F5, G5. weights. split; lia. }
  apply bind_Return_inv in E as ([] & r6 & E6 & E).
  assert (origin_gap (alert_counts_from_policies r6)
          = origin_gap (alert_counts_from_policies r5) /\
          type_gap (alert_counts_from_policies r6)
          = type_gap (alert_counts_from_policies r5)) as [F6 G6].
  { destruct (bool_decide _); [|now injection E6 as <-].
    apply add_gaps in E6 as [F6 G6]. rewrite F6, G6. weights. split; lia. }
  apply bind_Return_inv in E as ([] & r7 & E7 & E).
  assert (origin_gap (alert_counts_from_policies r7)
          = origin_gap (alert_counts_from_policies r6) - count /\
          type_gap (alert_counts_from_policies r7)
          = type_gap (alert_counts_from_policies r6)) as [F7 G7].
  { destruct (systemDefault p); apply add_gaps in E7 as [F7 G7]; rewrite F7, G7;
      weights; split; lia. }
  assert (alert_counts_from_policies r' = alert_counts_from_policies r7) as H8.
  { assert (frame alert_counts_from_policies
              (match complianceMetadata p with
               | Some names =>
                   modify (fun r =>
                             put_policies
                               (<[policyId p := policy_info p count (sorted_set names)]>
                                  (policies r)) r) ;;
                   for_each (sorted_set names)
                            (attribute_standard_from_policy (severity p) count)
               | None => ret tt
               end)) as Hf
        by (unfold attribute_standard_from_policy; frame_auto).
    specialize (Hf r7). rewrite E in Hf. exact Hf. }
  cbn [alert_counts_from_policies put_policies] in F2, G2.
  rewrite H1 in F2, G2.
  assert (origin_weight ("open_" ++ severity p) = 0) as Hs1 by reflexivity.
  assert (type_weight ("open_" ++ severity p) = 0) as Hs2 by reflexivity.
  assert (origin_weight "open" = 1) as Ho1 by reflexivity.
  assert (type_weight "open" = 1) as Ho2 by reflexivity.
  rewrite H8. split; lia.
Qed.

(** The policy pass keeps [open] equal to the buckets of origin together
    and to the buckets of type together, however it ends. *)
Lemma process_policies_balanced support ps r :
  Forall (fun p => severity p ∈ severities /\ policyType p ∈ policy_types) ps ->
  let d := alert_counts_from_policies
             (fst (process_policies support ps (fst (init_policy_tables r)))) in
  origin_gap d = 0 /\ type_gap d = 0.
Proof.
  intros Hall.
  set (J := fun r : Results =>
              policy_buckets_seeded r /\
              rows_complete (compliance_standards_counts_from_policies r) /\
              origin_gap (alert_counts_from_policies r) = 0 /\
              type_gap (alert_counts_from_policies r) = 0).
  assert (J (fst (process_policies support ps (fst (init_policy_tables r))))) as HJ.
  { apply (preserves_for_each J).
    - intros p Hp s (Hs & Hr & Ho & Ht).
      rewrite Forall_forall in Hall. destruct (Hall p Hp) as [Hsev Hty].
      destruct support; [destruct (aggregated_alerts_by s) as [agg|] eqn:Hagg|].
      + destruct (process_policy_returns true p Hsev Hty s) as ([] & s' & E & Hs' & Hr' & _).
        { split; [exact Hs|]. split; [exact Hr|]. intros _. rewrite Hagg. eauto. }
        rewrite E. cbn [fst].
        destruct (process_policy_gaps true p 0 0 Hty s s' tt (conj Ho Ht) E).
        split; [exact Hs'|]. split; [exact Hr'|]. now split.
      + unfold process_policy. rewrite bind_modify.
        unfold policy_alert_count, bind, read_aggregated_alerts_by.
        cbn [aggregated_alerts_by put_policies_by_name]. rewrite Hagg. cbn [fst].
        split; [exact Hs|]. split; [exact Hr|]. now split.
      + destruct (process_policy_returns false p Hsev Hty s) as ([] & s' & E & Hs' & Hr' & _).
        { split; [exact Hs|]. split; [exact Hr|]. discriminate. }
        rewrite E. cbn [fst].
        destruct (process_policy_gaps false p 0 0 Hty s s' tt (conj Ho Ht) E).
        split; [exact Hs'|]. split; [exact Hr'|]. now split.
    - destruct (init_policy_tables_ready r) as (Hs & Hr & _).
      split; [exact Hs|]. split; [exact Hr|]. split; reflexivity. }
  destruct HJ as (_ & _ & Ho & Ht). cbv zeta. now split.
Qed.

(** X6. After [process_policies] has run over policies of documented
    severities and types, with either API and however the run ends, the
    [open] bucket of [alert_counts_from_policies] is the sum of [custom]
    and [default], and it is the sum of the six buckets of policy types:
    every policy adds its count to [open], to one bucket of origin (line
    603) and to the bucket of its type (line 598). *)
Theorem open_is_sum_of_origins_and_of_types :
  forall support ps r,
    Forall (fun p => severity p ∈ severities /\ policyType p ∈ policy_types) ps ->
    let d := alert_counts_from_policies
               (fst ((init_policy_tables ;; process_policies support ps) r)) in
    count_of d "open" = count_of d "custom" + count_of d "default" /\
    count_of d "open"
    = count_of d "anomaly" + count_of d "audit_event" + count_of d "config"
      + count_of d "data" + count_of d "iam" + count_of d "network".
Proof.
  intros support ps r Hall.
  rewrite (bind_return _ _ _ _ _ (init_policy_tables_returns r)).
  destruct (process_policies_balanced support ps r Hall) as [Ho Ht].
  unfold origin_gap, type_gap in Ho, Ht. cbv zeta. split; lia.
Qed.

Lemma open_is_sum_of_origins_and_of_types_witness :
  let d := alert_counts_from_policies
             (fst ((init_policy_tables ;;
                    process_policies false [sample_policy_high; sample_policy_medium])
                     empty_results)) in
  count_of d "open" = count_of d "custom" + count_of d "default" /\
  count_of d "open"
  = count_of d "anomaly" + count_of d "audit_event" + count_of d "config"
    + count_of d "data" + count_of d "iam" + count_of d "network".
Proof.
  apply (open_is_sum_of_origins_and_of_types false).
  repeat constructor; cbn; unfold severities, policy_types; rewrite ?elem_of_cons; tauto.
Defined.

(** ** The rows of the sheets of open alerts *)

(** X7. The sheet 'Open Alerts by Standard' built from the tables that
    [process_policies] leaves for policies of the full API with documented
    severities and types: after its heading it has one row per compliance
    standard that some policy declares, in increasing order of name, and
    the three counts of a row add up to the open alerts of the policies
    that declare the standard, each policy counted once. *)
Theorem open_alerts_by_standard_sheet :
  forall ps r,
    Forall (fun p => severity p ∈ severities /\ policyType p ∈ policy_types) ps ->
    exists r' names rows,
      (init_policy_tables ;; process_policies false ps) r = (r', Return tt) /\
      open_alerts_by_standard_rows r' [] = (standard_sheet_header :: rows, Return tt) /\
      increasing names /\
      (forall std, std ∈ names <-> existsb (fun p => declares p std) ps = true) /\
      Forall2 (fun std row =>
                 exists h m l,
                   row = [CStr std; CInt h; CInt m; CInt l] /\
                   h + m + l = attributed_from_policies ps std)
              names rows.
Proof.
  intros ps r Hall.
  rewrite (bind_return _ _ _ _ _ (init_policy_tables_returns r)).
  assert (compliance_standards_counts_from_policies (fst (init_policy_tables r))
          = (∅ : gmap string (gmap string Z))) as Hinit by reflexivity.
  destruct (process_policies_rollup ps Hall 0 0 0 0 _ _
              (conj (init_policy_tables_ready r) Hinit)) as ([] & r' & E & Hrollup).
  assert (rows_complete ∅) as Hempty by (intros std row H; now rewrite lookup_empty in H).
  destruct (rollup_of_policies_spec ps Hall ∅ Hempty) as (Hdom & Htot).
  destruct (process_policies_open_sheets_ready false ps _ r' tt
              (init_policy_tables_open_sheets_ready r) E) as (_ & Hc & _).
  destruct (standard_rows_returns _ Hc) as (rows & Erows & HF).
  destruct (sorted_keys_spec (compliance_standards_counts_from_policies r'))
    as [Hinc Hel].
  exists r', (sorted_keys (compliance_standards_counts_from_policies r')), rows.
  split; [exact E|]. split; [exact Erows|]. split; [exact Hinc|]. split.
  - intros std. rewrite Hel, Hrollup, Hdom. split; [|now left].
    intros [H|[v H]]; [exact H|]. now rewrite lookup_empty in H.
  - eapply Forall2_impl; [exact HF|].
    intros std row (counts & h & m & l & Hl & Hh & Hm & Hlow & ->).
    exists h, m, l. split; [reflexivity|].
    specialize (Htot std). unfold total_of in Htot.
    rewrite Hrollup in Hl. rewrite Hl, lookup_empty in Htot.
    unfold row_total, count_of in Htot. rewrite Hh, Hm, Hlow in Htot. cbn in Htot. lia.
Qed.

Lemma open_alerts_by_standard_sheet_witness :
  exists r' names rows,
    (init_policy_tables ;; process_policies false [sample_policy_high; sample_policy_medium])
      empty_results = (r', Return tt) /\
    open_alerts_by_standard_rows r' [] = (standard_sheet_header :: rows, Return tt) /\
    increasing names /\
    (forall std, std ∈ names
                 <-> existsb (fun p => declares p std)
                             [sample_policy_high; sample_policy_medium] = true) /\
    Forall2 (fun std row =>
               exists h m l,
                 row = [CStr std; CInt h; CInt m; CInt l] /\
                 h + m + l = attributed_from_policies
                               [sample_policy_high; sample_policy_medium] std)
            names rows.
Proof.
  apply open_alerts_by_standard_sheet.
  repeat constructor; cbn; unfold severities, policy_types; rewrite ?elem_of_cons; tauto.
Defined.

(** The tables of policies when [process_collected_data] has returned. *)
Lemma processed_policy_tables binding support DATA r0 R :
  process_collected_data_with binding support DATA r0 = (R, Return tt) ->
  policies R
  = foldl (fun t p => <[policyId p := entry_of support (aggregated_alerts_by R) p]> t)
          ∅ (POLICIES DATA) /\
  policies_by_name R = foldl (fun t p => <[name p := policyId p]> t) ∅ (POLICIES DATA).
Proof.
  intros E. apply process_collected_data_steps in E as (r1 & r3 & r5 & E3 & E5 & E7 & _).
  apply process_summary_returns in E7 as (s & -> & _).
  pose proof (frame_process_alerts_policy_side binding support (ALERTS DATA)
                (fst (init_alert_tables r3))) as Hf.
  rewrite E5 in Hf. cbn [fst] in Hf.
  assert (policy_side r5 = policy_side r3) as [= HG HN HX _ _] by exact Hf.
  pose proof (process_policies_tables support (POLICIES DATA) _ _ _ _ r3 tt eq_refl E3)
    as [= HG3 HX3 HN3].
  cbn [policies policies_by_name aggregated_alerts_by put_summary].
  rewrite HX, HN, HG, HX3, HN3, HG3. split; reflexivity.
Qed.

(** X8. Whenever [process_collected_data] has returned, either API, the
    sheet 'Open Alerts by Policy' has after its heading one row per
    distinct policy name of the policies file, in increasing order of name.
    The row of a name shows the entry of [RESULTS['policies']] reached
    through the identifier of the last policy of that name, which is the
    entry of the last policy with that identifier, and the open-alert count
    of that entry. *)
Theorem open_alerts_by_policy_sheet :
  forall support DATA RESULTS,
    process_collected_data support DATA empty_results = (RESULTS, Return tt) ->
    exists rows,
      open_alerts_by_policy_rows RESULTS [] = (policy_sheet_header :: rows, Return tt) /\
      Forall2 (fun policy_name row =>
                 exists p q,
                   last_with name policy_name (POLICIES DATA) = Some p /\
                   last_with policyId (policyId p) (POLICIES DATA) = Some q /\
                   let info := entry_of support (aggregated_alerts_by RESULTS) q in
                   row = policy_row policy_name info (alertCount info))
              (sorted_set (map name (POLICIES DATA))) rows.
Proof.
  intros support DATA R E.
  destruct (processed_policy_tables _ _ _ _ _ E) as [HX HN].
  apply processed_open_sheets_ready in E as ((_ & _ & Hres) & _).
  destruct (open_alerts_by_policy_rows_returns R Hres) as (rows & Erows & HF).
  exists rows. split; [exact Erows|].
  rewrite HN, sorted_keys_foldl_insert in HF.
  eapply Forall2_impl; [exact HF|].
  intros nm row (id & info & Hid & Hinfo & ->).
  rewrite HN, (foldl_insert_lookup name policyId) in Hid.
  destruct (last_with name nm (POLICIES DATA)) as [p|] eqn:Ep;
    [|now rewrite lookup_empty in Hid].
  injection Hid as <-.
  rewrite HX, foldl_insert_lookup in Hinfo.
  destruct (last_with policyId (policyId p) (POLICIES DATA)) as [q|] eqn:Eq;
    [|now rewrite lookup_empty in Hinfo].
  injection Hinfo as <-. now exists p, q.
Qed.

Lemma open_alerts_by_policy_sheet_witness :
  exists rows,
    open_alerts_by_policy_rows
      (fst (process_collected_data false
              (sample_data [sample_policy_high; sample_policy_medium] (AlertsList []))
              empty_results)) []
    = (policy_sheet_header :: rows, Return tt) /\
    length rows = 2%nat.
Proof.
  destruct (open_alerts_by_policy_sheet false
              (sample_data [sample_policy_high; sample_policy_medium] (AlertsList []))
              (fst (process_collected_data false
                      (sample_data [sample_policy_high; sample_policy_medium]
                                   (AlertsList []))
                      empty_results)))
    as (rows & E & HF).
  - vm_compute. reflexivity.
  - exists rows. split; [exact E|].
    apply Forall2_length in HF. rewrite <- HF. reflexivity.
Defined.

(** ** The key 'policies_disabled' *)

Lemma add_alert_totals_keeps_absent k0 k n :
  preserves (fun r => alert_totals_by_alert r !! k0 = None)
            (add_alert_totals_by_alert k n).
Proof.
  intros r H. unfold add_alert_totals_by_alert, update.
  destruct (iadd k n _) as [d|] eqn:E; cbn; [|exact H].
  apply iadd_Return in E as (v & Hv & ->).
  destruct (decide (k = k0)) as [->|Hne]; [congruence|].
  now rewrite lookup_insert_ne.
Qed.

Lemma preserves_absent_frame {A} k0 (m : M Results A) :
  frame alert_totals_by_alert m ->
  preserves (fun r => alert_totals_by_alert r !! k0 = None) m.
Proof. apply (preserves_of_frame alert_totals_by_alert (fun d => d !! k0 = None)). Qed.

Lemma copy_to_alert_totals_keeps_absent k0 k table k2 :
  k <> k0 ->
  preserves (fun r => alert_totals_by_alert r !! k0 = None)
            (copy_to_alert_totals k table k2).
Proof.
  intros Hne r H. unfold copy_to_alert_totals, bind, lift.
  destruct (getitem table k2); cbn; [|exact H]. now rewrite lookup_insert_ne.
Qed.

Ltac absent_auto :=
  repeat first
    [ apply add_alert_totals_keeps_absent
    | apply copy_to_alert_totals_keeps_absent; str_neq
    | apply preserves_ret
    | apply preserves_bind; [ | intros ? ]
    | apply preserves_for_each; intros ? ?
    | match goal with
      | |- preserves _ (if ?b then _ else _) => destruct b
      | |- preserves _ (match ?x with _ => _ end) => destruct x
      end
    | apply preserves_absent_frame;
      solve [unfold add_policy_totals_by_alert, copy_to_policy_totals,
               attribute_standard_from_alert, attribute_standard_from_policy,
               add_alert_counts_from_policies, set_summary; frame_auto] ].

(** No statement of [process_collected_data] creates the key
    'policies_disabled' of [alert_totals_by_alert], whatever the name
    [policies] of line 658 is bound to. *)
Lemma policies_disabled_key_absent binding support DATA :
  alert_totals_by_alert
    (fst (process_collected_data_with binding support DATA empty_results))
    !! "policies_disabled" = None.
Proof.
  assert (preserves (fun r => alert_totals_by_alert r !! "policies_disabled" = None)
                    (process_collected_data_with binding support DATA)) as H.
  { unfold process_collected_data_with.
    apply preserves_bind; [absent_auto | intros ?].
    apply preserves_bind; [unfold init_policy_tables; absent_auto | intros ?].
    apply preserves_bind.
    { unfold process_policies, process_policy, policy_alert_count. absent_auto. }
    intros ?. apply preserves_bind.
    { intros r _. reflexivity. }
    intros ?. apply preserves_bind.
    { unfold process_alerts_with, process_alerts_support, process_alert,
        alert_level_counts, in_policies, policy_deleted_branch, policy_level_counts,
        policy_disabled_branch.
      absent_auto. }
    intros ?. unfold process_summary. absent_auto. }
  now apply H.
Qed.

Lemma labelled_rows_raises lines label (table : gmap string Z) key :
  Some (label, table, key) ∈ lines -> table !! key = None ->
  exists k, labelled_rows lines = Raise (KeyError k).
Proof.
  intros Hin Hk. induction lines as [|line lines IH]; [now apply elem_of_nil in Hin|].
  apply elem_of_cons in Hin as [<-|Hin].
  - cbn [labelled_rows]. unfold getitem. rewrite Hk. eauto.
  - destruct (IH Hin) as [k E]. destruct line as [[[l t] k']|]; cbn [labelled_rows].
    + unfold getitem. destruct (t !! k'); [|eauto]. rewrite E. eauto.
    + rewrite E. eauto.
Qed.

(** The keys of the summary that only the full API sets. *)
Lemma full_api_summary_keys DATA R :
  process_collected_data false DATA empty_results = (R, Return tt) ->
  summary R !! "alert_count" = Some 0 /\
  summary R !! "count_of_compliance_standards_with_alerts_from_alerts" = Some 0 /\
  summary R !! "count_of_policies_with_alerts_from_alerts" = Some 11.
Proof.
  intros E.
  destruct (processed_full_api DATA R E) as (HA & Hside & r5 & H5 & Hp & ->).
  rewrite Hside in H5. injection H5 as Hcs Hpc _ _ _ _.
  unfold summary_of_full_api. cbn [policy_counts_from_alerts put_summary
    compliance_standards_counts_from_alerts ALERTS summary].
  rewrite Hcs, Hpc, HA.
  split; [|split]; lookup_lit; reflexivity.
Qed.

(** X9. The sheet 'Open Closed Alerts Summary' cannot be built from the
    tables that [process_collected_data] leaves, however processing ended
    and whatever the name [policies] of line 658 is bound to: the sheet
    reads the key 'policies_disabled' of [alert_totals_by_alert] (line
    918), which no statement creates (line 515 seeds 'policy_disabled'), so
    building its rows raises KeyError.  After a run of the full API that
    returned, this is the first key that is missing. *)
Theorem open_closed_alerts_summary_raises :
  (forall binding support DATA time_range_label,
      exists k,
        open_closed_alerts_summary_rows time_range_label
          (fst (process_collected_data_with binding support DATA empty_results))
        = Raise (KeyError k)) /\
  (forall DATA time_range_label RESULTS,
      process_collected_data false DATA empty_results = (RESULTS, Return tt) ->
      open_closed_alerts_summary_rows time_range_label RESULTS
      = Raise (KeyError "policies_disabled")).
Proof.
  split.
  - intros binding support DATA label.
    pose proof (policies_disabled_key_absent binding support DATA) as Habs.
    destruct (labelled_rows_raises
                (open_closed_alerts_summary_lines
                   (fst (process_collected_data_with binding support DATA empty_results)))
                "Alerts Generated by Disabled Policies"
                (alert_totals_by_alert
                   (fst (process_collected_data_with binding support DATA empty_results)))
                "policies_disabled")
      as [k E]; [|exact Habs|].
    + apply (list_elem_of_lookup_2 _ 43%nat). reflexivity.
    + exists k. unfold open_closed_alerts_summary_rows. now rewrite E.
  - intros DATA label R E.
    destruct (full_api_summary_keys DATA R E) as (Hs1 & Hs2 & Hs3).
    destruct (processed_full_api DATA R E) as (_ & Hside & _).
    injection Hside as _ _ _ Hat _ _.
    unfold open_closed_alerts_summary_rows, open_closed_alerts_summary_lines.
    cbn [labelled_rows]. unfold getitem. rewrite Hs1, Hs2, Hs3, Hat.
    vm_compute. reflexivity.
Qed.

Lemma open_closed_alerts_summary_raises_witness :
  open_closed_alerts_summary_rows "Past 1 Week"
    (fst (process_collected_data false
            (sample_data [sample_policy_high; sample_policy_medium] (AlertsList []))
            empty_results))
  = Raise (KeyError "policies_disabled").
Proof.
  apply (proj2 open_closed_alerts_summary_raises
           (sample_data [sample_policy_high; sample_policy_medium] (AlertsList []))).
  vm_compute. reflexivity.
Defined.

(** ** The sheet 'Utilization' *)

Lemma count_flag_cons b x l :
  count_flag b (x :: l) = (if decide (x = Some b) then 1 else 0) + count_flag b l.
Proof.
  unfold count_flag. rewrite filter_cons.
  destruct (decide (x = Some b)); cbn [length]; lia.
Qed.

(** The records counted as enabled and those counted as disabled are
    different records, and together they are all records exactly when every
    record has the key 'enabled'. *)
Lemma count_flag_split l :
  count_flag false l + count_flag true l <= len l /\
  (count_flag false l + count_flag true l = len l <-> all_flagged l).
Proof.
  unfold all_flagged. induction l as [|x l [IH1 IH2]].
  - split; [reflexivity|]. split; [constructor | reflexivity].
  - rewrite !count_flag_cons. unfold len in *. cbn [length].
    rewrite Nat2Z.inj_succ.
    destruct x as [[|]|];
      repeat match goal with
             | |- context [decide ?P] => destruct (decide P); try discriminate;
                                         try congruence
             end.
    + split; [lia|]. split; intros H.
      * constructor; [eauto | apply IH2; lia].
      * apply Forall_cons in H as [_ H]. apply IH2 in H. lia.
    + split; [lia|]. split; intros H.
      * constructor; [eauto | apply IH2; lia].
      * apply Forall_cons in H as [_ H]. apply IH2 in H. lia.
    + split; [lia|]. split; intros H.
      * lia.
      * apply Forall_cons in H as [[? [=]] _].
Qed.

Lemma count_flag_total (l : list bool) :
  count_flag false (map Some l) + count_flag true (map Some l) = len l.
Proof.
  destruct (count_flag_split (map Some l)) as [_ H].
  unfold len in *. rewrite length_map in H. apply H.
  unfold all_flagged. apply Forall_forall. intros x Hx.
  apply list_elem_of_In, in_map_iff in Hx as (b & <- & _). eauto.
Qed.

(** X10. The sheet 'Utilization' shows the asset count of the summary;
    the number of policies is the number of
    records of the policies file, it is the sum of 'Policies Disabled' and
    'Policies Enabled', and the sum of 'Policies Custom' and 'Policies
    Default'.  For users, cloud accounts, alert rules and integrations,
    whose records can lack the key 'enabled', the disabled and the enabled
    together are at most the number shown, and are that number exactly when
    every record has the key. *)
Theorem utilization_counts :
  forall RESULTS DATA rows,
    utilization_rows RESULTS DATA = Return rows ->
    let shown label := value_of label rows in
    let partial number disabled enabled records :=
      exists n d e,
        shown number = Some n /\ shown disabled = Some d /\ shown enabled = Some e /\
        n = len records /\ d + e <= n /\ (d + e = n <-> all_flagged records) in
    shown "Number of Assets" = summary RESULTS !! "asset_count" /\
    (exists n d e c s,
        shown "Number of Policies" = Some n /\ shown "Policies Disabled" = Some d /\
        shown "Policies Enabled" = Some e /\ shown "Policies Custom" = Some c /\
        shown "Policies Default" = Some s /\
        n = len (POLICIES DATA) /\ d + e = n /\ c + s = n) /\
    partial "Number of Users" "Users Disabled" "Users Enabled" (USERS DATA) /\
    partial "Number of Cloud Accounts" "Cloud Accounts Disabled" "Cloud Accounts Enabled"
            (map account_enabled (ACCOUNTS DATA)) /\
    partial "Number of Alert Rules" "Alert Rules Disabled" "Alert Rules Enabled"
            (RULES DATA) /\
    partial "Number of Integrations" "Integrations Disabled" "Integrations Enabled"
            (INTEGRATIONS DATA).
Proof.
  intros R DATA rows E. unfold utilization_rows in E.
  destruct (getitem (summary R) "asset_count") as [asset_count|] eqn:Ea; [|discriminate].
  injection E as <-. cbv zeta.
  assert (forall l, exists n d e,
             Some (len l) = Some n /\ Some (count_flag false l) = Some d /\
             Some (count_flag true l) = Some e /\
             n = len l /\ d + e <= n /\ (d + e = n <-> all_flagged l)) as Hpartial.
  { intros l. destruct (count_flag_split l) as [H1 H2].
    exists (len l), (count_flag false l), (count_flag true l).
    split; [reflexivity|]. split; [reflexivity|]. split; [reflexivity|].
    split; [reflexivity|]. split; [exact H1 | exact H2]. }
  split; [|split; [|split; [|split; [|split]]]].
  - unfold getitem in Ea. destruct (summary R !! "asset_count"); [|discriminate].
    injection Ea as <-. reflexivity.
  - eexists _, _, _, _, _. cbn.
    split; [reflexivity|]. split; [reflexivity|]. split; [reflexivity|].
    split; [reflexivity|]. split; [reflexivity|]. split; [reflexivity|].
    assert (forall f : Policy -> bool,
               map (fun p => Some (f p)) (POLICIES DATA) = map Some (map f (POLICIES DATA)))
      as Hmap by (intros f; now rewrite map_map).
    rewrite !Hmap, !count_flag_total. unfold len. rewrite !length_map. split; reflexivity.
  - apply (Hpartial (USERS DATA)).
  - unfold len at 1.
    replace (Z.of_nat (length (ACCOUNTS DATA)))
      with (len (map account_enabled (ACCOUNTS DATA)))
      by (unfold len; now rewrite length_map).
    apply (Hpartial (map account_enabled (ACCOUNTS DATA))).
  - apply (Hpartial (RULES DATA)).
  - apply (Hpartial (INTEGRATIONS DATA)).
Qed.

Lemma utilization_counts_witness :
  exists rows,
    utilization_rows (fst (process_collected_data false sample_data_with_users
                                                  empty_results))
                     sample_data_with_users
    = Return rows /\
    value_of "Number of Assets" rows = Some 12 /\
    value_of "Number of Users" rows = Some 2 /\
    value_of "Users Enabled" rows = Some 1 /\
    value_of "Users Disabled" rows = Some 0.
Proof.
  eexists. split; [vm_compute; reflexivity|].
  pose proof (utilization_counts
                (fst (process_collected_data false sample_data_with_users empty_results))
                sample_data_with_users
                _ ltac:(vm_compute; reflexivity)) as (H & _).
  split; [rewrite H; vm_compute; reflexivity|]. split; [reflexivity|]. split; reflexivity.
Defined.

(** ** The aggregates of the support API *)

Lemma fill_last items : forall d k,
  fill items d !! k
  = match last_with agg_key k items with
    | Some item => Some (agg_alerts item)
    | None => d !! k
    end.
Proof. intros d k. unfold fill. apply (foldl_insert_lookup agg_key agg_alerts). Qed.

(** X11. [process_aggregated_alerts] on the dictionary of the support API
    returns, and each of its four tables holds, for a grouping value, the
    count of the last item of the response with that value; a value without
    an item reads 0 when the table is seeded with it (the five types other
    than network, the three severities, the statuses open and resolved) and
    is absent otherwise.  The open-alert count that [process_policies]
    takes for a policy is the count of the last item of its name, 0 when
    there is none. *)
Theorem aggregates_hold_last_item :
  forall aggregated,
  exists agg,
    process_aggregated_alerts (AlertsDict aggregated) = Return agg /\
    (forall k, by_policy_name agg !! k
               = agg_alerts <$> last_with agg_key k (by_policy aggregated)) /\
    (forall k, by_type agg !! k
               = match last_with agg_key k (by_policy_type aggregated) with
                 | Some item => Some (agg_alerts item)
                 | None => if bool_decide (k ∈ ["anomaly"; "audit_event"; "config"; "data";
                                                "iam"])
                           then Some 0 else None
                 end) /\
    (forall k, by_severity agg !! k
               = match last_with agg_key k (by_policy_severity aggregated) with
                 | Some item => Some (agg_alerts item)
                 | None => if bool_decide (k ∈ ["high"; "medium"; "low"])
                           then Some 0 else None
                 end) /\
    (forall k, by_status agg !! k
               = match last_with agg_key k (by_alert_status aggregated) with
                 | Some item => Some (agg_alerts item)
                 | None => if bool_decide (k ∈ ["open"; "resolved"]) then Some 0 else None
                 end) /\
    (forall p, alert_count_of true (Some agg) p
               = match last_with agg_key (name p) (by_policy aggregated) with
                 | Some item => agg_alerts item
                 | None => 0
                 end).
Proof.
  intros aggregated. eexists. split; [reflexivity|].
  assert (forall keys k,
             seed keys !! k = if bool_decide (k ∈ keys) then Some 0 else None) as Hseed.
  { intros keys k. destruct (bool_decide (k ∈ keys)) eqn:E.
    - apply bool_decide_eq_true in E. now apply seed_lookup.
    - apply bool_decide_eq_false in E. unfold seed. apply not_elem_of_list_to_map_1.
      intros Hin. apply E. apply list_elem_of_In in Hin.
      rewrite map_map in Hin. cbn in Hin. rewrite map_id in Hin.
      now apply list_elem_of_In. }
  cbn [by_policy_name by_type by_severity by_status].
  split; [|split; [|split; [|split]]].
  - intros k. rewrite fill_last, lookup_empty.
    now destruct (last_with agg_key k (by_policy aggregated)).
  - intros k. now rewrite fill_last, Hseed.
  - intros k. now rewrite fill_last, Hseed.
  - intros k. now rewrite fill_last, Hseed.
  - intros p. unfold alert_count_of. cbn [by_policy_name].
    rewrite fill_last, lookup_empty.
    now destruct (last_with agg_key (name p) (by_policy aggregated)).
Qed.

(** ** Processing with the support API *)

(** The aggregates from which [process_alerts] and [process_summary] read
    their totals without an exception, network apart. *)
Lemma aggregates_seeded aggregated agg :
  process_aggregated_alerts (AlertsDict aggregated) = Return agg ->
  (forall k, k ∈ ["high"; "medium"; "low"] -> is_Some (by_severity agg !! k)) /\
  (forall k, k ∈ ["anomaly"; "audit_event"; "config"; "data"; "iam"] ->
             is_Some (by_type agg !! k)) /\
  (forall k, k ∈ ["open"; "resolved"] -> is_Some (by_status agg !! k)) /\
  (is_Some (by_type agg !! "network")
   <-> has_item "network" (by_policy_type aggregated) = true).
Proof.
  intros [= <-]. cbn [by_severity by_type by_status].
  split; [|split; [|split]]; try (intros k Hk; now apply fill_seeded).
  rewrite fill_lookup. split; [|now right].
  intros [[v Hv]|H]; [discriminate Hv | exact H].
Qed.

Lemma process_alerts_support_runs agg r :
  aggregated_alerts_by r = Some agg ->
  (forall k, k ∈ ["high"; "medium"; "low"] -> is_Some (by_severity agg !! k)) ->
  (forall k, k ∈ ["anomaly"; "audit_event"; "config"; "data"; "iam"] ->
             is_Some (by_type agg !! k)) ->
  (forall k, k ∈ ["open"; "resolved"] -> is_Some (by_status agg !! k)) ->
  match by_type agg !! "network" with
  | Some _ => exists r', process_alerts_support r = (r', Return tt)
  | None => snd (process_alerts_support r) = Raise (KeyError "network")
  end.
Proof.
  intros Hagg Hsev Hty Hst.
  destruct (Hsev "high") as [vh Hh]; [rewrite !elem_of_cons; tauto|].
  destruct (Hsev "medium") as [vm Hm]; [rewrite !elem_of_cons; tauto|].
  destruct (Hsev "low") as [vl Hl]; [rewrite !elem_of_cons; tauto|].
  destruct (Hty "anomaly") as [v1 H1]; [rewrite !elem_of_cons; tauto|].
  destruct (Hty "audit_event") as [v2 H2]; [rewrite !elem_of_cons; tauto|].
  destruct (Hty "config") as [v3 H3]; [rewrite !elem_of_cons; tauto|].
  destruct (Hty "data") as [v4 H4]; [rewrite !elem_of_cons; tauto|].
  destruct (Hty "iam") as [v5 H5]; [rewrite !elem_of_cons; tauto|].
  destruct (Hst "open") as [vo Ho]; [rewrite !elem_of_cons; tauto|].
  destruct (Hst "resolved") as [vr Hr]; [rewrite !elem_of_cons; tauto|].
  destruct (by_type agg !! "network") as [vn|] eqn:Hn.
  all: unfold process_alerts_support.
  all: unfold bind at 1; unfold read_aggregated_alerts_by; rewrite Hagg.
  all: rewrite (bind_return _ _ _ _ _ (copy_to_policy_totals_returns _ _ _ _ _ Hh)).
  all: rewrite (bind_return _ _ _ _ _ (copy_to_policy_totals_returns _ _ _ _ _ Hm)).
  all: rewrite (bind_return _ _ _ _ _ (copy_to_policy_totals_returns _ _ _ _ _ Hl)).
  all: rewrite (bind_return _ _ _ _ _ (copy_to_policy_totals_returns _ _ _ _ _ H1)).
  all: rewrite (bind_return _ _ _ _ _ (copy_to_policy_totals_returns _ _ _ _ _ H2)).
  all: rewrite (bind_return _ _ _ _ _ (copy_to_policy_totals_returns _ _ _ _ _ H3)).
  all: rewrite (bind_return _ _ _ _ _ (copy_to_policy_totals_returns _ _ _ _ _ H4)).
  all: rewrite (bind_return _ _ _ _ _ (copy_to_policy_totals_returns _ _ _ _ _ H5)).
  - rewrite (bind_return _ _ _ _ _ (copy_to_policy_totals_returns _ _ _ _ _ Hn)).
    rewrite (bind_return _ _ _ _ _ (copy_to_alert_totals_returns _ _ _ _ _ Ho)).
    rewrite (copy_to_alert_totals_returns _ _ _ _ _ Hr). eauto.
  - now rewrite (bind_raise _ _ _ _ _ (copy_to_policy_totals_raises _ _ _ _ Hn)).
Qed.

Lemma process_summary_support_returns DATA agg r :
  aggregated_alerts_by r = Some agg -> is_Some (by_status agg !! "open") ->
  snd (process_summary true DATA r) = Return tt.
Proof.
  intros Hagg [n Hn].
  cbv [process_summary bind set_summary modify get_state read_aggregated_alerts_by lift].
  cbn [aggregated_alerts_by put_summary]. rewrite Hagg. unfold getitem. rewrite Hn.
  reflexivity.
Qed.

(** X12. With the support API, policies of documented severities and
    types and an alerts file that holds the dictionary of the four
    aggregate responses, [process_collected_data] returns exactly when the
    response aggregated by policy type has an item of type network, and
    raises KeyError on network otherwise: the policy pass and the summary
    never raise. *)
Theorem support_processing_needs_network_item :
  forall DATA aggregated,
    ALERTS DATA = AlertsDict aggregated ->
    Forall (fun p => severity p ∈ severities /\ policyType p ∈ policy_types)
           (POLICIES DATA) ->
    snd (process_collected_data true DATA empty_results)
    = if has_item "network" (by_policy_type aggregated) then Return tt
      else Raise (KeyError "network").
Proof.
  intros DATA aggregated HA Hall.
  destruct (process_aggregated_alerts (AlertsDict aggregated)) as [agg|] eqn:Eagg;
    [|discriminate Eagg].
  destruct (aggregates_seeded _ _ Eagg) as (Hsev & Hty & Hst & Hnet).
  unfold process_collected_data, process_collected_data_with. rewrite HA, Eagg.
  unfold bind at 1. unfold bind at 1. cbn [lift modify].
  set (r1 := put_aggregated_alerts_by (Some agg) empty_results).
  rewrite (bind_return _ _ _ _ _ (init_policy_tables_returns r1)).
  destruct (process_policies_returns true (POLICIES DATA) Hall (fst (init_policy_tables r1)))
    as ([] & r3 & E3 & _).
  { destruct (init_policy_tables_ready r1) as (Hs & Hr & _).
    split; [exact Hs|]. split; [exact Hr|]. intros _. cbn. eauto. }
  pose proof (process_policies_tables true (POLICIES DATA) _ _ _ _ r3 tt eq_refl E3)
    as [= HG3 _ _].
  rewrite (bind_return _ _ _ _ _ E3).
  assert (init_alert_tables r3 = (fst (init_alert_tables r3), Return tt)) as E4
      by reflexivity.
  rewrite (bind_return _ _ _ _ _ E4).
  assert (aggregated_alerts_by (fst (init_alert_tables r3)) = Some agg) as HG4
      by exact HG3.
  pose proof (process_alerts_support_runs agg _ HG4 Hsev Hty Hst) as Hrun.
  unfold process_alerts_with.
  destruct (has_item "network" (by_policy_type aggregated)).
  - destruct (proj2 Hnet eq_refl) as [vn Hn]. rewrite Hn in Hrun.
    destruct Hrun as [r5 E5]. rewrite (bind_return _ _ _ _ _ E5), bind_modify.
    apply (process_summary_support_returns DATA agg).
    + pose proof (frame_process_alerts_policy_side module_policies true (ALERTS DATA)
                    (fst (init_alert_tables r3))) as Hf.
      unfold process_alerts_with in Hf. rewrite E5 in Hf.
      injection Hf as Hf _ _ _ _. cbn [aggregated_alerts_by put_summary].
      now rewrite Hf.
    + apply Hst. rewrite !elem_of_cons. tauto.
  - assert (by_type agg !! "network" = None) as Hn.
    { apply eq_None_not_Some. intros H. apply Hnet in H. discriminate H. }
    rewrite Hn in Hrun. unfold bind.
    destruct (process_alerts_support (fst (init_alert_tables r3))) as [r5 [[]|e]];
      cbn in Hrun; [discriminate Hrun|]. cbn. exact Hrun.
Qed.

Lemma support_processing_needs_network_item_witness :
  snd (process_collected_data true
         (sample_data [sample_policy_high; sample_policy_medium]
                      (AlertsDict sample_aggregated))
         empty_results)
  = Return tt /\
  snd (process_collected_data true
         (sample_data [sample_policy_high; sample_policy_medium]
                      (AlertsDict (mkAggregatedFile [] [] [] [])))
         empty_results)
  = Raise (KeyError "network").
Proof.
  assert (Forall (fun p => severity p ∈ severities /\ policyType p ∈ policy_types)
                 [sample_policy_high; sample_policy_medium]) as Hall.
  { repeat constructor; cbn; unfold severities, policy_types; rewrite ?elem_of_cons; tauto. }
  split.
  - exact (support_processing_needs_network_item
             (sample_data [sample_policy_high; sample_policy_medium]
                          (AlertsDict sample_aggregated))
             sample_aggregated eq_refl Hall).
  - exact (support_processing_needs_network_item
             (sample_data [sample_policy_high; sample_policy_medium]
                          (AlertsDict (mkAggregatedFile [] [] [] [])))
             (mkAggregatedFile [] [] [] []) eq_refl Hall).
Defined.

(** ** Process mode *)

Lemma main_in_process_mode args server w :
  mode args = Process -> main args server w = process_phase args w.
Proof.
  intros Hmode. unfold main, configure, process_phase.
  cbn [RUN_MODE]. rewrite Hmode. reflexivity.
Qed.

Lemma frame_process_phase args : frame traffic_and_files (process_phase args).
Proof.
  unfold process_phase, read_collected_data, read_file, output. frame_auto.
Qed.

Lemma read_collected_data_missing w :
  all_files_present (files w) = false ->
  read_collected_data w
  = (mkWorld (requests w) (status_responses w) (files w)
             (printed w ++ [ResultFileMissing])%list,
     Raise (SystemExit 1)).
Proof.
  unfold all_files_present, read_collected_data, read_file, bind, get_state, output,
    modify, raise, ret.
  destruct w as [rq st [a p al u ac g r i] pr]. cbn.
  destruct a; [|reflexivity]. destruct p; [|reflexivity]. destruct al; [|reflexivity].
  destruct u; [|reflexivity]. destruct ac; [|reflexivity]. destruct g; [|reflexivity].
  destruct r; [|reflexivity]. destruct i; [|reflexivity]. discriminate.
Qed.

Lemma read_collected_data_present w :
  all_files_present (files w) = true ->
  exists DATA,
    read_collected_data w = (w, Return DATA) /\
    files w = mkFiles (Some (ASSETS DATA)) (Some (POLICIES DATA)) (Some (ALERTS DATA))
                      (Some (USERS DATA)) (Some (ACCOUNTS DATA)) (Some (GROUPS DATA))
                      (Some (RULES DATA)) (Some (INTEGRATIONS DATA)).
Proof.
  unfold all_files_present, read_collected_data, read_file, bind, get_state, ret.
  destruct w as [rq st [[a|] [p|] [al|] [u|] [ac|] [g|] [r|] [i|]] pr]; cbn;
    try discriminate.
  intros _. eexists. split; reflexivity.
Qed.

(** X13. A run in process mode needs no URL and no key, sends no request
    and leaves every result file as it found it.  When one of the eight
    result files does not exist, it prints that the file is missing and
    exits with status 1 before anything is processed. *)
Theorem process_run_reads_files_only :
  forall args server w,
    mode args = Process ->
    let run := main args server w in
    requests (fst run) = requests w /\
    files (fst run) = files w /\
    (all_files_present (files w) = false ->
     snd run = Raise (SystemExit 1) /\
     printed (fst run)
     = (printed w ++ [Line "Processing Data"; ResultFileMissing])%list).
Proof.
  intros args server w Hmode. cbv zeta. rewrite (main_in_process_mode _ _ _ Hmode).
  pose proof (frame_process_phase args w) as [= Hr _ Hf].
  split; [exact Hr|]. split; [exact Hf|].
  intros Hmiss. unfold process_phase, output. rewrite bind_modify.
  rewrite (bind_raise _ _ _ _ _
             (read_collected_data_missing
                (mkWorld (requests w) (status_responses w) (files w)
                         (printed w ++ [Line "Processing Data"])%list) Hmiss)).
  cbn. split; [reflexivity|]. now rewrite <- app_assoc.
Qed.

Lemma process_run_reads_files_only_witness :
  let run := main (mkArgs "Example Customer" None None None None 1 "week" Process
                          false false)
                  (sample_server [] []) (start (sample_server [] []) no_files) in
  requests (fst run) = [] /\
  files (fst run) = no_files /\
  snd run = Raise (SystemExit 1) /\
  printed (fst run) = [Line "Processing Data"; ResultFileMissing].
Proof.
  destruct (process_run_reads_files_only
              (mkArgs "Example Customer" None None None None 1 "week" Process false false)
              (sample_server [] []) (start (sample_server [] []) no_files) eq_refl)
    as (H1 & H2 & H3).
  destruct (H3 eq_refl) as [H4 H5].
  split; [exact H1|]. split; [exact H2|]. split; [exact H4 | exact H5].
Defined.

(** ** What a collection that returns has written *)

Lemma frame_run {S T A} (proj : S -> T) (m : M S A) s s' r :
  frame proj m -> m s = (s', r) -> proj s' = proj s.
Proof. intros H E. specialize (H s). now rewrite E in H. Qed.

Lemma make_api_call_Return {A} rq (response : Response A) w w' content :
  make_api_call rq response w = (w', Return content) ->
  response = Ok content /\
  w' = mkWorld (requests w ++ [(rq, true)])%list (status_responses w) (files w) (printed w).
Proof. destruct response; cbn; intros [= <- <-]; now split. Qed.

Lemma frame_make_api_call_files {A} rq (response : Response A) :
  frame files (make_api_call rq response).
Proof. unfold make_api_call, sent, output. destruct response; frame_auto. Qed.

(** A getter that deletes its file, sends one request and writes the
    response. *)
Lemma getter_returns {A} (put : option A -> Files -> Files) rq (response : Response A)
    w w' :
  (write_file (put None) ;;
   api_response <- make_api_call rq response ;;
   write_file (put (Some api_response))) w = (w', Return tt) ->
  exists content, response = Ok content /\ files w' = put (Some content) (put None (files w)).
Proof.
  unfold write_file. rewrite bind_modify. intros E.
  apply bind_Return_inv in E as (content & w1 & E1 & E). injection E as <-.
  apply make_api_call_Return in E1 as [-> ->]. now exists content.
Qed.

Lemma get_assets_returns CONFIG server w w' :
  get_assets CONFIG server w = (w', Return tt) ->
  exists total, assets_total CONFIG server = Some total /\
                files w' = put_assets_file (Some total) (files w).
Proof.
  unfold get_assets, assets_total, write_file. rewrite bind_modify. intros E.
  apply bind_Return_inv in E as (total & w1 & E1 & E). injection E as <-.
  exists total. destruct (SUPPORT_API_MODE CONFIG).
  - apply bind_Return_inv in E1 as (items & w2 & E2 & E1).
    apply make_api_call_Return in E2 as [-> ->].
    destruct items as [|[resources|] items]; injection E1 as <- <-; now split.
  - apply make_api_call_Return in E1 as [-> ->]. now split.
Qed.

Lemma get_policies_returns CONFIG server w w' :
  get_policies CONFIG server w = (w', Return tt) ->
  exists content,
    (if SUPPORT_API_MODE CONFIG then support_policy_response server
     else policy_response server) = Ok content /\
    files w' = put_policies_file (Some content) (files w).
Proof.
  unfold get_policies. destruct (SUPPORT_API_MODE CONFIG); intros E;
    apply (getter_returns put_policies_file) in E as (content & -> & ->); now exists content.
Qed.

Lemma get_users_returns CONFIG server w w' :
  get_users CONFIG server w = (w', Return tt) ->
  exists content, user_response server = Ok content /\
                  files w' = put_users_file (Some content) (files w).
Proof.
  unfold get_users. intros E.
  apply (getter_returns put_users_file) in E as (content & -> & ->). now exists content.
Qed.

Lemma get_account_groups_returns CONFIG server w w' :
  get_account_groups CONFIG server w = (w', Return tt) ->
  exists content, cloud_group_response server = Ok content /\
                  files w' = put_groups_file (Some content) (files w).
Proof.
  unfold get_account_groups. intros E.
  apply (getter_returns put_groups_file) in E as (content & -> & ->). now exists content.
Qed.

Lemma get_alert_rules_returns CONFIG server w w' :
  get_alert_rules CONFIG server w = (w', Return tt) ->
  exists content, alert_rule_response server = Ok content /\
                  files w' = put_rules_file (Some content) (files w).
Proof.
  unfold get_alert_rules. intros E.
  apply (getter_returns put_rules_file) in E as (content & -> & ->). now exists content.
Qed.

Lemma get_integrations_returns CONFIG server w w' :
  get_integrations CONFIG server w = (w', Return tt) ->
  exists content, integration_response server = Ok content /\
                  files w' = put_integrations_file (Some content) (files w).
Proof.
  unfold get_integrations. intros E.
  apply (getter_returns put_integrations_file) in E as (content & -> & ->).
  now exists content.
Qed.

Lemma frame_flatten_accounts_files CONFIG server accounts :
  forall account_list, frame files (flatten_accounts CONFIG server accounts account_list).
Proof.
  induction accounts as [|account rest IH]; intros account_list; cbn [flatten_accounts].
  - apply frame_ret.
  - destruct (has_children CONFIG account); [|apply IH].
    apply frame_bind; [apply frame_make_api_call_files | intros ?]. apply IH.
Qed.

Lemma flatten_accounts_Return CONFIG server accounts :
  forall account_list w w' l,
    flatten_accounts CONFIG server accounts account_list w = (w', Return l) ->
    children_served CONFIG server accounts /\
    l = (account_list ++ concat (map (expand_account CONFIG server) accounts))%list.
Proof.
  unfold children_served.
  induction accounts as [|account rest IH]; intros account_list w w' l E;
    cbn [flatten_accounts] in E.
  - injection E as _ <-. split; [constructor | cbn; now rewrite app_nil_r].
  - cbn [map concat]. unfold expand_account at 1.
    destruct (has_children CONFIG account) eqn:Hc.
    + apply bind_Return_inv in E as (children & w1 & E1 & E).
      apply make_api_call_Return in E1 as [Hr _].
      apply IH in E as [Hs ->]. rewrite Hr. split.
      * constructor; [intros _; now rewrite Hr | exact Hs].
      * now rewrite <- app_assoc.
    + apply IH in E as [Hs ->]. split.
      * constructor; [intros H; congruence | exact Hs].
      * now rewrite <- app_assoc.
Qed.

Lemma get_accounts_returns CONFIG server w w' :
  get_accounts CONFIG server w = (w', Return tt) ->
  exists file, accounts_collected CONFIG server file /\
               files w' = put_accounts_file file (files w).
Proof.
  unfold get_accounts, write_file. rewrite bind_modify. intros E.
  apply bind_Return_inv in E as (content & w1 & E1 & E).
  apply make_api_call_Return in E1 as [Hc ->].
  apply bind_Return_inv in E as (account_list & w2 & E2 & E). injection E as <-.
  pose proof (frame_run _ _ _ _ _ (frame_flatten_accounts_files CONFIG server content [])
                        E2) as Hf.
  apply flatten_accounts_Return in E2 as [Hs ->].
  eexists. split; [now exists content|].
  cbn [files] in Hf |- *. now rewrite Hf.
Qed.

Lemma frame_get_job_status_files job_id : frame files (get_job_status job_id).
Proof.
  unfold get_job_status. apply frame_bind.
  - intros w. unfold next_status_response. now destruct (status_responses w).
  - intros response. apply frame_bind; [apply frame_make_api_call_files | intros ?].
    unfold output. frame_auto.
Qed.

Lemma poll_alert_job_returns server job_id :
  forall turns job_status w w',
    poll_alert_job server turns job_id job_status w = (w', Return tt) ->
    files w' = files w \/
    exists alerts, alert_job_download_response server = Ok alerts /\
                   files w' = put_alerts_file (Some (AlertsList alerts)) (files w).
Proof.
  induction turns as [|turns IH]; intros job_status w w' E; cbn [poll_alert_job] in E;
    destruct (String.eqb job_status "IN_PROGRESS").
  - discriminate E.
  - destruct (String.eqb job_status "READY_TO_DOWNLOAD").
    + apply bind_Return_inv in E as (alerts & w1 & E1 & E). injection E as <-.
      apply make_api_call_Return in E1 as [-> ->]. right. now exists alerts.
    + injection E as <-. now left.
  - unfold output in E. rewrite bind_modify in E.
    apply bind_Return_inv in E as (next & w1 & E1 & E).
    pose proof (frame_run _ _ _ _ _ (frame_get_job_status_files job_id) E1) as Hf.
    cbn [files] in Hf.
    destruct next as [job_status'|].
    + apply IH in E. now rewrite Hf in E.
    + injection E as <-. now left.
  - destruct (String.eqb job_status "READY_TO_DOWNLOAD").
    + apply bind_Return_inv in E as (alerts & w1 & E1 & E). injection E as <-.
      apply make_api_call_Return in E1 as [-> ->]. right. now exists alerts.
    + injection E as <-. now left.
Qed.

Lemma get_alerts_returns CONFIG server w w' :
  get_alerts CONFIG server w = (w', Return tt) ->
  exists file, alerts_collected CONFIG server file /\
               files w' = put_alerts_file file (files w).
Proof.
  unfold get_alerts, alerts_collected, write_file, get_alerts_aggregate.
  rewrite bind_modify. intros E.
  destruct (SUPPORT_API_MODE CONFIG).
  - apply bind_Return_inv in E as (policy & w1 & E1 & E).
    apply make_api_call_Return in E1 as [H1 ->].
    apply bind_Return_inv in E as (policy_type & w2 & E2 & E).
    apply make_api_call_Return in E2 as [H2 ->].
    apply bind_Return_inv in E as (policy_severity & w3 & E3 & E).
    apply make_api_call_Return in E3 as [H3 ->].
    apply bind_Return_inv in E as (alert_status & w4 & E4 & E).
    apply make_api_call_Return in E4 as [H4 ->].
    injection E as <-. eexists. split; [|reflexivity].
    now exists policy, policy_type, policy_severity, alert_status.
  - apply bind_Return_inv in E as (job & w1 & E1 & E).
    apply make_api_call_Return in E1 as [_ ->].
    destruct job as [alert_job_id|].
    + apply bind_Return_inv in E as (first & w2 & E2 & E).
      pose proof (frame_run _ _ _ _ _ (frame_get_job_status_files alert_job_id) E2) as Hf.
      cbn [files] in Hf.
      destruct first as [alert_job_status|].
      * unfold bind, get_state in E. apply poll_alert_job_returns in E.
        rewrite Hf in E. destruct E as [E|(alerts & Hd & E)].
        -- exists None. split; [now left | exact E].
        -- exists (Some (AlertsList alerts)). split; [right; now exists alerts | exact E].
      * injection E as <-. exists None. split; [now left | exact Hf].
    + injection E as <-. exists None. split; [now left | reflexivity].
Qed.

Lemma output_files m w : files (fst (output m w)) = files w.
Proof. reflexivity. Qed.

(** The files when [collect_data] has returned. *)
Lemma collect_data_returns_files CONFIG server w w' :
  collect_data CONFIG server w = (w', Return tt) -> collected CONFIG server (files w').
Proof.
  unfold collect_data, output. intros E.
  rewrite bind_modify in E.
  apply bind_Return_inv in E as (token & w1 & _ & E). rewrite bind_modify in E.
  apply bind_Return_inv in E as ([] & w2 & E2 & E). rewrite !bind_modify in E.
  apply get_assets_returns in E2 as (total & Ht & H2).
  apply bind_Return_inv in E as ([] & w3 & E3 & E). rewrite !bind_modify in E.
  apply get_policies_returns in E3 as (policies & Hp & H3).
  apply bind_Return_inv in E as ([] & w4 & E4 & E). rewrite !bind_modify in E.
  apply get_alerts_returns in E4 as (alerts & Ha & H4).
  apply bind_Return_inv in E as ([] & w5 & E5 & E). rewrite !bind_modify in E.
  apply get_users_returns in E5 as (users & Hu & H5).
  apply bind_Return_inv in E as ([] & w6 & E6 & E). rewrite !bind_modify in E.
  apply get_accounts_returns in E6 as (accounts & Hacc & H6).
  apply bind_Return_inv in E as ([] & w7 & E7 & E). rewrite !bind_modify in E.
  apply get_account_groups_returns in E7 as (groups & Hg & H7).
  apply bind_Return_inv in E as ([] & w8 & E8 & E). rewrite !bind_modify in E.
  apply get_alert_rules_returns in E8 as (rules & Hr & H8).
  apply bind_Return_inv in E as ([] & w9 & E9 & E).
  apply get_integrations_returns in E9 as (integrations & Hi & H9).
  injection E as <-. cbn [files] in *.
  rewrite H9, H8, H7, H6, H5, H4, H3, H2. unfold collected. cbn.
  split; [split; [eauto | now rewrite Ht]|].
  split; [now exists policies|]. split; [exact Ha|]. split; [now exists users|].
  split; [exact Hacc|]. split; [now exists groups|]. split; [now exists rules|].
  now exists integrations.
Qed.

Lemma get_prisma_login_returns server w w' token :
  get_prisma_login server w = (w', Return token) -> login_token server = Some token.
Proof.
  unfold get_prisma_login, login_token. intros E.
  apply bind_Return_inv in E as (t & w1 & E1 & E).
  apply make_api_call_Return in E1 as [-> ->].
  destruct t as [t|]; [|discriminate E].
  destruct (String.eqb t EmptyString); [discriminate E|]. now injection E as _ <-.
Qed.

(** X14. When [collect_data] returns, the login response carried a token
    and every result file holds what the tenant answered in this run,
    whatever the files held before: the asset count, the policies, users,
    account groups, alert rules and integrations as responded, the
    accounts of the accounts response flattened with the follow-up
    responses of this run, which all ended ok, and the alerts (the four
    aggregates with the support API; with the full API the downloaded
    list, or no file at all when the alert job was abandoned).  No file of
    an earlier run is left in place. *)
Theorem collection_leaves_fresh_files :
  forall CONFIG server w w',
    collect_data CONFIG server w = (w', Return tt) ->
    is_Some (login_token server) /\ collected CONFIG server (files w').
Proof.
  intros CONFIG server w w' E. split; [|exact (collect_data_returns_files _ _ _ _ E)].
  unfold collect_data, output in E. rewrite bind_modify in E.
  apply bind_Return_inv in E as (token & w1 & E1 & _).
  apply get_prisma_login_returns in E1. rewrite E1. eauto.
Qed.

Lemma collection_leaves_fresh_files_witness :
  let server := sample_server [sample_organization_as_child; sample_child_1]
                              [Ok (Some "READY_TO_DOWNLOAD")] in
  let earlier := mkFiles (Some 0) (Some []) None (Some []) (Some [sample_child_2])
                         (Some []) (Some []) (Some [Some true]) in
  let left := files (fst (collect_data (sample_config false) server
                                       (start server earlier))) in
  collected (sample_config false) server left /\
  accounts_file left = Some [sample_organization; sample_child_1].
Proof.
  cbv zeta. split; [|vm_compute; reflexivity].
  refine (proj2 (collection_leaves_fresh_files (sample_config false)
                   (sample_server [sample_organization_as_child; sample_child_1]
                                  [Ok (Some "READY_TO_DOWNLOAD")])
                   (start (sample_server [sample_organization_as_child; sample_child_1]
                                         [Ok (Some "READY_TO_DOWNLOAD")])
                          (mkFiles (Some 0) (Some []) None (Some [])
                                   (Some [sample_child_2]) (Some []) (Some [])
                                   (Some [Some true])))
                   _ _)).
  vm_compute. reflexivity.
Defined.

(** X15. A run in the default mode that goes on to the report has
    processed files that all exist and hold what the tenant answered in
    this run; in particular the alerts were downloaded (full API) or
    aggregated (support API) in this run: an abandoned alert job, after
    which a collect-only run exits with status 0, ends the default mode
    with a missing file. *)
Theorem auto_run_processes_this_collection :
  forall args server files0,
    mode args = Auto ->
    let run := main args server (start server files0) in
    exit_status (snd run) = None ->
    all_files_present (files (fst run)) = true /\
    collected (config_of args) server (files (fst run)).
Proof.
  intros args server files0 Hmode. cbv zeta. intros Hexit.
  destruct (missing_required args) eqn:Hm.
  { destruct (configure_missing args (start server files0)) as (w' & E & _);
      [congruence | exact Hm |].
    unfold main in Hexit. rewrite (bind_raise _ _ _ _ _ E) in Hexit. discriminate Hexit. }
  rewrite (main_auto _ _ _ Hmode Hm) in Hexit |- *.
  destruct (collect_data (config_of args) server _) as [w' [[]|e]] eqn:Ec;
    [|destruct e; discriminate Hexit].
  apply collect_data_returns_files in Ec.
  change (output (Line "Processing Data") ;;
          DATA <- read_collected_data ;;
          match process_mode (SUPPORT_API_MODE (config_of args)) DATA with
          | (RESULTS, Return _) => ret RESULTS
          | (_, Raise e) => raise e
          end) with (process_phase args) in *.
  pose proof (frame_process_phase args w') as [= _ _ Hf].
  rewrite Hf. split; [|exact Ec].
  destruct (all_files_present (files w')) eqn:Hp; [reflexivity|].
  unfold process_phase, output in Hexit. rewrite bind_modify in Hexit.
  rewrite (bind_raise _ _ _ _ _
             (read_collected_data_missing
                (mkWorld (requests w') (status_responses w') (files w')
                         (printed w' ++ [Line "Processing Data"])%list) Hp)) in Hexit.
  discriminate Hexit.
Qed.

Lemma auto_run_processes_this_collection_witness :
  let run := main (sample_args Auto) server_without_alerts
                  (start server_without_alerts no_files) in
  all_files_present (files (fst run)) = true /\
  collected (config_of (sample_args Auto)) server_without_alerts (files (fst run)).
Proof.
  cbv zeta.
  apply (auto_run_processes_this_collection (sample_args Auto) server_without_alerts
           no_files eq_refl).
  vm_compute. reflexivity.
Defined.

(** ** The login *)

Lemma appends_ret {A} (a : A) : appends (ret a).
Proof. intros w. exists []. now rewrite app_nil_r. Qed.

Lemma appends_raise {A} e : appends (raise (A := A) e).
Proof. intros w. exists []. now rewrite app_nil_r. Qed.

Lemma appends_frame {A} (m : M World A) : frame requests m -> appends m.
Proof. intros H w. exists []. now rewrite app_nil_r, H. Qed.

Lemma appends_bind {A B} (m : M World A) (f : A -> M World B) :
  appends m -> (forall a, appends (f a)) -> appends (bind m f).
Proof.
  intros Hm Hf w. unfold bind. destruct (Hm w) as [l1 H1].
  destruct (m w) as [w1 [a|e]]; cbn [fst] in *.
  - destruct (Hf a w1) as [l2 H2]. exists (l1 ++ l2)%list.
    now rewrite H2, H1, app_assoc.
  - now exists l1.
Qed.

Lemma appends_make_api_call {A} rq (response : Response A) :
  appends (make_api_call rq response).
Proof. intros w. exists [(rq, is_ok response)]. now destruct response. Qed.

Ltac appends_auto :=
  repeat first
    [ apply appends_ret
    | apply appends_raise
    | apply appends_make_api_call
    | apply appends_bind; [ | intros ? ]
    | match goal with
      | |- appends (if ?b then _ else _) => destruct b
      | |- appends (match ?x with _ => _ end) => destruct x
      end
    | apply appends_frame; solve [unfold output, write_file; frame_auto] ].

Lemma appends_get_job_status job_id : appends (get_job_status job_id).
Proof.
  unfold get_job_status. apply appends_bind.
  - apply appends_frame. intros w. unfold next_status_response.
    now destruct (status_responses w).
  - intros response. appends_auto.
Qed.

Lemma appends_poll_alert_job server job_id :
  forall turns job_status, appends (poll_alert_job server turns job_id job_status).
Proof.
  induction turns as [|turns IH]; intros job_status; cbn [poll_alert_job];
    destruct (String.eqb job_status "IN_PROGRESS").
  - apply appends_raise.
  - appends_auto.
  - apply appends_bind; [appends_auto | intros _].
    apply appends_bind; [apply appends_get_job_status | intros [job_status'|]].
    + apply IH.
    + apply appends_ret.
  - appends_auto.
Qed.

Lemma appends_flatten_accounts CONFIG server accounts :
  forall account_list, appends (flatten_accounts CONFIG server accounts account_list).
Proof.
  induction accounts as [|account rest IH]; intros account_list; cbn [flatten_accounts].
  - apply appends_ret.
  - destruct (has_children CONFIG account); [|apply IH].
    apply appends_bind; [apply appends_make_api_call | intros ?]. apply IH.
Qed.

Lemma appends_get_alerts CONFIG server : appends (get_alerts CONFIG server).
Proof.
  unfold get_alerts, get_alerts_aggregate.
  apply appends_bind; [appends_auto | intros _].
  destruct (SUPPORT_API_MODE CONFIG); [appends_auto|].
  apply appends_bind; [apply appends_make_api_call | intros [alert_job_id|]];
    [|appends_auto].
  apply appends_bind; [apply appends_get_job_status | intros [alert_job_status|]];
    [|apply appends_ret].
  apply appends_bind; [apply appends_frame, frame_get_state | intros w].
  apply appends_poll_alert_job.
Qed.

Lemma appends_get_accounts CONFIG server : appends (get_accounts CONFIG server).
Proof.
  unfold get_accounts.
  apply appends_bind; [appends_auto | intros _].
  apply appends_bind; [apply appends_make_api_call | intros ?].
  apply appends_bind; [apply appends_flatten_accounts | intros ?]. appends_auto.
Qed.

Lemma appends_output m : appends (output m).
Proof. apply appends_frame. unfold output. frame_auto. Qed.

Lemma appends_get_assets CONFIG server : appends (get_assets CONFIG server).
Proof. unfold get_assets. appends_auto. Qed.

Lemma appends_get_policies CONFIG server : appends (get_policies CONFIG server).
Proof. unfold get_policies. appends_auto. Qed.

Lemma appends_get_users CONFIG server : appends (get_users CONFIG server).
Proof. unfold get_users. appends_auto. Qed.

Lemma appends_get_account_groups CONFIG server : appends (get_account_groups CONFIG server).
Proof. unfold get_account_groups. appends_auto. Qed.

Lemma appends_get_alert_rules CONFIG server : appends (get_alert_rules CONFIG server).
Proof. unfold get_alert_rules. appends_auto. Qed.

Lemma appends_get_integrations CONFIG server : appends (get_integrations CONFIG server).
Proof. unfold get_integrations. appends_auto. Qed.

(** The steps of [collect_data] after the login. *)
Lemma appends_after_login CONFIG server : appends (collect_after_login CONFIG server).
Proof.
  unfold collect_after_login.
  repeat first
    [ apply appends_output
    | apply appends_get_assets
    | apply appends_get_policies
    | apply appends_get_alerts
    | apply appends_get_users
    | apply appends_get_accounts
    | apply appends_get_account_groups
    | apply appends_get_alert_rules
    | apply appends_get_integrations
    | apply appends_bind; [ | intros ? ] ].
Qed.

(** X16. The first request of a collection is the login.  When the login
    response is not ok or carries no token, the collection ends with exit
    status 1 after that one request: no other request is sent and no
    result file is deleted or written, so the files of an earlier run stay
    in place. *)
Theorem collection_starts_with_login :
  forall CONFIG server w,
    let run := collect_data CONFIG server w in
    (exists sent_later,
        requests (fst run)
        = (requests w ++ (login_request, is_ok (login_response server)) :: sent_later)%list) /\
    (login_token server = None ->
     snd run = Raise (SystemExit 1) /\
     requests (fst run)
     = (requests w ++ [(login_request, is_ok (login_response server))])%list /\
     files (fst run) = files w).
Proof.
  intros CONFIG server w. cbv zeta.
  set (w0 := mkWorld (requests w) (status_responses w) (files w)
                     (printed w ++ [Line "Generating Prisma Cloud API Token"])%list).
  assert (collect_data CONFIG server w
          = bind (get_prisma_login server) (fun _ => collect_after_login CONFIG server) w0)
    as -> by reflexivity.
  destruct (login_token server) as [token|] eqn:Htoken.
  - assert (get_prisma_login server w0
            = (mkWorld (requests w ++ [(login_request, true)])%list (status_responses w)
                       (files w) (printed w0), Return token)) as E.
    { unfold login_token in Htoken. unfold get_prisma_login.
      destruct (login_response server) as [[t|]| |]; try discriminate Htoken.
      destruct (String.eqb t EmptyString) eqn:Et; [discriminate Htoken|].
      injection Htoken as <-. cbn. now rewrite Et. }
    assert (is_ok (login_response server) = true) as Hok.
    { unfold login_token in Htoken. now destruct (login_response server) as [[t|]| |]. }
    split; [|discriminate].
    rewrite (bind_return _ _ _ _ _ E), Hok.
    destruct (appends_after_login CONFIG server
                (mkWorld (requests w ++ [(login_request, true)])%list (status_responses w)
                         (files w) (printed w0))) as [later H].
    exists later. cbn [requests] in H. rewrite H. now rewrite <- app_assoc.
  - assert (exists printed',
               get_prisma_login server w0
               = (mkWorld (requests w ++ [(login_request, is_ok (login_response server))])%list
                          (status_responses w) (files w) printed',
                  Raise (SystemExit 1))) as [printed' E].
    { unfold login_token in Htoken. unfold get_prisma_login.
      destruct (login_response server) as [[t|]| |]; cbn.
      - destruct (String.eqb t EmptyString) eqn:Et; [|discriminate Htoken].
        eexists. reflexivity.
      - eexists. reflexivity.
      - eexists. reflexivity.
      - eexists. reflexivity. }
    rewrite (bind_raise _ _ _ _ _ E). cbn.
    split; [now exists []|]. intros _. split; [reflexivity|]. split; reflexivity.
Qed.

Lemma collection_starts_with_login_witness :
  let run := collect_data (sample_config false) server_with_failing_login
                          (start server_with_failing_login no_files) in
  snd run = Raise (SystemExit 1) /\
  requests (fst run) = [(login_request, false)] /\
  files (fst run) = no_files.
Proof.
  cbv zeta.
  exact (proj2 (collection_starts_with_login (sample_config false)
                  server_with_failing_login
                  (start server_with_failing_login no_files)) eq_refl).
Defined.

(** ** The accounts *)

Lemma flatten_accounts_run CONFIG server accounts :
  children_served CONFIG server accounts ->
  forall account_list w,
    flatten_accounts CONFIG server accounts account_list w
    = (mkWorld (requests w ++ children_requests CONFIG accounts)%list (status_responses w)
               (files w) (printed w),
       Return (account_list ++ concat (map (expand_account CONFIG server) accounts))%list).
Proof.
  unfold children_served, children_requests.
  induction 1 as [|account rest Hok _ IH]; intros account_list w.
  - cbn. rewrite !app_nil_r. now destruct w.
  - cbn [flatten_accounts map concat List.filter]. unfold expand_account at 1.
    destruct (has_children CONFIG account) eqn:Hc.
    + specialize (Hok eq_refl).
      destruct (cloud_project_response server (cloudType account) (accountId account))
        as [children| |]; try discriminate Hok.
      rewrite (bind_return _ _ _ _ _ (make_api_call_ok _ _ _)), IH. cbn [map].
      cbn [requests status_responses files printed].
      now rewrite <- !app_assoc.
    + rewrite IH. now rewrite <- !app_assoc.
Qed.

(** X17. [get_accounts] for any accounts response whose follow-up
    requests end ok: it returns, the accounts file lists the accounts in
    the order of the response, an account that passes the test of its mode
    (type organization, or a positive child count with the support API)
    being replaced by the rows of its follow-up response and any other
    account kept as it is; one follow-up request is sent per account that
    passes the test, in order, after the accounts request. *)
Theorem accounts_flattened_in_order :
  forall CONFIG server accounts w,
    cloud_response server = Ok accounts ->
    children_served CONFIG server accounts ->
    let run := get_accounts CONFIG server w in
    snd run = Return tt /\
    accounts_file (files (fst run))
    = Some (concat (map (expand_account CONFIG server) accounts)) /\
    requests (fst run)
    = (requests w ++
       ((if SUPPORT_API_MODE CONFIG then mkRequest POST support_cloud_path
         else mkRequest GET cloud_path), true) :: children_requests CONFIG accounts)%list.
Proof.
  intros CONFIG server accounts w Hc Hs. cbv zeta.
  unfold get_accounts, write_file. rewrite bind_modify, Hc.
  rewrite (bind_return _ _ _ _ _ (make_api_call_ok _ _ _)).
  rewrite (bind_return _ _ _ _ _ (flatten_accounts_run _ _ _ Hs _ _)).
  cbn. split; [reflexivity|]. split; [reflexivity|]. now rewrite <- app_assoc.
Qed.

Lemma accounts_flattened_in_order_witness :
  let server := sample_server [sample_organization_as_child; sample_child_1] [] in
  let run := get_accounts (sample_config false) server (start server no_files) in
  snd run = Return tt /\
  accounts_file (files (fst run))
  = Some [sample_organization; sample_child_1] /\
  requests (fst run)
  = [(mkRequest GET cloud_path, true);
     (mkRequest GET (cloud_project_path "gcp" "org-1"), true)].
Proof.
  cbv zeta.
  apply (accounts_flattened_in_order (sample_config false)
           (sample_server [sample_organization_as_child; sample_child_1] [])
           [sample_organization]
           (start (sample_server [sample_organization_as_child; sample_child_1] [])
                  no_files) eq_refl).
  repeat constructor.
Defined.

(** ** Alerts and the tables of their policies *)

Lemma ensures_for_each_Forall {S A} (I : S -> Prop) (P : A -> Prop) (l : list A)
    (body : A -> M S unit) :
  (forall x, ensures I (body x) (fun _ s => I s /\ P x)) ->
  ensures I (for_each l body) (fun _ s => I s /\ Forall P l).
Proof.
  intros H. induction l as [|x l IH].
  - apply ensures_ret. now split.
  - cbn [for_each]. intros s s' [] HI E.
    apply bind_Return_inv in E as ([] & s1 & E1 & E2).
    destruct (H x s s1 tt HI E1) as [HI1 HP].
    destruct (IH s1 s' tt HI1 E2) as [HI' HF]. split; [exact HI'|]. now constructor.
Qed.

(** With [policy_totals_by_alert] empty, as line 504 creates it, the
    statements that count an alert through its policy do not return: line
    670 at the latest raises. *)
Lemma policy_level_counts_raises a r :
  policy_totals_by_alert r = ∅ -> exists e, snd (policy_level_counts a r) = Raise e.
Proof.
  intros Hempty.
  destruct (policy_level_counts a r) as [r' [[]|e]] eqn:E; [exfalso|eauto].
  unfold policy_level_counts in E.
  apply bind_Return_inv in E as (info & r1 & E1 & E).
  pose proof (frame_run policy_totals_by_alert _ _ _ _ (frame_read_policy _ _) E1) as H1.
  rewrite bind_modify in E.
  apply bind_Return_inv in E as ([] & r2 & E2 & E).
  assert (policy_totals_by_alert r2 = policy_totals_by_alert r1) as H2.
  { refine (frame_run policy_totals_by_alert _ _ _ _ _ E2). frame_auto. }
  apply bind_Return_inv in E as ([] & r3 & E3 & _).
  unfold add_policy_totals_by_alert, update in E3.
  rewrite H2 in E3. cbn [policy_totals_by_alert put_policy_counts_from_alerts] in E3.
  rewrite H1, Hempty in E3. unfold iadd in E3. rewrite lookup_empty in E3.
  discriminate E3.
Qed.

Lemma process_alert_attributes_nothing binding a x :
  fst (fst x) = ∅ ->
  ensures (fun r => attribution_side r = x) (process_alert binding a)
          (fun _ r => attribution_side r = x /\ skipped_as_deleted binding a).
Proof.
  intros Hx r r' [] Hr E. unfold process_alert in E.
  apply bind_Return_inv in E as ([] & r1 & E1 & E).
  assert (attribution_side r1 = attribution_side r) as H1.
  { refine (frame_run attribution_side _ _ _ _ _ E1).
    unfold alert_level_counts, add_alert_totals_by_alert. frame_auto. }
  apply bind_Return_inv in E as (found & r2 & E2 & E).
  destruct binding as [mem|]; [|discriminate E2]. injection E2 as <- <-.
  destruct (mem (alert_policyId a)) eqn:Hmem; cbn [negb] in E.
  - exfalso. destruct (policy_level_counts_raises a r1) as [e He].
    + rewrite <- Hx, <- Hr. now injection H1 as -> _ _.
    + rewrite E in He. discriminate He.
  - assert (attribution_side r' = attribution_side r1) as H2.
    { refine (frame_run attribution_side _ _ _ _ _ E).
      unfold policy_deleted_branch, add_alert_totals_by_alert. frame_auto. }
    split; [now rewrite H2, H1|].
    exists mem. split; [reflexivity|]. split; [exact Hmem|].
    unfold policy_deleted_branch in E. destruct (reason a); [eauto|discriminate E].
Qed.

(** X18. With the full API and whatever the name [policies] of line 658
    is bound to, no alert is ever attributed to a policy: a run of
    [process_collected_data] returns only when the alerts file is a list
    and every alert of it is skipped as an alert of a deleted policy (the
    binding reports its policy absent and the alert has a reason), and it
    leaves [policy_totals_by_alert] and the rollup of compliance standards
    built from alerts empty and [policy_counts_from_alerts] with its
    seeds only.  An alert whose policy is found raises at line 670 at the
    latest, [policy_totals_by_alert] being created empty (line 504). *)
Theorem alerts_never_reach_policy_tables :
  forall binding DATA RESULTS,
    process_collected_data_with binding false DATA empty_results = (RESULTS, Return tt) ->
    (exists alerts, ALERTS DATA = AlertsList alerts /\
                    Forall (skipped_as_deleted binding) alerts) /\
    policy_totals_by_alert RESULTS = ∅ /\
    compliance_standards_counts_from_alerts RESULTS = ∅ /\
    policy_counts_from_alerts RESULTS = policy_counts_from_alerts_seed.
Proof.
  intros binding DATA R E.
  apply process_collected_data_steps in E as (r1 & r3 & r5 & _ & E5 & E7 & _).
  apply process_summary_returns in E7 as (s & -> & _).
  unfold process_alerts_with in E5.
  destruct (ALERTS DATA) as [alerts|]; [|discriminate E5].
  destruct (ensures_for_each_Forall
              (fun r => attribution_side r = (∅, ∅, policy_counts_from_alerts_seed))
              (skipped_as_deleted binding) alerts (process_alert binding)
              (fun a => process_alert_attributes_nothing binding a
                          (∅, ∅, policy_counts_from_alerts_seed) eq_refl)
              (fst (init_alert_tables r3)) r5 tt eq_refl E5) as [[= H1 H2 H3] HF].
  split; [now exists alerts|]. cbn. now rewrite H1, H2, H3.
Qed.

Lemma alerts_never_reach_policy_tables_witness :
  let DATA := sample_data [sample_policy_high] (AlertsList [sample_alert_of_deleted_policy]) in
  let binding := Some (fun _ : string => false) in
  Forall (skipped_as_deleted binding) [sample_alert_of_deleted_policy] /\
  policy_totals_by_alert
    (fst (process_collected_data_with binding false DATA empty_results)) = ∅.
Proof.
  cbv zeta.
  destruct (alerts_never_reach_policy_tables
              (Some (fun _ : string => false))
              (sample_data [sample_policy_high] (AlertsList [sample_alert_of_deleted_policy]))
              (fst (process_collected_data_with
                      (Some (fun _ : string => false)) false
                      (sample_data [sample_policy_high]
                                   (AlertsList [sample_alert_of_deleted_policy]))
                      empty_results)))
    as ((alerts & Ha & HF) & H1 & _).
  - vm_compute. reflexivity.
  - injection Ha as <-. split; [exact HF | exact H1].
Defined.

(** X19. After a run of the full API that returned, the sheet 'Open
    Closed Alerts by Standard' is built without an exception and has no
    row of a compliance standard: its heading, two empty rows and the row
    of the time range. *)
Theorem open_closed_alerts_by_standard_sheet_is_empty :
  forall DATA time_range_label RESULTS,
    process_collected_data false DATA empty_results = (RESULTS, Return tt) ->
    open_closed_alerts_by_standard_rows time_range_label RESULTS []
    = ([standard_sheet_header; []; [];
        [CStr ("Time Range: " ++ time_range_label); CStr EmptyString]],
       Return tt).
Proof.
  intros DATA label R E.
  destruct (processed_full_api DATA R E) as (_ & Hside & _).
  injection Hside as Hcs _ _ _ _ _.
  unfold open_closed_alerts_by_standard_rows, standard_rows.
  rewrite Hcs, sorted_keys_empty. reflexivity.
Qed.

Lemma open_closed_alerts_by_standard_sheet_is_empty_witness :
  open_closed_alerts_by_standard_rows "Past 1 Week"
    (fst (process_collected_data false
            (sample_data [sample_policy_high; sample_policy_medium] (AlertsList []))
            empty_results)) []
  = ([standard_sheet_header; []; []; [CStr "Time Range: Past 1 Week"; CStr EmptyString]],
     Return tt).
Proof.
  apply (open_closed_alerts_by_standard_sheet_is_empty
           (sample_data [sample_policy_high; sample_policy_medium] (AlertsList []))).
  vm_compute. reflexivity.
Defined.

(** ** The sheet 'Open Alerts Summary' *)

Lemma process_policies_open_agree support ps r :
  Forall (fun p => severity p ∈ severities /\ policyType p ∈ policy_types) ps ->
  open_buckets_agree
    (alert_counts_from_policies
       (fst (process_policies support ps (fst (init_policy_tables r))))).
Proof.
  intros Hall.
  apply (preserves_for_each (fun r => open_buckets_agree (alert_counts_from_policies r))).
  - intros p Hp. rewrite Forall_forall in Hall. destruct (Hall p Hp) as [Hsev Hty].
    apply process_policy_keeps_open_buckets; [exact Hsev|].
    exact (proj1 (policy_type_seeded _ Hty)).
  - exists 0, 0, 0, 0. repeat split.
Qed.

(** X20. Whenever [process_collected_data] has returned, either API, for
    policies of documented severities and types, the sheet 'Open Alerts
    Summary' is built without an exception, shows a value under each of its
    labels of open alerts, and its figures add up: 'Open Alerts' is the sum
    of the three rows by severity, the sum of the six rows by policy type,
    and the sum of the rows of custom and of default policies. *)
Theorem open_alerts_summary_adds_up :
  forall support DATA RESULTS,
    Forall (fun p => severity p ∈ severities /\ policyType p ∈ policy_types)
           (POLICIES DATA) ->
    process_collected_data support DATA empty_results = (RESULTS, Return tt) ->
    exists rows,
      open_alerts_summary_rows RESULTS = Return rows /\
      Forall (fun label => is_Some (value_of label rows)) open_alert_labels /\
      let shown label := default 0 (value_of label rows) in
      shown "Open Alerts"
      = shown "Open Alerts High-Severity" + shown "Open Alerts Medium-Severity"
        + shown "Open Alerts Low-Severity" /\
      shown "Open Alerts"
      = shown "Open Anomaly Alerts" + shown "Open Audit Alerts"
        + shown "Open Config Alerts" + shown "Open Data Alerts"
        + shown "Open IAM Alerts" + shown "Open Network Alerts" /\
      shown "Open Alerts"
      = shown "Open Alerts Generated by Custom Policies"
        + shown "Open Alerts Generated by Default Policies".
Proof.
  intros support DATA R Hall E.
  pose proof (processed_open_sheets_ready _ _ _ _ _ E) as ((Hseed & _) & _ & [n1 H1] & [n2 H2]).
  apply process_collected_data_steps in E as (r1 & r3 & r5 & E3 & E5 & E7 & _).
  apply process_summary_returns in E7 as (s & HR & _).
  assert (alert_counts_from_policies R = alert_counts_from_policies r3) as Hac.
  { pose proof (frame_run policy_side _ _ _ _
                  (frame_process_alerts_policy_side module_policies support (ALERTS DATA))
                  E5) as Hf.
    rewrite HR. injection Hf as _ _ _ _ Hf. exact Hf. }
  pose proof (process_policies_open_agree support (POLICIES DATA) r1 Hall) as Hagree.
  pose proof (process_policies_balanced support (POLICIES DATA) r1 Hall) as [Ho Ht].
  rewrite E3 in Hagree, Ho, Ht. cbn [fst] in Hagree, Ho, Ht.
  rewrite <- Hac in Hagree, Ho, Ht.
  clear HR Hac E3 E5.
  assert (forall k, is_Some (alert_counts_from_policies_seed !! k) ->
                    exists v, alert_counts_from_policies R !! k = Some v) as Hk
      by (intros k Hs; exact (Hseed k Hs)).
  destruct Hagree as (o & h & m & l & Hlo & Hlh & Hlm & Hll & Hsum).
  unfold origin_gap, type_gap, count_of in Ho, Ht.
  rewrite Hlo in Ho, Ht.
  destruct (Hk "anomaly") as [a1 Ha1]; [vm_compute; eauto|].
  destruct (Hk "audit_event") as [a2 Ha2]; [vm_compute; eauto|].
  destruct (Hk "config") as [a3 Ha3]; [vm_compute; eauto|].
  destruct (Hk "data") as [a4 Ha4]; [vm_compute; eauto|].
  destruct (Hk "iam") as [a5 Ha5]; [vm_compute; eauto|].
  destruct (Hk "network") as [a6 Ha6]; [vm_compute; eauto|].
  destruct (Hk "shiftable") as [sh Hsh]; [vm_compute; eauto|].
  destruct (Hk "remediable") as [re Hre]; [vm_compute; eauto|].
  destruct (Hk "custom") as [cu Hcu]; [vm_compute; eauto|].
  destruct (Hk "default") as [de Hde]; [vm_compute; eauto|].
  rewrite Ha1, Ha2, Ha3, Ha4, Ha5, Ha6 in Ht. rewrite Hcu, Hde in Ho. cbn in Ho, Ht.
  unfold open_alerts_summary_rows, open_alerts_summary_lines.
  cbn [labelled_rows]. unfold getitem.
  rewrite H1, H2, Hlo, Hlh, Hlm, Hll, Ha1, Ha2, Ha3, Ha4, Ha5, Ha6, Hsh, Hre, Hcu, Hde.
  eexists. split; [reflexivity|]. split.
  - unfold open_alert_labels. repeat (constructor; [cbn; eauto|]). constructor.
  - cbn. split; [lia|]. split; lia.
Qed.

Lemma open_alerts_summary_adds_up_witness :
  exists rows,
    open_alerts_summary_rows
      (fst (process_collected_data false
              (sample_data [sample_policy_high; sample_policy_medium] (AlertsList []))
              empty_results))
    = Return rows /\
    value_of "Open Alerts" rows = Some 8.
Proof.
  destruct (open_alerts_summary_adds_up false
              (sample_data [sample_policy_high; sample_policy_medium] (AlertsList []))
              (fst (process_collected_data false
                      (sample_data [sample_policy_high; sample_policy_medium]
                                   (AlertsList []))
                      empty_results)))
    as (rows & E & _).
  - repeat constructor; cbn; unfold severities, policy_types; rewrite ?elem_of_cons; tauto.
  - vm_compute. reflexivity.
  - exists rows. split; [exact E|].
    assert (Return rows
            = open_alerts_summary_rows
                (fst (process_collected_data false
                        (sample_data [sample_policy_high; sample_policy_medium]
                                     (AlertsList []))
                        empty_results))) as H by (now rewrite E).
    vm_compute in H. injection H as ->. reflexivity.
Defined.
(** ** The cells 'With IAC' and 'With Remediation' *)

(** A loop that appends one row per element until an element raises. *)
Lemma for_each_rows {A} (l : list A) (body : A -> M (list (list Cell)) unit)
    (P : A -> list Cell -> Prop) (bad : A -> Prop) :
  (forall x rows,
      (exists row, body x rows = ((rows ++ [row])%list, Return tt) /\ P x row) \/
      (bad x /\ exists e, body x rows = (rows, Raise e))) ->
  forall rows, exists k new,
      Forall2 P (take k l) new /\
      ((k = length l /\ for_each l body rows = ((rows ++ new)%list, Return tt)) \/
       (exists x e, l !! k = Some x /\ bad x /\
                    for_each l body rows = ((rows ++ new)%list, Raise e))).
Proof.
  intros H. induction l as [|x l IH]; intros rows.
  - exists 0%nat, []. split; [constructor|]. left. split; [reflexivity|].
    cbn. now rewrite app_nil_r.
  - cbn [for_each]. destruct (H x rows) as [(row & E & HP)|(Hbad & e & E)].
    + destruct (IH (rows ++ [row])%list) as (k & new & HF & Hend).
      exists (S k), (row :: new). split; [now constructor|].
      rewrite (bind_return _ _ _ _ _ E).
      destruct Hend as [[-> E']|(y & e & Hy & Hbad & E')]; rewrite E', <- app_assoc.
      * left. now split.
      * right. now exists y, e.
    + exists 0%nat, []. split; [constructor|]. right. exists x, e.
      split; [reflexivity|]. split; [exact Hbad|].
      rewrite (bind_raise _ _ _ _ _ E). now rewrite app_nil_r.
Qed.

(** The rows of 'Open Closed Alerts by Policy' for any tables: one row per
    name up to the first name whose entry cannot be shown. *)
Lemma open_closed_alerts_by_policy_rows_run time_range_label RESULTS :
  let names := sorted_keys (policy_counts_from_alerts RESULTS) in
  let run := open_closed_alerts_by_policy_rows time_range_label RESULTS [] in
  exists k rows,
    Forall2 (is_counted_policy_row RESULTS) (take k names) rows /\
    ((k = length names /\
      run = (policy_sheet_header :: rows ++ closing_rows time_range_label, Return tt)%list) \/
     (exists policy_name e,
         names !! k = Some policy_name /\
         (forall row, ~ is_counted_policy_row RESULTS policy_name row) /\
         run = (policy_sheet_header :: rows, Raise e))).
Proof.
  cbv zeta. unfold open_closed_alerts_by_policy_rows, append_row. rewrite bind_modify.
  destruct (for_each_rows (sorted_keys (policy_counts_from_alerts RESULTS))
              (fun policy_name =>
                 entry <- lift (getitem (policy_counts_from_alerts RESULTS) policy_name) ;;
                 match entry with
                 | SeedCount _ => raise (TypeError "'int' object is not subscriptable")
                 | NameCount this_policy_id policy_alert_count =>
                     info <- lift (getitem (policies RESULTS) this_policy_id) ;;
                     modify (fun rows =>
                               (rows ++ [policy_row policy_name info
                                                    policy_alert_count])%list)
                 end)
              (is_counted_policy_row RESULTS)
              (fun policy_name => forall row, ~ is_counted_policy_row RESULTS policy_name row))
    with (rows := [policy_sheet_header]) as (k & rows & HF & Hend).
  - intros nm rows. unfold bind, lift, getitem, is_counted_policy_row.
    destruct (policy_counts_from_alerts RESULTS !! nm) as [[n|id n]|] eqn:E.
    + right. split; [|eauto]. intros row (? & ? & ? & [=] & _).
    + destruct (policies RESULTS !! id) as [info|] eqn:Ei.
      * left. exists (policy_row nm info n). split; [reflexivity|]. now exists id, n, info.
      * right. split; [|eauto]. intros row (? & ? & ? & [= <- <-] & Hi & _). congruence.
    + right. split; [|eauto]. intros row (? & ? & ? & [=] & _).
  - exists k, rows. split; [exact HF|].
    destruct Hend as [[-> E]|(nm & e & Hnm & Hbad & E)].
    + left. split; [reflexivity|]. rewrite (bind_return _ _ _ _ _ E).
      unfold bind, modify, closing_rows. cbn. now rewrite <- !app_assoc.
    + right. exists nm, e. split; [exact Hnm|]. split; [exact Hbad|].
      now rewrite (bind_raise _ _ _ _ _ E).
Qed.

(** With the full API a run that returns leaves [policy_counts_from_alerts]
    as it was seeded, whatever the name [policies] is bound to. *)
Lemma processed_policy_counts_seeded binding DATA R :
  process_collected_data_with binding false DATA empty_results = (R, Return tt) ->
  policy_counts_from_alerts R = policy_counts_from_alerts_seed.
Proof.
  intros E.
  apply process_collected_data_steps in E as (r1 & r3 & r5 & _ & E5 & E7 & _).
  apply process_summary_returns in E7 as (s & -> & _).
  unfold process_alerts_with in E5.
  destruct (ALERTS DATA) as [alerts|]; [|discriminate E5].
  destruct (ensures_for_each_Forall
              (fun r => attribution_side r = (∅, ∅, policy_counts_from_alerts_seed))
              (skipped_as_deleted binding) alerts (process_alert binding)
              (fun a => process_alert_attributes_nothing binding a
                          (∅, ∅, policy_counts_from_alerts_seed) eq_refl)
              (fst (init_alert_tables r3)) r5 tt eq_refl E5) as [[= _ _ H3] _].
  exact H3.
Qed.

(** C9.  The heading of both per-policy sheets has 'With IAC' in its sixth
    cell and 'With Remediation' in its seventh, and for any tables
    [RESULTS]:
    - 'Open Alerts by Policy', when every name leads to an entry of
      [RESULTS['policies']], is the heading and one row per name, in
      increasing order of name; the row of a name is the tuple of line 824
      for the entry reached through the name, and both cells hold the
      remediable flag of that entry;
    - 'Open Closed Alerts by Policy' is the heading and one row per name
      of [policy_counts_from_alerts], in increasing order, up to the first
      name whose entry is not a dictionary with an identifier of
      [RESULTS['policies']], where the loop raises; the row of a name is
      the tuple of line 840 for its count and the entry reached through its
      identifier, and both cells hold the remediable flag of that entry;
      the three closing rows follow when no name raises;
    - the shiftable flag of an entry does not reach the tuple;
    - when [RESULTS] is left by a run of [process_collected_data] that
      returned, every name leads to an entry, the entry of an identifier
      is that of the last policy of the policies file with it, its
      remediable flag the policy's and its shiftable flag the test of line
      581; and with the full API the second sheet is then the heading
      alone, line 831 raising on a seeded integer. *)
Theorem with_iac_column_is_remediable :
  forall RESULTS time_range_label,
    (policy_sheet_header !! 5%nat = Some (CStr "With IAC") /\
     policy_sheet_header !! 6%nat = Some (CStr "With Remediation")) /\
    (names_resolve RESULTS ->
     exists rows,
       open_alerts_by_policy_rows RESULTS [] = (policy_sheet_header :: rows, Return tt) /\
       Forall2 (fun policy_name row =>
                  exists this_policy_id info,
                    policies_by_name RESULTS !! policy_name = Some this_policy_id /\
                    policies RESULTS !! this_policy_id = Some info /\
                    row = policy_row policy_name info (alertCount info) /\
                    with_iac_and_with_remediation (policyRemediable info) row)
               (sorted_keys (policies_by_name RESULTS)) rows) /\
    (let names := sorted_keys (policy_counts_from_alerts RESULTS) in
     let run := open_closed_alerts_by_policy_rows time_range_label RESULTS [] in
     exists k rows,
       Forall2 (fun policy_name row =>
                  exists this_policy_id policy_alert_count info,
                    policy_counts_from_alerts RESULTS !! policy_name
                    = Some (NameCount this_policy_id policy_alert_count) /\
                    policies RESULTS !! this_policy_id = Some info /\
                    row = policy_row policy_name info policy_alert_count /\
                    with_iac_and_with_remediation (policyRemediable info) row)
               (take k names) rows /\
       ((k = length names /\
         run = (policy_sheet_header :: rows ++ closing_rows time_range_label,
                Return tt)%list) \/
        (exists policy_name e,
            names !! k = Some policy_name /\
            (forall row, ~ is_counted_policy_row RESULTS policy_name row) /\
            run = (policy_sheet_header :: rows, Raise e)))) /\
    (forall shiftable policy_name info n,
        policy_row policy_name (with_shiftable shiftable info) n
        = policy_row policy_name info n) /\
    (forall binding support DATA,
        process_collected_data_with binding support DATA empty_results
        = (RESULTS, Return tt) ->
        names_resolve RESULTS /\
        (forall this_policy_id info,
            policies RESULTS !! this_policy_id = Some info ->
            exists q,
              last_with policyId this_policy_id (POLICIES DATA) = Some q /\
              info = entry_of support (aggregated_alerts_by RESULTS) q /\
              policyRemediable info = remediable q /\
              policyShiftable info = bool_decide ("build" ∈ policySubTypes q)) /\
        (support = false ->
         open_closed_alerts_by_policy_rows time_range_label RESULTS []
         = ([policy_sheet_header],
            Raise (TypeError "'int' object is not subscriptable")))).
Proof.
  intros RESULTS label.
  split; [split; reflexivity|]. split; [|split; [|split; [reflexivity|]]].
  - intros Hr. destruct (open_alerts_by_policy_rows_returns RESULTS Hr) as (rows & E & HF).
    exists rows. split; [exact E|].
    eapply Forall2_impl; [exact HF|].
    intros nm row (id & info & Hid & Hinfo & ->). exists id, info.
    split; [exact Hid|]. split; [exact Hinfo|]. split; [reflexivity|]. split; reflexivity.
  - cbv zeta.
    destruct (open_closed_alerts_by_policy_rows_run label RESULTS)
      as (k & rows & HF & Hend).
    exists k, rows. split; [|exact Hend].
    eapply Forall2_impl; [exact HF|].
    intros nm row (id & n & info & Hid & Hinfo & ->). exists id, n, info.
    split; [exact Hid|]. split; [exact Hinfo|]. split; [reflexivity|]. split; reflexivity.
  - intros binding support DATA E.
    destruct (processed_policy_tables _ _ _ _ _ E) as [HX _].
    split; [|split].
    + now apply processed_open_sheets_ready in E as ((_ & _ & Hres) & _).
    + intros id info Hinfo. rewrite HX, foldl_insert_lookup in Hinfo.
      destruct (last_with policyId id (POLICIES DATA)) as [q|] eqn:Eq;
        [|now rewrite lookup_empty in Hinfo].
      injection Hinfo as <-. exists q. split; [reflexivity|]. split; [reflexivity|].
      split; reflexivity.
    + intros ->. unfold open_closed_alerts_by_policy_rows.
      rewrite (processed_policy_counts_seeded _ _ _ E).
      assert (sorted_keys policy_counts_from_alerts_seed
              = ["anomaly"; "audit_event"; "config"; "custom"; "data"; "default"; "high";
                 "iam"; "low"; "medium"; "network"]) as -> by (vm_compute; reflexivity).
      reflexivity.
Qed.

Lemma with_iac_column_is_remediable_witness :
  let DATA := sample_data [sample_policy_high; sample_policy_medium] (AlertsList []) in
  let RESULTS := fst (process_collected_data false DATA empty_results) in
  (exists rows,
      open_alerts_by_policy_rows RESULTS [] = (policy_sheet_header :: rows, Return tt) /\
      length rows = 2%nat) /\
  open_closed_alerts_by_policy_rows "Past 1 Week" RESULTS []
  = ([policy_sheet_header], Raise (TypeError "'int' object is not subscriptable")) /\
  (exists rows,
      open_closed_alerts_by_policy_rows "Past 1 Week" sample_results_with_counts []
      = (policy_sheet_header :: rows ++ closing_rows "Past 1 Week", Return tt)%list /\
      length rows = 2%nat).
Proof.
  cbv zeta.
  destruct (with_iac_column_is_remediable
              (fst (process_collected_data false
                      (sample_data [sample_policy_high; sample_policy_medium]
                                   (AlertsList []))
                      empty_results))
              "Past 1 Week") as (_ & Hopen & _ & _ & Hrun).
  destruct (Hrun module_policies false
                 (sample_data [sample_policy_high; sample_policy_medium] (AlertsList [])))
    as (Hres & _ & Hclosed); [vm_compute; reflexivity|].
  destruct (Hopen Hres) as (rows & E & HF).
  split; [|split].
  - exists rows. split; [exact E|].
    apply Forall2_length in HF. rewrite <- HF. vm_compute. reflexivity.
  - exact (Hclosed eq_refl).
  - destruct (with_iac_column_is_remediable sample_results_with_counts "Past 1 Week")
      as (_ & _ & Hsheet & _).
    cbv zeta in Hsheet.
    destruct Hsheet as (k & rows' & HF' & [[Hk E']|(nm & e & _ & _ & E')]).
    + exists rows'. split; [exact E'|].
      apply Forall2_length in HF'. rewrite <- HF', Hk. vm_compute. reflexivity.
    + vm_compute in E'. discriminate E'.
Defined.
(** ** Alerts whose policy is not in the policy table *)


Lemma alert_status_cases st :
  st ∈ alert_statuses ->
  st = "open" \/ st = "resolved" \/ st = "dismissed" \/ st = "snoozed".
Proof. unfold alert_statuses. rewrite !elem_of_cons, elem_of_nil. tauto. Qed.










